(** * The marine-analysis helper scripts of virocon-dev

    A shallow embedding of the three command-line utilities under
    [dev-info/marine_analysis/scripts] ([check_env.py], [check_data.py],
    [smoke_iform.py]) and the properties their specification states.

    Conventions of the embedding:
    - a Python [dict] that ends up in the JSON report is an association
      list in insertion order ([pydict]); the YAML configuration, whose
      order is never observed, is a [gmap];
    - an exception is its class name and its message, which is all the
      top-level handlers of the scripts look at;
    - everything the scripts obtain from outside (files, the import
      system, pandas, numpy, virocon, argparse) is a field of a [world]
      record, so that a run is a function of the world it happens in;
    - floating-point numbers are represented by the rationals they denote,
      plus NaN where the code can produce it.

    The tests of the three scripts ([tests/test_marine_analysis_scripts.py])
    are embedded as well. The last part of the file holds further
    properties of the scripts: their error reports, their edge cases and
    the order of the calls they make. *)

From Stdlib Require Import ZArith QArith Qminmax Lia.
From stdpp Require Import base option list strings gmap.

Set Warnings "-register-all".
Close Scope Q_scope.

(** ** Python values shared by the three scripts *)

Module Py.

(** An exception: [type(exc).__name__] and [str(exc)]. *)
Record exn := Exc { exc_type : string; exc_msg : string }.

(** The outcome of a call that may raise. *)
Inductive result (A : Type) :=
  | Ok (a : A)
  | Raise (e : exn).
Arguments Ok {A} a.
Arguments Raise {A} e.

#[global] Instance result_ret : MRet result := fun A a => Ok a.

#[global] Instance result_bind : MBind result := fun A B k r =>
  match r with
  | Ok a => k a
  | Raise e => Raise e
  end.

#[global] Instance result_fmap : FMap result := fun A B f r =>
  match r with
  | Ok a => Ok (f a)
  | Raise e => Raise e
  end.

Definition is_Ok {A} (r : result A) : Prop := exists a, r = Ok a.

(** The calls into the outside world whose occurrence matters: a run
    carries the list of those it made, oldest first. *)
Inductive event :=
  | ReadCsv (file : string) (nrows : option Z)
  | Mkdir (dir : string)
  | Fit (n_rows : nat)
  | Contour (alpha : Q) (n_points : Z)
  | ToCsv (file : string)
  | Savefig (file : string).

(** A computation that may raise and that records its calls. The calls
    made before an exception stay recorded. *)
Definition io (A : Type) : Type := list event -> result A * list event.

#[global] Instance io_ret : MRet io := fun A a t => (Ok a, t).

#[global] Instance io_bind : MBind io := fun A B k m t =>
  match m t with
  | (Ok a, t') => k a t'
  | (Raise e, t') => (Raise e, t')
  end.

Definition lift {A} (r : result A) : io A := fun t => (r, t).

(** Make the call [e], with outcome [r]. *)
Definition call {A} (e : event) (r : result A) : io A := fun t => (r, t ++ [e]).

(** The contours computed in a list of calls. *)
Definition contours (calls : list event) : list (Q * Z) :=
  omap (fun ev => match ev with Contour alpha n => Some (alpha, n) | _ => None end) calls.

(** A float: a finite value or NaN. *)
Inductive pyfloat :=
  | Fin (q : Q)
  | NaN.

(** What [json.dumps] receives. *)
Inductive json :=
  | JNull
  | JBool (b : bool)
  | JInt (z : Z)
  | JFloat (x : pyfloat)
  | JStr (s : string)
  | JList (l : list json)
  | JDict (kv : list (string * json)).

(** An insertion-ordered dictionary with string keys. *)
Definition pydict (V : Type) := list (string * V).

Fixpoint dict_get {V} (d : pydict V) (k : string) : option V :=
  match d with
  | [] => None
  | (k', v) :: d' => if decide (k' = k) then Some v else dict_get d' k
  end.

(** [d[k] = v]: an existing key keeps its position, a new one goes last. *)
Fixpoint dict_set {V} (d : pydict V) (k : string) (v : V) : pydict V :=
  match d with
  | [] => [(k, v)]
  | (k', v') :: d' =>
      if decide (k' = k) then (k', v) :: d' else (k', v') :: dict_set d' k v
  end.

Definition dict_keys {V} (d : pydict V) : list string := d.*1.
Definition dict_values {V} (d : pydict V) : list V := d.*2.

(** [payload[k]] on a report. *)
Definition jget (j : json) (k : string) : option json :=
  match j with
  | JDict kv => dict_get kv k
  | _ => None
  end.

Definition jkeys (j : json) : list string :=
  match j with
  | JDict kv => dict_keys kv
  | _ => []
  end.

(** A scalar of a flat YAML document. *)
Inductive yaml_value :=
  | YStr (s : string)
  | YInt (z : Z)
  | YFloat (q : Q)
  | YOther.

(** What [yaml.safe_load] returns: a mapping or something else. *)
Inductive yaml_doc :=
  | YMapping (m : gmap string yaml_value)
  | YNotMapping.

(** [cfg[key]]. *)
Definition getitem (cfg : gmap string yaml_value) (key : string) : result yaml_value :=
  match cfg !! key with
  | Some v => Ok v
  | None => Raise (Exc "KeyError" ("'" +:+ key +:+ "'"))
  end.

(** [Path(v)] accepts a string only. *)
Definition Path (v : yaml_value) : result string :=
  match v with
  | YStr s => Ok s
  | _ => Raise (Exc "TypeError" "expected str, bytes or os.PathLike object")
  end.

(** The payload of the top-level [except Exception] handlers. *)
Definition describe (e : exn) : string := exc_type e +:+ ": " +:+ exc_msg e.

(** What [parser.parse_args()] does with a command line: it returns the
    parsed arguments, or leaves the process through [SystemExit] (status 2
    for a command line it rejects, 0 after [--help]). *)
Inductive parse_outcome (A : Type) :=
  | Parsed (args : A)
  | SystemExit (code : Z).
Arguments Parsed {A} args.
Arguments SystemExit {A} code.

(** [payload[k1][k2]...] on a report. *)
Fixpoint jpath (j : json) (ks : list string) : option json :=
  match ks with
  | [] => Some j
  | k :: ks' =>
      match jget j k with
      | Some j' => jpath j' ks'
      | None => None
      end
  end.

(** The quotient of two integers as a float: NaN for 0/0. *)
Definition float_div (a b : Z) : pyfloat :=
  if decide (b = 0%Z) then NaN else Fin (inject_Z a / inject_Z b)%Q.

(** The boolean under ["success"] in a report. *)
Definition success_flag (payload : json) : option bool :=
  match jget payload "success" with
  | Some (JBool b) => Some b
  | _ => None
  end.

End Py.
Import Py.

(** ** check_env.py *)

Module CheckEnv.

(** A resolved absolute path: its components below the filesystem root. *)
Definition path := list string.

(** [p.parents]: the proper ancestors of [p], nearest first. *)
Definition parents (p : path) : list path :=
  reverse ((fun n => take n p) <$> seq 0 (length p)).

(** An imported module, as far as the script looks at it. *)
Record module_obj := {
  mod_file : option string;     (* [inspect.getfile]; [None]: it raises *)
  mod_version : option string   (* [__version__], when the attribute exists *)
}.

Record world := {
  safe_load : string -> result yaml_doc;       (* open the file and parse it *)
  resolve : string -> path;                    (* [Path(s).resolve()] *)
  import_module : string -> result module_obj; (* [importlib.import_module] *)
  python_version : string;
  parse_args : list string -> parse_outcome string; (* the [--paths] value *)
  print_json : json -> result unit             (* [print(json.dumps(payload, ...))] *)
}.

Definition _load_yaml (w : world) (file : string) : result (gmap string yaml_value) :=
  data ← safe_load w file;
  match data with
  | YMapping m => Ok m
  | YNotMapping => Raise (Exc "ValueError" ("YAML root must be a mapping: " +:+ file))
  end.

(** The entry of [statuses] for one module. *)
Inductive status :=
  | StOk
  | StError (msg : string).

Definition status_ok (s : status) : bool :=
  match s with StOk => true | StError _ => false end.

Definition status_json (s : status) : json :=
  match s with
  | StOk => JDict [("ok", JBool true)]
  | StError msg => JDict [("ok", JBool false); ("error", JStr msg)]
  end.

(** One iteration of the loop of [_check_imports]. *)
Definition check_import (w : world) (acc : pydict status * pydict module_obj)
    (name : string) : pydict status * pydict module_obj :=
  let '(statuses, imported) := acc in
  match import_module w name with
  | Ok m => (dict_set statuses name StOk, dict_set imported name m)
  | Raise exc => (dict_set statuses name (StError (describe exc)), imported)
  end.

Definition _check_imports (w : world) (module_names : list string)
    : pydict status * pydict module_obj :=
  foldl (check_import w) ([], []) module_names.

Definition module_names : list string :=
  ["virocon"; "numpy"; "pandas"; "scipy"; "sklearn"; "matplotlib"; "yaml"].

Definition path_str (p : path) : string :=
  match p with
  | [] => "/"
  | _ => foldr (fun c s => "/" +:+ c +:+ s) "" p
  end.

Definition opt_json {A} (f : A -> json) (o : option A) : json :=
  match o with Some a => f a | None => JNull end.

Definition run (w : world) (paths_file : string) : result (json * Z) :=
  config ← _load_yaml w paths_file;
  root ← getitem config "repo_root";
  root ← Path root;
  let repo_root := resolve w root in
  let '(imports, imported_modules) := _check_imports w module_names in
  let virocon_module := dict_get imported_modules "virocon" in
  found ← match virocon_module with
           | None => Ok (None, None, false)
           | Some m =>
               match mod_file m with
               | None => Raise (Exc "TypeError" "<module 'virocon'> is a built-in module")
               | Some f =>
                   let virocon_file := resolve w f in
                   let virocon_version := default "unknown" (mod_version m) in
                   Ok (Some virocon_file, Some virocon_version,
                       bool_decide (repo_root ∈ parents virocon_file))
               end
           end;
  let '(virocon_file, virocon_version, source_in_repo) := found in
  let success := forallb status_ok (dict_values imports) && source_in_repo in
  let payload := JDict [
    ("success", JBool success);
    ("python_version", JStr (python_version w));
    ("virocon_version", opt_json JStr virocon_version);
    ("virocon_file", opt_json (fun p => JStr (path_str p)) virocon_file);
    ("repo_root", JStr (path_str repo_root));
    ("source_in_repo", JBool source_in_repo);
    ("imports", JDict (prod_map id status_json <$> imports))
  ] in
  Ok (payload, if success then 0 else 1)%Z.

(** The [try]/[except] of [main], after the command line was parsed. *)
Definition guarded_run (w : world) (paths_file : string) : json * Z :=
  match run w paths_file with
  | Ok r => r
  | Raise exc => (JDict [("success", JBool false); ("error", JStr (describe exc))], 1%Z)
  end.

(** The script run as a program: the [import yaml] at its top, then
    [sys.exit(main())]. The result is what is printed on standard output,
    if anything, and the exit status of the process. An exception that
    nothing catches (the import failing, or the report failing to be
    serialized or printed, which [main] does after its [try]) ends the
    process in a traceback: status 1 and no report. *)
Definition main (w : world) (argv : list string) : option json * Z :=
  match import_module w "yaml" with
  | Raise _ => (None, 1%Z)
  | Ok _ =>
      match parse_args w argv with
      | SystemExit code => (None, code)
      | Parsed paths =>
          let '(payload, exit_code) := guarded_run w paths in
          match print_json w payload with
          | Ok _ => (Some payload, exit_code)
          | Raise _ => (None, 1%Z)
          end
      end
  end.

(** *** The vocabulary of the specification *)

(** [p] lies strictly below [root]. *)
Definition strictly_under (root p : path) : Prop :=
  ∃ rest, rest ≠ [] ∧ p = root ++ rest.

(** What the loop of [_check_imports] records for one module. *)
Definition status_of (w : world) (name : string) : status :=
  match import_module w name with
  | Ok _ => StOk
  | Raise exc => StError (describe exc)
  end.

Definition module_of (w : world) (name : string) : option module_obj :=
  match import_module w name with
  | Ok m => Some m
  | Raise _ => None
  end.

(** The loop invariant of [_check_imports], after the names [seen]. *)
Record imports_inv (w : world) (seen : list string)
    (acc : pydict status * pydict module_obj) : Prop := {
  inv_sound : ∀ k s, (k, s) ∈ acc.1 → k ∈ seen ∧ s = status_of w k;
  inv_complete : ∀ k, k ∈ seen → (k, status_of w k) ∈ acc.1;
  inv_modules : ∀ k, dict_get acc.2 k = if decide (k ∈ seen) then module_of w k else None
}.

(** Every name of the list imported. *)
Definition all_imported (w : world) (names : list string) : Prop :=
  ∀ name, name ∈ names → is_Ok (import_module w name).

(** The configured repository root, when the configuration has one. *)
Definition configured_root (w : world) (paths_file : string) : option string :=
  match _load_yaml w paths_file with
  | Ok config =>
      match config !! "repo_root" with
      | Some (YStr root) => Some root
      | _ => None
      end
  | Raise _ => None
  end.

(** The environment is as the checker wants it: the configuration names a
    root, every listed module imports, and the file of [virocon] lies
    strictly below the root, both resolved. *)
Definition healthy (w : world) (paths_file : string) : Prop :=
  ∃ root, configured_root w paths_file = Some root ∧
    all_imported w module_names ∧
    ∃ m f, import_module w "virocon" = Ok m ∧ mod_file m = Some f ∧
      strictly_under (resolve w root) (resolve w f).

End CheckEnv.

(** ** pandas tables, as the two data scripts use them *)

Module Pandas.

(** A field of a CSV file as [pd.read_csv] hands it over: missing, a
    number, or text. *)
Inductive cell :=
  | NA
  | Num (q : Q)
  | Str (s : string).

(** A table: the header and the data rows, in file order. A row shorter
    than the header is missing its last fields. *)
Record DataFrame := {
  columns : list string;
  rows : list (list cell)
}.

(** [len(df)] *)
Definition len (df : DataFrame) : nat := length (rows df).

(** [df[col]] *)
Definition getcol (df : DataFrame) (col : string) : result (list cell) :=
  match list_find (eq col) (columns df) with
  | Some (i, _) => Ok ((fun r => default NA (r !! i)) <$> rows df)
  | None => Raise (Exc "KeyError" ("'" +:+ col +:+ "'"))
  end.

(** [pd.read_csv(..., nrows=nrows)] on a parsed file: the first [nrows]
    data rows, or all of them. *)
Definition head (nrows : option Z) (df : DataFrame) : DataFrame :=
  match nrows with
  | Some n => {| columns := columns df; rows := take (Z.to_nat n) (rows df) |}
  | None => df
  end.

(** [series.isna()] on one value. *)
Definition isna (c : cell) : bool :=
  match c with NA => true | _ => false end.

(** [pd.to_numeric(series, errors="coerce")] on one value, given what
    pandas makes of a text. *)
Definition to_numeric (text_number : string -> option Q) (c : cell) : option Q :=
  match c with
  | NA => None
  | Num q => Some q
  | Str s => text_number s
  end.

(** [int(mask.sum())] *)
Definition sum (mask : list bool) : Z := Z.of_nat (length (filter Is_true mask)).

(** [float(mask.mean())]: NaN on an empty series. *)
Definition mean (mask : list bool) : pyfloat :=
  match mask with
  | [] => NaN
  | _ => Fin (inject_Z (sum mask) / inject_Z (Z.of_nat (length mask)))%Q
  end.

(** [numeric.dropna()] *)
Definition dropna (numeric : list (option Q)) : list Q := omap id numeric.

(** [numeric.min()] and [numeric.max()], which skip the missing values;
    [None] stands for the NaN of a series without any value. *)
Definition min (numeric : list (option Q)) : option Q :=
  match dropna numeric with
  | [] => None
  | x :: xs => Some (foldl Qmin x xs)
  end.

Definition max (numeric : list (option Q)) : option Q :=
  match dropna numeric with
  | [] => None
  | x :: xs => Some (foldl Qmax x xs)
  end.

End Pandas.

(** ** check_data.py *)

Module CheckData.
Import Pandas.

Definition METOCEAN_REQUIRED : list string :=
  ["valid_time"; "10米风速"; "有义波高"; "峰值波周期"].
Definition CURRENT_REQUIRED : list string :=
  ["index"; "流速 （节）"; "流向 - 去向"].

(** The parsed command line. *)
Record args := {
  paths : string;
  quick : bool;
  full : bool
}.

Record world := {
  safe_load : string -> result yaml_doc;  (* open the file and parse it *)
  is_file : string -> bool;               (* [Path.is_file] *)
  read_csv : string -> result DataFrame;  (* the whole file, parsed *)
  text_number : string -> option Q;       (* the number pandas reads in a text *)
  parse_args : list string -> parse_outcome args;
  imports : result unit;                  (* the imports at the top of the script *)
  print_json : json -> result unit        (* [print(json.dumps(payload, ...))] *)
}.

Definition _load_yaml (w : world) (file : string) : result (gmap string yaml_value) :=
  data ← safe_load w file;
  match data with
  | YMapping m => Ok m
  | YNotMapping => Raise (Exc "ValueError" ("YAML root must be a mapping: " +:+ file))
  end.

Definition _missing_columns (df : DataFrame) (required : list string) : list string :=
  filter (fun col => col ∉ columns df) required.

(** [numeric.isna()] on one value. *)
Definition isnan (n : option Q) : bool :=
  match n with None => true | Some _ => false end.

Definition float_json (o : option Q) : json :=
  match o with
  | None => JNull
  | Some q => JFloat (Fin q)
  end.

(** The body of the loop of [_numeric_stats]: the entry of one column. *)
Definition column_stats (w : world) (raw : list cell) : json :=
  let raw_na := isna <$> raw in
  let numeric := to_numeric (text_number w) <$> raw in
  let non_numeric_count :=
    sum (zip_with (fun na n => negb na && isnan n) raw_na numeric) in
  JDict [
    ("na_count", JInt (sum raw_na));
    ("na_rate", JFloat (mean raw_na));
    ("non_numeric_count", JInt non_numeric_count);
    ("min", float_json (match dropna numeric with [] => None | _ => Pandas.min numeric end));
    ("max", float_json (match dropna numeric with [] => None | _ => Pandas.max numeric end))
  ].

Fixpoint numeric_stats_from (w : world) (df : DataFrame) (out : pydict json)
    (columns : list string) : result (pydict json) :=
  match columns with
  | [] => Ok out
  | col :: columns' =>
      raw ← getcol df col;
      numeric_stats_from w df (dict_set out col (column_stats w raw)) columns'
  end.

Definition _numeric_stats (w : world) (df : DataFrame) (columns : list string)
    : result (pydict json) :=
  numeric_stats_from w df [] columns.

Definition _read_csv (w : world) (file : string) (nrows : option Z) : io DataFrame :=
  call (ReadCsv file nrows) (head nrows <$> read_csv w file).

Definition str_list (l : list string) : json := JList (JStr <$> l).

Definition dataset_report (df : DataFrame) (stats : pydict json) : json :=
  JDict [
    ("rows_read", JInt (Z.of_nat (len df)));
    ("columns", str_list (columns df));
    ("required_columns_ok", JBool true);
    ("numeric_stats", JDict stats)
  ].

Definition run (w : world) (paths_file mode : string) : io (json * Z) :=
  cfg ← lift (_load_yaml w paths_file);
  metocean_path ← lift (getitem cfg "metocean_csv" ≫= Path);
  current_path ← lift (getitem cfg "current_csv" ≫= Path);
  let errors :=
    (if is_file w metocean_path then []
     else ["metocean_csv not found: " +:+ metocean_path]) ++
    (if is_file w current_path then []
     else ["current_csv not found: " +:+ current_path]) in
  let paths_json :=
    JDict [("metocean_csv", JStr metocean_path); ("current_csv", JStr current_path)] in
  match errors with
  | _ :: _ =>
      mret (JDict [
              ("success", JBool false);
              ("mode", JStr mode);
              ("errors", str_list errors);
              ("paths", paths_json)
            ], 1%Z)
  | [] =>
      let nrows := if decide (mode = "quick") then Some 5000%Z else None in
      metocean_df ← _read_csv w metocean_path nrows;
      current_df ← _read_csv w current_path nrows;
      let metocean_missing := _missing_columns metocean_df METOCEAN_REQUIRED in
      let current_missing := _missing_columns current_df CURRENT_REQUIRED in
      match metocean_missing, current_missing with
      | [], [] =>
          let metocean_numeric_cols := filter (fun c => c ≠ "valid_time") METOCEAN_REQUIRED in
          let current_numeric_cols := filter (fun c => c ≠ "index") CURRENT_REQUIRED in
          metocean_stats ← lift (_numeric_stats w metocean_df metocean_numeric_cols);
          current_stats ← lift (_numeric_stats w current_df current_numeric_cols);
          mret (JDict [
                  ("success", JBool true);
                  ("mode", JStr mode);
                  ("paths", paths_json);
                  ("metocean", dataset_report metocean_df metocean_stats);
                  ("current", dataset_report current_df current_stats)
                ], 0%Z)
      | _, _ =>
          mret (JDict [
                  ("success", JBool false);
                  ("mode", JStr mode);
                  ("errors", str_list ["required columns missing"]);
                  ("missing_columns",
                   JDict [("metocean_csv", str_list metocean_missing);
                          ("current_csv", str_list current_missing)])
                ], 1%Z)
      end
  end.

(** The [try]/[except] of [main], after the command line was parsed. *)
Definition guarded_run (w : world) (paths_file mode : string) : json * Z :=
  match run w paths_file mode [] with
  | (Ok r, _) => r
  | (Raise exc, _) =>
      (JDict [("success", JBool false); ("mode", JStr mode);
              ("error", JStr (describe exc))], 1%Z)
  end.

(** The script run as a program: the imports at its top ([pandas] and
    [yaml] among them), then [sys.exit(main())]. The result is what is
    printed on standard output, if anything, and the exit status of the
    process. An exception that nothing catches (an import failing, or the
    report failing to be serialized or printed, which [main] does after
    its [try]) ends the process in a traceback: status 1 and no report. *)
Definition main (w : world) (argv : list string) : option json * Z :=
  match imports w with
  | Raise _ => (None, 1%Z)
  | Ok _ =>
      match parse_args w argv with
      | SystemExit code => (None, code)
      | Parsed a =>
          let mode := if quick a then "quick" else "full" in
          let '(payload, exit_code) := guarded_run w (paths a) mode in
          match print_json w payload with
          | Ok _ => (Some payload, exit_code)
          | Raise _ => (None, 1%Z)
          end
      end
  end.

(** *** The vocabulary of the specification *)

(** The configuration file names the two data files. *)
Definition configured (w : world) (paths_file metocean_path current_path : string) : Prop :=
  ∃ cfg, _load_yaml w paths_file = Ok cfg ∧
    cfg !! "metocean_csv" = Some (YStr metocean_path) ∧
    cfg !! "current_csv" = Some (YStr current_path).

(** The configured files that do not exist, under their configuration
    keys. *)
Definition missing_files (w : world) (metocean_path current_path : string)
    : list (string * string) :=
  filter (fun entry => is_file w entry.2 = false)
         [("metocean_csv", metocean_path); ("current_csv", current_path)].

Definition not_found (entry : string * string) : string :=
  entry.1 +:+ " not found: " +:+ entry.2.

(** The required columns without the identifier of each dataset. *)
Definition METOCEAN_NUMERIC : list string := ["10米风速"; "有义波高"; "峰值波周期"].
Definition CURRENT_NUMERIC : list string := ["流速 （节）"; "流向 - 去向"].

(** The report has, for [dataset], statistics for exactly the columns
    [cols], and every rate of missing values in them is the count of
    missing values divided by the number of rows read. *)
Definition stats_reported (payload : json) (dataset : string) (cols : list string) : Prop :=
  ∃ rows stats,
    jpath payload [dataset; "rows_read"] = Some (JInt rows) ∧
    jpath payload [dataset; "numeric_stats"] = Some (JDict stats) ∧
    dict_keys stats = cols ∧
    ∀ col entry, dict_get stats col = Some entry →
      ∃ na_count, jget entry "na_count" = Some (JInt na_count) ∧
        jget entry "na_rate" = Some (JFloat (float_div na_count rows)).

(** The number of rows the mode asks for. *)
Definition rows_wanted (mode : string) : option Z :=
  if decide (mode = "quick") then Some 5000%Z else None.

(** A value that is present and that pandas does not read as a number. *)
Definition non_numeric (w : world) (c : cell) : bool :=
  negb (isna c) && isnan (to_numeric (text_number w) c).

End CheckData.

(** ** smoke_iform.py *)

Module SmokeIform.
Import Pandas.

(** The parsed command line. *)
Record args := {
  paths : string;
  runtime : string
}.

(** A fitted [GlobalHierarchicalModel]: the parameters virocon estimated. *)
Definition model := list Q.

(** A two-column numeric table: one pair per row. *)
Abbreviation table := (list (Q * Q)).

(** The coordinates of a contour: one pair per point; a coordinate can be
    NaN. *)
Abbreviation curve := (list (pyfloat * pyfloat)).

Record world := {
  safe_load : string -> result yaml_doc;  (* open the file and parse it *)
  mkdir : string -> result unit;          (* [mkdir(parents=True, exist_ok=True)] *)
  read_csv : string -> result DataFrame;  (* the whole file, parsed *)
  text_number : string -> option Q;       (* the number pandas reads in a text *)
  int_of_str : string -> option Z;        (* [int(s)] on a string *)
  float_of_str : string -> option Q;      (* [float(s)] on a string *)
  (* the row positions [DataFrame.sample] draws: seed, number of rows, n *)
  sample_indices : Z -> nat -> Z -> result (list nat);
  fit : table -> result model;            (* [_build_model()] and [model.fit] *)
  calculate_alpha : Q -> Z -> Q;          (* state duration, return period *)
  iform_contour : model -> Q -> Z -> result curve;  (* [IFORMContour(...).coordinates] *)
  to_csv : string -> list string -> curve -> result unit;
  savefig : string -> table -> curve -> result unit;
  parse_args : list string -> parse_outcome args;
  imports : result unit;                  (* the imports at the top of the script *)
  print_json : json -> result unit        (* [print(json.dumps(payload, ...))] *)
}.

Definition _load_yaml (w : world) (file : string) : result (gmap string yaml_value) :=
  data ← safe_load w file;
  match data with
  | YMapping m => Ok m
  | YNotMapping => Raise (Exc "ValueError" ("YAML root must be a mapping: " +:+ file))
  end.

(** [int(v)]: a float is truncated towards zero. *)
Definition py_int (w : world) (v : yaml_value) : result Z :=
  match v with
  | YInt z => Ok z
  | YFloat q => Ok (Qnum q ÷ Zpos (Qden q))%Z
  | YStr s =>
      match int_of_str w s with
      | Some z => Ok z
      | None => Raise (Exc "ValueError" ("invalid literal for int() with base 10: '" +:+ s +:+ "'"))
      end
  | YOther => Raise (Exc "TypeError" "int() argument must be a string, a bytes-like object or a real number")
  end.

(** [float(v)] *)
Definition py_float (w : world) (v : yaml_value) : result Q :=
  match v with
  | YInt z => Ok (inject_Z z)
  | YFloat q => Ok q
  | YStr s =>
      match float_of_str w s with
      | Some q => Ok q
      | None => Raise (Exc "ValueError" ("could not convert string to float: '" +:+ s +:+ "'"))
      end
  | YOther => Raise (Exc "TypeError" "float() argument must be a string or a real number")
  end.

(** A column label taken from the configuration: pandas finds no column
    of the file under a label that is not a string. *)
Definition label (v : yaml_value) : result string :=
  match v with
  | YStr s => Ok s
  | _ => Raise (Exc "ValueError" "Usecols do not match columns")
  end.

(** [usecols=names]: the named columns, in file order; every name must be
    a column of the file. *)
Definition usecols (names : list string) (df : DataFrame) : result DataFrame :=
  if decide (names ⊆ columns df) then
    let kept := filter (fun i => default "" (columns df !! i) ∈ names)
                       (seq 0 (length (columns df))) in
    Ok {| columns := (fun i => default "" (columns df !! i)) <$> kept;
          rows := (fun r => (fun i => default NA (r !! i)) <$> kept) <$> rows df |}
  else Raise (Exc "ValueError" "Usecols do not match columns").

(** [x > 0] *)
Definition positive (x : Q) : bool := negb (Qle_bool x 0).

(** [df.sample(n=n, random_state=random_state)] *)
Definition sample {A} (w : world) (df : list A) (n random_state : Z) : result (list A) :=
  (fun idxs : list nat => omap (fun i => df !! i) idxs)
    <$> sample_indices w random_state (length df) n.

(** The cleaning steps of [_prepare_data] on the two columns. *)
Definition coerce_columns (w : world) (primary secondary : list cell)
    : list (option Q * option Q) :=
  zip (to_numeric (text_number w) <$> primary) (to_numeric (text_number w) <$> secondary).

Definition dropna_subset (df : list (option Q * option Q)) : table :=
  omap (fun r => x ← r.1; y ← r.2; Some (x, y)) df.

Definition keep_positive (df : table) : table :=
  filter (fun r => positive r.1 && positive r.2) df.

Definition clean (w : world) (primary secondary : list cell) : table :=
  keep_positive (dropna_subset (coerce_columns w primary secondary)).

Definition _prepare_data (w : world) (csv_path : string)
    (primary_var secondary_var : yaml_value) (max_rows random_seed : Z)
    : io (table * nat) :=
  raw_df ← call (ReadCsv csv_path None)
             (p ← label primary_var; s ← label secondary_var;
              df ← read_csv w csv_path; usecols [p; s] df);
  let raw_rows := len raw_df in
  primary ← lift (label primary_var ≫= getcol raw_df);
  secondary ← lift (label secondary_var ≫= getcol raw_df);
  let clean_df := clean w primary secondary in
  clean_df ← lift (if decide (max_rows < Z.of_nat (length clean_df))%Z
                   then sample w clean_df max_rows random_seed
                   else Ok clean_df);
  match clean_df with
  | [] => lift (Raise (Exc "ValueError" "No valid samples remain after preprocessing."))
  | _ => mret (clean_df, raw_rows)
  end.

Definition _plot_contour (w : world) (sample_df : table) (coordinates : curve)
    (out_path : string) : io unit :=
  plot_df ← lift (if decide (5000 < Z.of_nat (length sample_df))%Z
                  then sample w sample_df 5000 42
                  else Ok sample_df);
  call (Savefig out_path) (savefig w out_path plot_df coordinates).

(** The values of an array that are numbers. *)
Definition numbers (xs : list pyfloat) : list Q :=
  omap (fun x => match x with Fin q => Some q | NaN => None end) xs.

(** [np.nanmax] of one column of the coordinates: the greatest of the
    values that are numbers; NaN (with a warning) when every value is
    NaN; an empty array raises. *)
Definition nanmax (xs : list pyfloat) : result pyfloat :=
  match xs with
  | [] => Raise (Exc "ValueError" "zero-size array to reduction operation fmax which has no identity")
  | _ =>
      match numbers xs with
      | [] => Ok NaN
      | q :: qs => Ok (Fin (foldl Qmax q qs))
      end
  end.

Definition yaml_json (v : yaml_value) : json :=
  match v with
  | YStr s => JStr s
  | YInt z => JInt z
  | YFloat q => JFloat (Fin q)
  | YOther => JNull
  end.

Definition run (w : world) (paths_file runtime_file : string) : io (json * Z) :=
  paths_cfg ← lift (_load_yaml w paths_file);
  runtime_cfg ← lift (_load_yaml w runtime_file);
  metocean_csv ← lift (getitem paths_cfg "metocean_csv" ≫= Path);
  output_dir ← lift (getitem paths_cfg "output_dir" ≫= Path);
  _ ← call (Mkdir output_dir) (mkdir w output_dir);
  primary_var ← lift (getitem runtime_cfg "smoke_primary_var");
  secondary_var ← lift (getitem runtime_cfg "smoke_secondary_var");
  max_rows ← lift (getitem runtime_cfg "smoke_max_rows" ≫= py_int w);
  random_seed ← lift (getitem runtime_cfg "smoke_random_seed" ≫= py_int w);
  n_points ← lift (getitem runtime_cfg "smoke_n_points" ≫= py_int w);
  state_duration_hours ← lift (getitem runtime_cfg "state_duration_hours" ≫= py_float w);
  '(sample_df, raw_rows) ← _prepare_data w metocean_csv primary_var secondary_var
                              max_rows random_seed;
  let data_2d := sample_df in
  model ← call (Fit (length data_2d)) (fit w data_2d);
  let alpha := calculate_alpha w state_duration_hours 50 in
  coordinates ← call (Contour alpha n_points) (iform_contour w model alpha n_points);
  let coords_csv := output_dir +:+ "/iform_wind10_hs_coords.csv" in
  let plot_png := output_dir +:+ "/iform_wind10_hs_plot.png" in
  p ← lift (label primary_var);
  s ← lift (label secondary_var);
  _ ← call (ToCsv coords_csv) (to_csv w coords_csv [p; s] coordinates);
  _ ← _plot_contour w sample_df coordinates plot_png;
  max_primary ← lift (nanmax coordinates.*1);
  max_secondary ← lift (nanmax coordinates.*2);
  mret (JDict [
          ("success", JBool true);
          ("sample", JDict [
             ("raw_rows_read", JInt (Z.of_nat raw_rows));
             ("rows_used", JInt (Z.of_nat (length sample_df)));
             ("primary_var", JStr p);
             ("secondary_var", JStr s)
           ]);
          ("alpha", JFloat (Fin alpha));
          ("contour_points", JInt (Z.of_nat (length coordinates)));
          ("maxima", JDict (dict_set (dict_set [] p (JFloat max_primary))
                                     s (JFloat max_secondary)));
          ("output", JDict [("coords_csv", JStr coords_csv); ("plot_png", JStr plot_png)])
        ], 0%Z).

(** The [try]/[except] of [main], after the command line was parsed. *)
Definition guarded_run (w : world) (paths_file runtime_file : string) : json * Z :=
  match run w paths_file runtime_file [] with
  | (Ok r, _) => r
  | (Raise exc, _) =>
      (JDict [("success", JBool false); ("error", JStr (describe exc))], 1%Z)
  end.

(** The script run as a program: the imports at its top ([matplotlib],
    [numpy], [pandas], [yaml] and [virocon]), then [sys.exit(main())].
    The result is what is printed on standard output, if anything, and
    the exit status of the process. An exception that nothing catches (an
    import failing, or the report failing to be serialized or printed,
    which [main] does after its [try]) ends the process in a traceback:
    status 1 and no report. *)
Definition main (w : world) (argv : list string) : option json * Z :=
  match imports w with
  | Raise _ => (None, 1%Z)
  | Ok _ =>
      match parse_args w argv with
      | SystemExit code => (None, code)
      | Parsed a =>
          let '(payload, exit_code) := guarded_run w (paths a) (runtime a) in
          match print_json w payload with
          | Ok _ => (Some payload, exit_code)
          | Raise _ => (None, 1%Z)
          end
      end
  end.

(** *** The vocabulary of the specification *)

(** What the model assumes of [DataFrame.sample]: a draw that succeeds
    asked for no negative number of rows and gives that many distinct
    row positions, and a draw of at most the rows there are, with a seed
    of 32 bits, succeeds. *)
Record sampler_ok (w : world) : Prop := {
  sample_sound : ∀ seed rows n idxs,
    sample_indices w seed rows n = Ok idxs →
    (0 ≤ n)%Z ∧ length idxs = Z.to_nat n ∧ NoDup idxs ∧ Forall (fun i => i < rows) idxs;
  sample_total : ∀ seed rows n,
    (0 ≤ seed < 2 ^ 32)%Z → (0 ≤ n ≤ Z.of_nat rows)%Z →
    is_Ok (sample_indices w seed rows n)
}.



(** The configured state duration, after [float]. *)
Definition state_duration (w : world) (runtime_file : string) : option Q :=
  match _load_yaml w runtime_file with
  | Ok cfg =>
      match getitem cfg "state_duration_hours" ≫= py_float w with
      | Ok hours => Some hours
      | Raise _ => None
      end
  | Raise _ => None
  end.

(** The calls [new] hold one contour, for the probability virocon derives
    from the configured state duration and 50 years. *)
Definition one_contour (w : world) (runtime_file : string) (cs : list (Q * Z)) : Prop :=
  ∃ hours n_points, state_duration w runtime_file = Some hours ∧
    cs = [(calculate_alpha w hours 50, n_points)].

(** How a run ends, as to contours: a report comes with exactly one
    contour and gives its probability as [alpha]; a failure comes with
    none or with that one. *)
Definition contour_outcome (w : world) (runtime_file : string)
    (r : result (json * Z)) (cs : list (Q * Z)) : Prop :=
  match r with
  | Ok (payload, _) =>
      ∃ hours n_points, state_duration w runtime_file = Some hours ∧
        cs = [(calculate_alpha w hours 50, n_points)] ∧
        jget payload "alpha" = Some (JFloat (Fin (calculate_alpha w hours 50)))
  | Raise _ => cs = [] ∨ one_contour w runtime_file cs
  end.

(** The functions of pandas, numpy and virocon are the same in two
    worlds. *)
Record same_library (w1 w2 : world) : Prop := {
  same_text_number : text_number w1 = text_number w2;
  same_int_of_str : int_of_str w1 = int_of_str w2;
  same_float_of_str : float_of_str w1 = float_of_str w2;
  same_sample_indices : sample_indices w1 = sample_indices w2;
  same_fit : fit w1 = fit w2;
  same_calculate_alpha : calculate_alpha w1 = calculate_alpha w2;
  same_iform_contour : iform_contour w1 = iform_contour w2
}.

(** The contents of the CSV file a run reads, when its configuration
    names one. *)
Definition input_csv (w : world) (paths_file : string) : option (result DataFrame) :=
  match _load_yaml w paths_file with
  | Ok cfg =>
      match getitem cfg "metocean_csv" ≫= Path with
      | Ok csv => Some (read_csv w csv)
      | Raise _ => None
      end
  | Raise _ => None
  end.

(** A value of the runtime configuration. *)
Definition runtime_setting (w : world) (runtime_file key : string) : option yaml_value :=
  match _load_yaml w runtime_file with
  | Ok cfg => cfg !! key
  | Raise _ => None
  end.

Definition runtime_keys : list string :=
  ["smoke_primary_var"; "smoke_secondary_var"; "smoke_max_rows";
   "smoke_random_seed"; "smoke_n_points"; "state_duration_hours"].

(** Two runs have the same input CSV contents and the same runtime
    configuration. *)
Definition same_input (w1 : world) (paths1 runtime1 : string)
    (w2 : world) (paths2 runtime2 : string) : Prop :=
  input_csv w1 paths1 = input_csv w2 paths2 ∧
  ∀ key, key ∈ runtime_keys →
    runtime_setting w1 runtime1 key = runtime_setting w2 runtime2 key.

(** Where the two counts of a report come from. *)
Definition counted (w : world) (paths_file runtime_file : string) (payload : json) : Prop :=
  ∃ table p s max_rows seed n_points hours sample raw_rows model coords,
    input_csv w paths_file = Some table ∧
    runtime_setting w runtime_file "smoke_primary_var" = Some p ∧
    runtime_setting w runtime_file "smoke_secondary_var" = Some s ∧
    (∃ v, runtime_setting w runtime_file "smoke_max_rows" = Some v ∧
          py_int w v = Ok max_rows) ∧
    (∃ v, runtime_setting w runtime_file "smoke_random_seed" = Some v ∧
          py_int w v = Ok seed) ∧
    (∃ v, runtime_setting w runtime_file "smoke_n_points" = Some v ∧
          py_int w v = Ok n_points) ∧
    (∃ v, runtime_setting w runtime_file "state_duration_hours" = Some v ∧
          py_float w v = Ok hours) ∧
    (∃ csv t t', table = read_csv w csv ∧
       _prepare_data w csv p s max_rows seed t = (Ok (sample, raw_rows), t')) ∧
    fit w sample = Ok model ∧
    iform_contour w model (calculate_alpha w hours 50) n_points = Ok coords ∧
    jpath payload ["sample"; "rows_used"] = Some (JInt (Z.of_nat (length sample))) ∧
    jget payload "contour_points" = Some (JInt (Z.of_nat (length coords))).

(** The paths file names the input file and the output directory. *)
Definition configured (w : world) (paths_file csv output_dir : string) : Prop :=
  ∃ cfg, _load_yaml w paths_file = Ok cfg ∧
    cfg !! "metocean_csv" = Some (YStr csv) ∧
    cfg !! "output_dir" = Some (YStr output_dir).

(** [m] is the greatest of the values of [xs] that are numbers, or NaN
    when none of them is a number. *)
Definition nan_maximum (xs : list pyfloat) (m : pyfloat) : Prop :=
  match m with
  | Fin q => Fin q ∈ xs ∧ ∀ x, Fin x ∈ xs → (x <= q)%Q
  | NaN => ∀ x, x ∈ xs → x = NaN
  end.

(** The calls of a run that goes through, in the order it makes them. *)
Definition pipeline (output_dir csv : string) (rows : nat) (alpha : Q) (n_points : Z)
    : list event :=
  [Mkdir output_dir; ReadCsv csv None; Fit rows; Contour alpha n_points;
   ToCsv (output_dir +:+ "/iform_wind10_hs_coords.csv");
   Savefig (output_dir +:+ "/iform_wind10_hs_plot.png")].

(** How a run ends, as to its calls: they are an initial part of the
    pipeline, on the input file and the output directory the paths file
    names once there is a call at all, and all of it when the run ends
    with a report, which then names the two files written and counts the
    rows fitted. *)
Definition calls_outcome (w : world) (paths_file runtime_file : string)
    (r : result (json * Z)) (new : list event) : Prop :=
  ∃ output_dir csv rows alpha n_points,
    (new = [] ∨ configured w paths_file csv output_dir) ∧
    new `prefix_of` pipeline output_dir csv rows alpha n_points ∧
    ∀ payload code, r = Ok (payload, code) →
      configured w paths_file csv output_dir ∧
      (∃ v, runtime_setting w runtime_file "smoke_n_points" = Some v ∧
            py_int w v = Ok n_points) ∧
      new = pipeline output_dir csv rows alpha n_points ∧
      code = 0%Z ∧
      jpath payload ["output"; "coords_csv"] =
        Some (JStr (output_dir +:+ "/iform_wind10_hs_coords.csv")) ∧
      jpath payload ["output"; "plot_png"] =
        Some (JStr (output_dir +:+ "/iform_wind10_hs_plot.png")) ∧
      jpath payload ["sample"; "rows_used"] = Some (JInt (Z.of_nat rows)) ∧
      (0 < rows)%nat.

End SmokeIform.

(** ** tests/test_marine_analysis_scripts.py *)

Module Tests.

Definition REPO_ROOT : string := "/Users/lichao/codes/_github/virocon-dev".
Definition MARINE_ROOT : string := REPO_ROOT +:+ "/dev-info/marine_analysis".
Definition PATHS_YAML : string := MARINE_ROOT +:+ "/configs/paths.yaml".
Definition RUNTIME_YAML : string := MARINE_ROOT +:+ "/configs/runtime.yaml".

(** [payload[k] is True]; a key that is missing raises, which fails the
    test as a false assertion does. *)
Definition is_True (payload : json) (k : string) : bool :=
  match jget payload k with
  | Some (JBool true) => true
  | _ => false
  end.

(** [payload[k] == s] *)
Definition equals_str (payload : json) (k s : string) : bool :=
  match jget payload k with
  | Some (JStr s') => bool_decide (s' = s)
  | _ => false
  end.

(** [k in payload] *)
Definition has_key (payload : json) (k : string) : bool :=
  bool_decide (k ∈ jkeys payload).

(** A test passes when every assertion holds and nothing raises; the
    process [_run] started is what [main] leaves behind, and
    [_parse_json] raises on an output that is not a JSON document. *)
Definition test_check_env_script (w : CheckEnv.world) : bool :=
  let result := CheckEnv.main w ["--paths"; PATHS_YAML] in
  bool_decide (result.2 = 0%Z) &&
  match result.1 with
  | None => false
  | Some payload =>
      is_True payload "success" &&
      has_key payload "python_version" &&
      has_key payload "virocon_version"
  end.

Definition test_check_data_quick_script (w : CheckData.world) : bool :=
  let result := CheckData.main w ["--paths"; PATHS_YAML; "--quick"] in
  bool_decide (result.2 = 0%Z) &&
  match result.1 with
  | None => false
  | Some payload =>
      is_True payload "success" &&
      equals_str payload "mode" "quick" &&
      has_key payload "metocean" &&
      has_key payload "current"
  end.

(** [Path(payload["output"][k]).exists()], given the files there are
    when the test looks. *)
Definition output_exists (path_exists : string → bool) (payload : json) (k : string) : bool :=
  match jpath payload ["output"; k] with
  | Some (JStr file) => path_exists file
  | _ => false
  end.

Definition test_smoke_iform_script_outputs (w : SmokeIform.world)
    (path_exists : string → bool) : bool :=
  let result := SmokeIform.main w ["--paths"; PATHS_YAML; "--runtime"; RUNTIME_YAML] in
  bool_decide (result.2 = 0%Z) &&
  match result.1 with
  | None => false
  | Some payload =>
      is_True payload "success" &&
      output_exists path_exists payload "coords_csv" &&
      output_exists path_exists payload "plot_png"
  end.

(** The files the calls of a run wrote are there. *)
Definition outputs_kept (calls : list event) (path_exists : string → bool) : Prop :=
  ∀ file, ToCsv file ∈ calls ∨ Savefig file ∈ calls → path_exists file = true.

End Tests.

(** ** The uniform exit convention, and worlds to run the scripts in *)


(** A report that opens with its flag, and the exit status that goes
    with the flag. *)
Definition conventional (r : json * Z) : Prop :=
  ∃ b rest, r = (JDict (("success", JBool b) :: rest), if b then 0 else 1)%Z.


(** From any calls made before, [m] makes the calls [new] and ends in
    [r], with [P r new]. *)
Definition emits {A} (m : io A) (P : result A → list event → Prop) : Prop :=
  ∀ t, ∃ new, (m t).2 = t ++ new ∧ P (m t).1 new.

(** The same, looking only at the contours among the calls. *)
Definition computes {A} (m : io A) (P : result A → list (Q * Z) → Prop) : Prop :=
  emits m (λ r new, P r (contours new)).

(** Whatever the computation [m] returns, when it returns, satisfies [Q]. *)
Definition returns {A} (m : io A) (Q : A → Prop) : Prop :=
  ∀ t a t', m t = (Ok a, t') → Q a.

Module Example.

(** An argument parser with one required option [--paths]: the command
    line [--paths FILE] is accepted, and a command line without the
    option is rejected, which argparse does with exit status 2. *)
Definition parse_paths (argv : list string) : parse_outcome string :=
  match argv with
  | ["--paths"; file] => Parsed file
  | _ => SystemExit 2
  end.

(** A configuration with the repository root [/repo]. *)
Definition paths_yaml : gmap string yaml_value :=
  {[ "repo_root" := YStr "/repo";
     "metocean_csv" := YStr "/repo/data/metocean.csv";
     "current_csv" := YStr "/repo/data/current.csv";
     "output_dir" := YStr "/repo/out" ]}.

(** A machine where every module imports and [virocon] is installed from
    [/repo/virocon/__init__.py]. *)
Definition env_world : CheckEnv.world := {|
  CheckEnv.safe_load file :=
    if decide (file = "paths.yaml") then Ok (YMapping paths_yaml)
    else Raise (Exc "FileNotFoundError" file);
  CheckEnv.resolve s :=
    if decide (s = "/repo") then ["repo"]
    else if decide (s = "virocon/__init__.py") then ["repo"; "virocon"; "__init__.py"]
    else [s];
  CheckEnv.import_module name :=
    Ok {| CheckEnv.mod_file := Some (name +:+ "/__init__.py");
          CheckEnv.mod_version := Some "2.2.0" |};
  CheckEnv.python_version := "3.11.4";
  CheckEnv.parse_args := parse_paths;
  CheckEnv.print_json _ := Ok tt
|}.

(** The command line of [check_data.py]: [--paths FILE] followed by
    exactly one of [--quick] and [--full]. *)
Definition parse_data (argv : list string) : parse_outcome CheckData.args :=
  match argv with
  | ["--paths"; file; flag] =>
      if decide (flag = "--quick")
      then Parsed {| CheckData.paths := file; CheckData.quick := true; CheckData.full := false |}
      else if decide (flag = "--full")
      then Parsed {| CheckData.paths := file; CheckData.quick := false; CheckData.full := true |}
      else SystemExit 2
  | _ => SystemExit 2
  end.

(** The command line of [smoke_iform.py]. *)
Definition parse_smoke (argv : list string) : parse_outcome SmokeIform.args :=
  match argv with
  | ["--paths"; file; "--runtime"; file'] =>
      Parsed {| SmokeIform.paths := file; SmokeIform.runtime := file' |}
  | _ => SystemExit 2
  end.

Definition load_example (file : string) : result yaml_doc :=
  if decide (file = "paths.yaml") then Ok (YMapping paths_yaml)
  else if decide (file = "runtime.yaml") then
    Ok (YMapping {[ "smoke_primary_var" := YStr "10米风速";
                    "smoke_secondary_var" := YStr "有义波高";
                    "smoke_max_rows" := YInt 5;
                    "smoke_random_seed" := YInt 42;
                    "smoke_n_points" := YInt 4;
                    "state_duration_hours" := YInt 1 ]})
  else Raise (Exc "FileNotFoundError" file).

(** The one text of the example files that pandas reads as a number. *)
Definition read_number (s : string) : option Q :=
  if decide (s = "2.5") then Some (5 # 2)%Q else None.

(** A metocean row: time stamp, wind speed, wave height, peak period. *)
Definition metocean_row (n : Z) : list Pandas.cell :=
  [Pandas.Str "2020-01-01"; Pandas.Num (inject_Z n); Pandas.Num (n # 2)%Q;
   Pandas.Num (inject_Z (n + 5))].

(** Twelve rows, of which ten have a positive wind speed and a positive
    wave height: one row misses the wave height, one has a zero wind. *)
Definition metocean_table : Pandas.DataFrame := {|
  Pandas.columns := CheckData.METOCEAN_REQUIRED;
  Pandas.rows :=
    [Pandas.Str "2020-01-01"; Pandas.Num 3; Pandas.NA; Pandas.Str "calm"]
    :: metocean_row 0
    :: (metocean_row <$> [1; 2; 3; 4; 5; 6; 7; 8; 9])%Z
    ++ [[Pandas.Str "2020-01-02"; Pandas.Str "2.5"; Pandas.Num 1; Pandas.NA]]
|}.

Definition current_table : Pandas.DataFrame := {|
  Pandas.columns := CheckData.CURRENT_REQUIRED;
  Pandas.rows := [[Pandas.Num 0; Pandas.Num 1; Pandas.Num 90];
                  [Pandas.Num 1; Pandas.NA; Pandas.Str "north"]]
|}.

Definition read_example (file : string) : result Pandas.DataFrame :=
  if decide (file = "/repo/data/metocean.csv") then Ok metocean_table
  else if decide (file = "/repo/data/current.csv") then Ok current_table
  else Raise (Exc "FileNotFoundError" file).

(** A machine with both data files. *)
Definition data_world : CheckData.world := {|
  CheckData.safe_load := load_example;
  CheckData.is_file file :=
    bool_decide (file = "/repo/data/metocean.csv" ∨ file = "/repo/data/current.csv");
  CheckData.read_csv := read_example;
  CheckData.text_number := read_number;
  CheckData.parse_args := parse_data;
  CheckData.imports := Ok tt;
  CheckData.print_json _ := Ok tt
|}.

(** The same machine without the current file. *)
Definition data_world_missing : CheckData.world := {|
  CheckData.safe_load := load_example;
  CheckData.is_file file := bool_decide (file = "/repo/data/metocean.csv");
  CheckData.read_csv := read_example;
  CheckData.text_number := read_number;
  CheckData.parse_args := parse_data;
  CheckData.imports := Ok tt;
  CheckData.print_json _ := Ok tt
|}.

(** The same machine with a metocean file that lacks the peak period. *)
Definition data_world_short : CheckData.world := {|
  CheckData.safe_load := load_example;
  CheckData.is_file file :=
    bool_decide (file = "/repo/data/metocean.csv" ∨ file = "/repo/data/current.csv");
  CheckData.read_csv file :=
    if decide (file = "/repo/data/metocean.csv")
    then Ok {| Pandas.columns := ["valid_time"; "10米风速"; "有义波高"];
               Pandas.rows := [[Pandas.Str "2020-01-01"; Pandas.Num 3; Pandas.Num 1]] |}
    else read_example file;
  CheckData.text_number := read_number;
  CheckData.parse_args := parse_data;
  CheckData.imports := Ok tt;
  CheckData.print_json _ := Ok tt
|}.

(** A sampler: [n] consecutive positions out of [rows], from a start the
    seed decides; like numpy it wants a seed of 32 bits and
    [0 <= n <= rows]. *)
Definition draw (seed : Z) (rows : nat) (n : Z) : result (list nat) :=
  if decide (0 ≤ seed < 2 ^ 32 ∧ 0 ≤ n ≤ Z.of_nat rows)%Z
  then Ok (seq (Z.to_nat seed `mod` (rows - Z.to_nat n + 1)) (Z.to_nat n))
  else Raise (Exc "ValueError" "cannot sample").

(** A machine on which the smoke pipeline runs through. *)
Definition smoke_world : SmokeIform.world := {|
  SmokeIform.safe_load := load_example;
  SmokeIform.mkdir _ := Ok tt;
  SmokeIform.read_csv := read_example;
  SmokeIform.text_number := read_number;
  SmokeIform.int_of_str _ := None;
  SmokeIform.float_of_str _ := None;
  SmokeIform.sample_indices := draw;
  SmokeIform.fit data := Ok [inject_Z (Z.of_nat (length data))];
  SmokeIform.calculate_alpha duration years :=
    (duration / (inject_Z years * (36525 # 100) * 24))%Q;
  SmokeIform.iform_contour _ _ n_points :=
    Ok ((fun i => (Fin (inject_Z (Z.of_nat i)), Fin 1%Q)) <$> seq 0 (Z.to_nat n_points));
  SmokeIform.to_csv _ _ _ := Ok tt;
  SmokeIform.savefig _ _ _ := Ok tt;
  SmokeIform.parse_args := parse_smoke;
  SmokeIform.imports := Ok tt;
  SmokeIform.print_json _ := Ok tt
|}.

(** Another machine: the same file contents and runtime settings under
    other names, another output directory, the same library. *)
Definition smoke_world_moved : SmokeIform.world := {|
  SmokeIform.safe_load file :=
    if decide (file = "elsewhere/paths.yaml")
    then Ok (YMapping {[ "metocean_csv" := YStr "/mnt/metocean.csv";
                         "output_dir" := YStr "/tmp/smoke" ]})
    else if decide (file = "elsewhere/runtime.yaml") then load_example "runtime.yaml"
    else Raise (Exc "FileNotFoundError" file);
  SmokeIform.mkdir _ := Ok tt;
  SmokeIform.read_csv file :=
    if decide (file = "/mnt/metocean.csv") then Ok metocean_table
    else Raise (Exc "FileNotFoundError" file);
  SmokeIform.text_number := read_number;
  SmokeIform.int_of_str _ := None;
  SmokeIform.float_of_str _ := None;
  SmokeIform.sample_indices := draw;
  SmokeIform.fit data := Ok [inject_Z (Z.of_nat (length data))];
  SmokeIform.calculate_alpha duration years :=
    (duration / (inject_Z years * (36525 # 100) * 24))%Q;
  SmokeIform.iform_contour _ _ n_points :=
    Ok ((fun i => (Fin (inject_Z (Z.of_nat i)), Fin 1%Q)) <$> seq 0 (Z.to_nat n_points));
  SmokeIform.to_csv _ _ _ := Ok tt;
  SmokeIform.savefig _ _ _ := Ok tt;
  SmokeIform.parse_args := parse_smoke;
  SmokeIform.imports := Ok tt;
  SmokeIform.print_json _ := Ok tt
|}.

(** *** Further machines *)

(** A machine without [virocon]. *)
Definition env_world_bare : CheckEnv.world := {|
  CheckEnv.safe_load := CheckEnv.safe_load env_world;
  CheckEnv.resolve := CheckEnv.resolve env_world;
  CheckEnv.import_module name :=
    if decide (name = "virocon")
    then Raise (Exc "ModuleNotFoundError" "No module named 'virocon'")
    else CheckEnv.import_module env_world name;
  CheckEnv.python_version := "3.11.4";
  CheckEnv.parse_args := parse_paths;
  CheckEnv.print_json _ := Ok tt
|}.

(** A metocean file with its header and no data row. *)
Definition empty_table : Pandas.DataFrame := {|
  Pandas.columns := CheckData.METOCEAN_REQUIRED;
  Pandas.rows := []
|}.

(** A machine whose current file exists and cannot be parsed. *)
Definition data_world_unreadable : CheckData.world := {|
  CheckData.safe_load := load_example;
  CheckData.is_file file :=
    bool_decide (file = "/repo/data/metocean.csv" ∨ file = "/repo/data/current.csv");
  CheckData.read_csv file :=
    if decide (file = "/repo/data/metocean.csv") then Ok metocean_table
    else Raise (Exc "EmptyDataError" "No columns to parse from file");
  CheckData.text_number := read_number;
  CheckData.parse_args := parse_data;
  CheckData.imports := Ok tt;
  CheckData.print_json _ := Ok tt
|}.

(** Two metocean files of more than 5000 rows that differ after row 5000
    only, and the machines that have them. *)
Definition long_table (tail : list (list Pandas.cell)) : Pandas.DataFrame := {|
  Pandas.columns := CheckData.METOCEAN_REQUIRED;
  Pandas.rows := replicate 5000 (metocean_row 1) ++ tail
|}.

Definition data_world_long (tail : list (list Pandas.cell)) : CheckData.world := {|
  CheckData.safe_load := load_example;
  CheckData.is_file := CheckData.is_file data_world;
  CheckData.read_csv file :=
    if decide (file = "/repo/data/metocean.csv") then Ok (long_table tail)
    else read_example file;
  CheckData.text_number := read_number;
  CheckData.parse_args := parse_data;
  CheckData.imports := Ok tt;
  CheckData.print_json _ := Ok tt
|}.

(** The smoke machine with other configuration files. *)
Definition smoke_world_with (load : string → result yaml_doc) : SmokeIform.world := {|
  SmokeIform.safe_load := load;
  SmokeIform.mkdir := SmokeIform.mkdir smoke_world;
  SmokeIform.read_csv := SmokeIform.read_csv smoke_world;
  SmokeIform.text_number := SmokeIform.text_number smoke_world;
  SmokeIform.int_of_str := SmokeIform.int_of_str smoke_world;
  SmokeIform.float_of_str := SmokeIform.float_of_str smoke_world;
  SmokeIform.sample_indices := SmokeIform.sample_indices smoke_world;
  SmokeIform.fit := SmokeIform.fit smoke_world;
  SmokeIform.calculate_alpha := SmokeIform.calculate_alpha smoke_world;
  SmokeIform.iform_contour := SmokeIform.iform_contour smoke_world;
  SmokeIform.to_csv := SmokeIform.to_csv smoke_world;
  SmokeIform.savefig := SmokeIform.savefig smoke_world;
  SmokeIform.parse_args := SmokeIform.parse_args smoke_world;
  SmokeIform.imports := SmokeIform.imports smoke_world;
  SmokeIform.print_json := SmokeIform.print_json smoke_world
|}.

(** A runtime file without [smoke_n_points]. *)
Definition load_without_points (file : string) : result yaml_doc :=
  if decide (file = "runtime.yaml") then
    Ok (YMapping {[ "smoke_primary_var" := YStr "10米风速";
                    "smoke_secondary_var" := YStr "有义波高";
                    "smoke_max_rows" := YInt 5;
                    "smoke_random_seed" := YInt 42;
                    "state_duration_hours" := YInt 1 ]})
  else load_example file.

(** A paths file without [output_dir]. *)
Definition load_without_output (file : string) : result yaml_doc :=
  if decide (file = "paths.yaml") then
    Ok (YMapping {[ "metocean_csv" := YStr "/repo/data/metocean.csv" ]})
  else load_example file.

(** The example machine with its configuration where the tests look for
    it. *)
Definition test_env_world : CheckEnv.world := {|
  CheckEnv.safe_load file :=
    if decide (file = Tests.PATHS_YAML) then Ok (YMapping paths_yaml)
    else Raise (Exc "FileNotFoundError" file);
  CheckEnv.resolve := CheckEnv.resolve env_world;
  CheckEnv.import_module := CheckEnv.import_module env_world;
  CheckEnv.python_version := "3.11.4";
  CheckEnv.parse_args := parse_paths;
  CheckEnv.print_json _ := Ok tt
|}.

Definition test_load (file : string) : result yaml_doc :=
  if decide (file = Tests.PATHS_YAML) then load_example "paths.yaml"
  else if decide (file = Tests.RUNTIME_YAML) then load_example "runtime.yaml"
  else Raise (Exc "FileNotFoundError" file).

Definition test_data_world : CheckData.world := {|
  CheckData.safe_load := test_load;
  CheckData.is_file := CheckData.is_file data_world;
  CheckData.read_csv := CheckData.read_csv data_world;
  CheckData.text_number := CheckData.text_number data_world;
  CheckData.parse_args := parse_data;
  CheckData.imports := Ok tt;
  CheckData.print_json _ := Ok tt
|}.

Definition test_smoke_world : SmokeIform.world := smoke_world_with test_load.

(** The two files of the smoke pipeline and no other. *)
Definition smoke_outputs (file : string) : bool :=
  bool_decide (file = "/repo/out/iform_wind10_hs_coords.csv" ∨
               file = "/repo/out/iform_wind10_hs_plot.png").

(** The smoke machine with a contour of three points that has NaN among
    its coordinates. *)
Definition smoke_world_nan : SmokeIform.world := {|
  SmokeIform.safe_load := load_example;
  SmokeIform.mkdir := SmokeIform.mkdir smoke_world;
  SmokeIform.read_csv := read_example;
  SmokeIform.text_number := read_number;
  SmokeIform.int_of_str := SmokeIform.int_of_str smoke_world;
  SmokeIform.float_of_str := SmokeIform.float_of_str smoke_world;
  SmokeIform.sample_indices := draw;
  SmokeIform.fit := SmokeIform.fit smoke_world;
  SmokeIform.calculate_alpha := SmokeIform.calculate_alpha smoke_world;
  SmokeIform.iform_contour _ _ _ :=
    Ok [(Fin 1%Q, NaN); (NaN, Fin 2%Q); (Fin 3%Q, NaN)];
  SmokeIform.to_csv := SmokeIform.to_csv smoke_world;
  SmokeIform.savefig := SmokeIform.savefig smoke_world;
  SmokeIform.parse_args := parse_smoke;
  SmokeIform.imports := Ok tt;
  SmokeIform.print_json _ := Ok tt
|}.



End Example.

(** * Properties *)

(** ** Dictionaries and reports *)

Section dict_facts.
Context {V : Type}.
Implicit Types (d : pydict V) (k : string) (v : V).

Lemma dict_get_set d k v k' :
  dict_get (dict_set d k v) k' = if decide (k = k') then Some v else dict_get d k'.
Proof.
  induction d as [|[k0 v0] d IH]; simpl.
  - repeat case_decide; congruence.
  - repeat (case_decide; simpl); try congruence.
Qed.

Lemma dict_set_elem d k v k' v' :
  (k', v') ∈ dict_set d k v → (k' = k ∧ v' = v) ∨ (k', v') ∈ d.
Proof.
  induction d as [|[k0 v0] d IH]; simpl.
  - intros [=]%list_elem_of_singleton; auto.
  - case_decide; subst.
    + intros [[=]|?]%elem_of_cons; subst; [auto|]. right. by apply list_elem_of_further.
    + intros [[=]|H']%elem_of_cons; subst.
      * right. apply list_elem_of_here.
      * destruct (IH H') as [?|?]; [auto|]. right. by apply list_elem_of_further.
Qed.

Lemma dict_set_new d k v : (k, v) ∈ dict_set d k v.
Proof.
  induction d as [|[k0 v0] d IH]; simpl.
  - apply list_elem_of_here.
  - case_decide; subst; [apply list_elem_of_here | by apply list_elem_of_further].
Qed.

Lemma dict_set_old d k v k' v' :
  k' ≠ k → (k', v') ∈ d → (k', v') ∈ dict_set d k v.
Proof.
  intros Hne. induction d as [|[k0 v0] d IH]; simpl.
  - by intros ?%elem_of_nil.
  - intros [[=]|H']%elem_of_cons; subst.
    + case_decide; [congruence | apply list_elem_of_here].
    + case_decide; apply list_elem_of_further; auto.
Qed.

Lemma dict_get_elem d k v : dict_get d k = Some v → (k, v) ∈ d.
Proof.
  induction d as [|[k0 v0] d IH]; simpl; [done|].
  case_decide; subst.
  - intros [= ->]. apply list_elem_of_here.
  - intros. apply list_elem_of_further; auto.
Qed.

Lemma forallb_dict_values (P : V → bool) d :
  forallb P (dict_values d) = true ↔ ∀ k v, (k, v) ∈ d → P v = true.
Proof.
  unfold dict_values. rewrite forallb_forall. split.
  - intros H k v Hin. apply H, list_elem_of_In, list_elem_of_fmap.
    exists (k, v). auto.
  - intros H v [[k v'] [-> Hin]]%list_elem_of_In%list_elem_of_fmap. eauto.
Qed.
End dict_facts.

(** ** The environment checker *)

Module CheckEnvFacts.
Import CheckEnv.

Lemma elem_of_parents (root p : path) : root ∈ parents p ↔ strictly_under root p.
Proof.
  unfold parents, strictly_under. rewrite elem_of_reverse, list_elem_of_fmap. split.
  - intros (n & -> & Hn%elem_of_seq). exists (drop n p). split.
    + intros Hd. apply (f_equal length) in Hd. rewrite length_drop in Hd. simpl in Hd. lia.
    + by rewrite take_drop.
  - intros (rest & Hne & ->). exists (length root). split.
    + by rewrite take_app_length.
    + apply elem_of_seq. rewrite length_app. destruct rest; [done|]. simpl. lia.
Qed.

Lemma check_import_inv w seen acc name :
  imports_inv w seen acc → imports_inv w (seen ++ [name]) (check_import w acc name).
Proof.
  destruct acc as [st im]. intros [Hs Hc Hm]. simpl in Hs, Hc, Hm.
  assert (Hst : (check_import w (st, im) name).1 = dict_set st name (status_of w name)).
  { unfold check_import, status_of. by destruct (import_module w name). }
  assert (Hsn : ∀ k, k ∈ seen ++ [name] ↔ k ∈ seen ∨ k = name).
  { intros k. by rewrite elem_of_app, list_elem_of_singleton. }
  split.
  - intros k s. rewrite Hst, Hsn. intros [[-> ->]|Hin]%dict_set_elem; [by auto|].
    destruct (Hs _ _ Hin). auto.
  - intros k [Hk| ->]%Hsn; rewrite Hst; [|apply dict_set_new].
    destruct (decide (k = name)) as [->|Hne]; [apply dict_set_new|].
    apply dict_set_old; auto.
  - intros k. unfold check_import, module_of.
    destruct (import_module w name) as [m|e] eqn:E; simpl;
      rewrite ?dict_get_set, ?Hm;
      destruct (decide (k ∈ seen ++ [name])) as [H1|H1]; rewrite Hsn in H1;
      destruct (decide (k ∈ seen)); try destruct (decide (name = k));
      subst; rewrite ?E; try done; try tauto.
    all: try (destruct H1 as [? | ->]; [done|]).
    all: unfold module_of; by rewrite E.
Qed.

Lemma check_imports_from_inv w names seen acc :
  imports_inv w seen acc →
  imports_inv w (seen ++ names) (foldl (check_import w) acc names).
Proof.
  revert seen acc. induction names as [|name names IH]; intros seen acc Hinv; simpl.
  - by rewrite app_nil_r.
  - replace (seen ++ name :: names) with ((seen ++ [name]) ++ names)
      by (by rewrite <- app_assoc).
    by apply IH, check_import_inv.
Qed.

Lemma check_imports_inv w names : imports_inv w names (_check_imports w names).
Proof.
  apply (check_imports_from_inv w names []). split.
  - by intros k s ?%elem_of_nil.
  - by intros k ?%elem_of_nil.
  - intros k. by destruct (decide (k ∈ [])) as [?%elem_of_nil|].
Qed.

Lemma check_imports_all_ok w names :
  forallb status_ok (dict_values (_check_imports w names).1) = true ↔ all_imported w names.
Proof.
  destruct (check_imports_inv w names) as [Hs Hc _].
  rewrite forallb_dict_values. unfold all_imported, is_Ok. split.
  - intros H name Hin. specialize (H _ _ (Hc _ Hin)). unfold status_of in H.
    destruct (import_module w name); [eauto | done].
  - intros H k s Hin. destruct (Hs _ _ Hin) as [Hk ->]. unfold status_of.
    by destruct (H _ Hk) as [m ->].
Qed.

Lemma success_flag_head b rest :
  success_flag (JDict (("success", JBool b) :: rest)) = Some b.
Proof. reflexivity. Qed.

(** A report that starts with the flag [b], an exit status that follows
    it, and a property [P] the flag decides. *)
Lemma verdict (b : bool) rest (code : Z) (P : Prop) :
  code = (if b then 0 else 1)%Z → (b = true ↔ P) →
  (success_flag (JDict (("success", JBool b) :: rest)) = Some true ↔ P) ∧
  (success_flag (JDict (("success", JBool b) :: rest)) = Some false ↔ ¬ P) ∧
  code = (if success_flag (JDict (("success", JBool b) :: rest)) is Some true
          then 0 else 1)%Z.
Proof.
  rewrite success_flag_head. intros -> HP. destruct b; split_and!; try done.
  - split; [intros _; by apply HP | done].
  - split; [done | intros HnP; destruct HnP; by apply HP].
  - split; [done | intros HP'%HP; done].
  - split; [intros _ HP'%HP; done | done].
Qed.

(** C1. The success flag the environment checker reports is true exactly
    when every module of the fixed list imported without exception and
    the resolved file of [virocon] lies strictly below the resolved
    configured [repo_root]; in every other run the flag is false. The
    exit status is 0 with a true flag and 1 with a false one. *)
Theorem check_env_success_iff (w : world) (paths_file : string) :
  let '(payload, exit_code) := guarded_run w paths_file in
  (success_flag payload = Some true ↔ healthy w paths_file) ∧
  (success_flag payload = Some false ↔ ¬ healthy w paths_file) ∧
  exit_code = (if success_flag payload is Some true then 0 else 1)%Z.
Proof.
  unfold guarded_run, run, healthy, configured_root.
  destruct (_load_yaml w paths_file) as [config|e]; simpl;
    [|apply verdict; [done | split; [done | by intros (? & [=] & _)]]].
  unfold getitem. destruct (config !! "repo_root") as [[root| | |]|]; simpl;
    try (apply verdict; [done | split; [done | by intros (? & [=] & _)]]).
  pose proof (check_imports_all_ok w module_names) as Hall.
  pose proof (inv_modules _ _ _ (check_imports_inv w module_names) "virocon") as Hvir.
  destruct (_check_imports w module_names) as [imports imported]. simpl in Hall, Hvir.
  rewrite Hvir. unfold module_of.
  destruct (import_module w "virocon") as [m|e] eqn:Ev; simpl.
  - destruct (mod_file m) as [f|] eqn:Ef; simpl.
    + apply verdict; [done|].
      rewrite andb_true_iff, Hall, bool_decide_eq_true, elem_of_parents. split.
      * intros [Ha Hu]. exists root. split_and!; [done | done |]. by exists m, f.
      * intros (? & [= <-] & Ha & m' & f' & [= <-] & Hf & Hu).
        rewrite Ef in Hf. injection Hf as <-. done.
    + apply verdict; [done|]. split; [done|].
      intros (? & _ & _ & m' & f' & [= <-] & Hf & _). congruence.
  - apply verdict; [by rewrite andb_false_r|].
    rewrite andb_false_r. split; [done|]. by intros (? & _ & _ & ? & ? & [=] & _).
Qed.

End CheckEnvFacts.

(** ** The exit convention of the three entry points *)



(** Whatever a computation returns, when it returns, satisfies [Q]. *)
Lemma returns_bind {A B} (m : io A) (k : A → io B) (Q : B → Prop) :
  (∀ a, returns (k a) Q) → returns (m ≫= k) Q.
Proof.
  intros Hk t b t'. unfold mbind, io_bind.
  destruct (m t) as [[a|e] t1]; [apply Hk | done].
Qed.

Lemma returns_ret {A} (a : A) (Q : A → Prop) : Q a → returns (mret a) Q.
Proof. by intros HQ t a' t' [= <- _]. Qed.

Lemma returns_raise {A} (e : exn) (Q : A → Prop) : returns (lift (Raise e)) Q.
Proof. by intros t a t'. Qed.

Lemma returns_lift_bind {A B} (r : result A) (k : A → io B) (Q : B → Prop) :
  (∀ a, r = Ok a → returns (k a) Q) → returns (lift r ≫= k) Q.
Proof.
  intros Hk t b t'. unfold mbind, io_bind, lift.
  destruct r as [a|e]; [by apply Hk | done].
Qed.

Lemma returns_call_bind {A B} (ev : event) (r : result A) (k : A → io B) (Q : B → Prop) :
  (∀ a, r = Ok a → returns (k a) Q) → returns (call ev r ≫= k) Q.
Proof.
  intros Hk t b t'. unfold mbind, io_bind, call.
  destruct r as [a|e]; [by apply Hk | done].
Qed.

Lemma returns_bind_eq {A B} (m : io A) (k : A → io B) (Q : B → Prop) :
  (∀ a, (∃ t t', m t = (Ok a, t')) → returns (k a) Q) → returns (m ≫= k) Q.
Proof.
  intros Hk t b t'. unfold mbind, io_bind.
  destruct (m t) as [[a|e] t1] eqn:Hm; [|done]. apply Hk. eauto.
Qed.

(** One step through a computation, keeping what each call returned. *)
Ltac returns_inv :=
  first [ apply returns_lift_bind; intros ? ?
        | apply returns_call_bind; intros ? ?
        | apply returns_bind_eq; intros ? ?
        | apply returns_ret
        | apply returns_raise
        | progress cbv zeta
        | case_match ].

Ltac returns_step :=
  first [ apply returns_bind; intros ?
        | apply returns_ret
        | apply returns_raise
        | progress cbv zeta
        | case_match ].


Lemma smoke_iform_returns w paths_file runtime_file :
  returns (SmokeIform.run w paths_file runtime_file) conventional.
Proof.
  unfold SmokeIform.run. repeat returns_step. eexists true, _; reflexivity.
Qed.







(** ** The data checker *)

Module CheckDataFacts.
Import Pandas CheckData.

Lemma missing_columns_spec df required c :
  c ∈ _missing_columns df required ↔ c ∈ required ∧ c ∉ columns df.
Proof. unfold _missing_columns. rewrite list_elem_of_filter. tauto. Qed.

Lemma missing_columns_nil df required :
  _missing_columns df required = [] ↔ required ⊆ columns df.
Proof.
  split.
  - intros H c Hc. destruct (decide (c ∈ columns df)) as [|Hn]; [done|].
    assert (c ∈ _missing_columns df required) as Hin by by apply missing_columns_spec.
    rewrite H in Hin. by apply elem_of_nil in Hin.
  - intros H. apply elem_of_nil_inv. intros c [Hc Hn]%missing_columns_spec. auto.
Qed.

(** The run up to the check of the files. *)
Lemma run_configured w paths_file mode mp cp t :
  configured w paths_file mp cp →
  run w paths_file mode t =
    match missing_files w mp cp with
    | _ :: _ =>
        (Ok (JDict [("success", JBool false); ("mode", JStr mode);
                    ("errors", str_list (not_found <$> missing_files w mp cp));
                    ("paths", JDict [("metocean_csv", JStr mp); ("current_csv", JStr cp)])],
             1%Z), t)
    | [] =>
        (metocean_df ← _read_csv w mp (rows_wanted mode);
         current_df ← _read_csv w cp (rows_wanted mode);
         match _missing_columns metocean_df METOCEAN_REQUIRED,
               _missing_columns current_df CURRENT_REQUIRED with
         | [], [] =>
             metocean_stats ← lift (_numeric_stats w metocean_df
                                      (filter (fun c => c ≠ "valid_time") METOCEAN_REQUIRED));
             current_stats ← lift (_numeric_stats w current_df
                                     (filter (fun c => c ≠ "index") CURRENT_REQUIRED));
             mret (JDict [("success", JBool true); ("mode", JStr mode);
                          ("paths", JDict [("metocean_csv", JStr mp); ("current_csv", JStr cp)]);
                          ("metocean", dataset_report metocean_df metocean_stats);
                          ("current", dataset_report current_df current_stats)], 0%Z)
         | _, _ =>
             mret (JDict [("success", JBool false); ("mode", JStr mode);
                          ("errors", str_list ["required columns missing"]);
                          ("missing_columns",
                           JDict [("metocean_csv",
                                   str_list (_missing_columns metocean_df METOCEAN_REQUIRED));
                                  ("current_csv",
                                   str_list (_missing_columns current_df CURRENT_REQUIRED))])],
                   1%Z)
         end) t
    end.
Proof.
  intros (cfg & Hcfg & Hm & Hc).
  unfold run, missing_files, rows_wanted, getitem. rewrite Hcfg.
  cbv beta iota delta [lift mbind io_bind result_bind]. rewrite Hm.
  cbv beta iota delta [Path]. rewrite Hc. cbv beta iota.
  rewrite !filter_cons, filter_nil. cbn [snd].
  destruct (is_file w mp), (is_file w cp); reflexivity.
Qed.

Lemma configured_example w :
  safe_load w = Example.load_example →
  configured w "paths.yaml" "/repo/data/metocean.csv" "/repo/data/current.csv".
Proof.
  intros Hload. exists Example.paths_yaml. unfold _load_yaml. rewrite Hload.
  split_and!; reflexivity.
Qed.

(** C3. When at least one of the two configured CSV files does not
    exist, the data checker returns a failure report with exit status 1
    whose errors name exactly the missing files; it makes no call at all
    (no file is read), and the report has no column or statistics field:
    its keys are success, mode, errors and paths. *)
Theorem missing_files_reported w paths_file mode mp cp t :
  configured w paths_file mp cp →
  is_file w mp = false ∨ is_file w cp = false →
  ∃ payload,
    run w paths_file mode t = (Ok (payload, 1%Z), t) ∧
    guarded_run w paths_file mode = (payload, 1%Z) ∧
    success_flag payload = Some false ∧
    missing_files w mp cp ≠ [] ∧
    jget payload "errors" = Some (str_list (not_found <$> missing_files w mp cp)) ∧
    jkeys payload = ["success"; "mode"; "errors"; "paths"].
Proof.
  intros Hcfg Hmiss.
  assert (Hne : missing_files w mp cp ≠ []).
  { unfold missing_files. rewrite !filter_cons, filter_nil. cbn [snd].
    destruct Hmiss as [-> | ->]; [done|]. by destruct (is_file w mp). }
  unfold guarded_run. rewrite !(run_configured w paths_file mode mp cp) by done.
  destruct (missing_files w mp cp) as [|entry entries] eqn:E; [done|].
  eexists. split_and!; reflexivity || done.
Qed.

Lemma missing_files_reported_witness :
  ∃ payload,
    run Example.data_world_missing "paths.yaml" "quick" [] = (Ok (payload, 1%Z), []) ∧
    guarded_run Example.data_world_missing "paths.yaml" "quick" = (payload, 1%Z) ∧
    success_flag payload = Some false ∧
    missing_files Example.data_world_missing
      "/repo/data/metocean.csv" "/repo/data/current.csv" ≠ [] ∧
    jget payload "errors" =
      Some (str_list (not_found <$> missing_files Example.data_world_missing
                        "/repo/data/metocean.csv" "/repo/data/current.csv")) ∧
    jkeys payload = ["success"; "mode"; "errors"; "paths"].
Proof.
  apply missing_files_reported.
  - by apply configured_example.
  - right. reflexivity.
Defined.

(** C4. When both files exist and are read, but a dataset lacks one of
    its required columns, the data checker returns a failure report with
    exit status 1 whose [missing_columns] lists, per dataset and in the
    order of the requirement, exactly the required columns that the
    dataset does not have; the two files were read and nothing else was
    called, and the report has no statistics: its keys are success, mode,
    errors and missing_columns. *)
Theorem missing_columns_reported w paths_file mode mp cp f1 f2 t :
  configured w paths_file mp cp →
  is_file w mp = true → is_file w cp = true →
  read_csv w mp = Ok f1 → read_csv w cp = Ok f2 →
  ¬ (METOCEAN_REQUIRED ⊆ columns f1 ∧ CURRENT_REQUIRED ⊆ columns f2) →
  ∃ payload m1 m2,
    run w paths_file mode t =
      (Ok (payload, 1%Z), t ++ [ReadCsv mp (rows_wanted mode); ReadCsv cp (rows_wanted mode)]) ∧
    success_flag payload = Some false ∧
    jget payload "missing_columns" =
      Some (JDict [("metocean_csv", str_list m1); ("current_csv", str_list m2)]) ∧
    (∀ c, c ∈ m1 ↔ c ∈ METOCEAN_REQUIRED ∧ c ∉ columns f1) ∧
    (∀ c, c ∈ m2 ↔ c ∈ CURRENT_REQUIRED ∧ c ∉ columns f2) ∧
    m1 `sublist_of` METOCEAN_REQUIRED ∧ m2 `sublist_of` CURRENT_REQUIRED ∧
    jkeys payload = ["success"; "mode"; "errors"; "missing_columns"].
Proof.
  intros Hcfg Hf1 Hf2 Hr1 Hr2 Hlack.
  rewrite (run_configured w paths_file mode mp cp) by done.
  unfold missing_files. rewrite !filter_cons, filter_nil. cbn [snd].
  rewrite Hf1, Hf2. cbn [decide decide_rel bool_eq_dec].
  unfold _read_csv, call, mbind at 1 2, io_bind. rewrite Hr1, Hr2.
  cbn [fmap result_fmap]. rewrite <- app_assoc. cbn [app].
  assert (Hc1 : columns (head (rows_wanted mode) f1) = columns f1)
    by by destruct (rows_wanted mode).
  assert (Hc2 : columns (head (rows_wanted mode) f2) = columns f2)
    by by destruct (rows_wanted mode).
  set (m1 := _missing_columns (head (rows_wanted mode) f1) METOCEAN_REQUIRED).
  set (m2 := _missing_columns (head (rows_wanted mode) f2) CURRENT_REQUIRED).
  assert (Hm1 : ∀ c, c ∈ m1 ↔ c ∈ METOCEAN_REQUIRED ∧ c ∉ columns f1).
  { intros c. unfold m1. by rewrite missing_columns_spec, Hc1. }
  assert (Hm2 : ∀ c, c ∈ m2 ↔ c ∈ CURRENT_REQUIRED ∧ c ∉ columns f2).
  { intros c. unfold m2. by rewrite missing_columns_spec, Hc2. }
  assert (Hs1 : m1 `sublist_of` METOCEAN_REQUIRED) by apply sublist_filter.
  assert (Hs2 : m2 `sublist_of` CURRENT_REQUIRED) by apply sublist_filter.
  assert (Hne : ¬ (m1 = [] ∧ m2 = [])).
  { intros [H1 H2]. apply Hlack. unfold m1, m2 in H1, H2.
    rewrite missing_columns_nil in H1, H2. by rewrite Hc1 in H1; rewrite Hc2 in H2. }
  exists (JDict [("success", JBool false); ("mode", JStr mode);
                 ("errors", str_list ["required columns missing"]);
                 ("missing_columns",
                  JDict [("metocean_csv", str_list m1); ("current_csv", str_list m2)])]),
    m1, m2.
  split_and!; try done.
  destruct m1, m2; try reflexivity. by destruct Hne.
Qed.

Lemma missing_columns_reported_witness :
  ∃ payload m1 m2,
    run Example.data_world_short "paths.yaml" "full" [] =
      (Ok (payload, 1%Z),
       [] ++ [ReadCsv "/repo/data/metocean.csv" (rows_wanted "full");
              ReadCsv "/repo/data/current.csv" (rows_wanted "full")]) ∧
    success_flag payload = Some false ∧
    jget payload "missing_columns" =
      Some (JDict [("metocean_csv", str_list m1); ("current_csv", str_list m2)]) ∧
    (∀ c, c ∈ m1 ↔ c ∈ METOCEAN_REQUIRED ∧
       c ∉ ["valid_time"; "10米风速"; "有义波高"]) ∧
    (∀ c, c ∈ m2 ↔ c ∈ CURRENT_REQUIRED ∧ c ∉ columns Example.current_table) ∧
    m1 `sublist_of` METOCEAN_REQUIRED ∧ m2 `sublist_of` CURRENT_REQUIRED ∧
    jkeys payload = ["success"; "mode"; "errors"; "missing_columns"].
Proof.
  apply (missing_columns_reported Example.data_world_short "paths.yaml" "full"
           "/repo/data/metocean.csv" "/repo/data/current.csv"
           {| columns := ["valid_time"; "10米风速"; "有义波高"];
              rows := [[Str "2020-01-01"; Num 3; Num 1]] |}
           Example.current_table []).
  - by apply configured_example.
  - reflexivity.
  - reflexivity.
  - reflexivity.
  - reflexivity.
  - change (¬ (METOCEAN_REQUIRED ⊆ ["valid_time"; "10米风速"; "有义波高"] ∧
               CURRENT_REQUIRED ⊆ columns Example.current_table)).
    apply (bool_decide_eq_false_1 _). vm_compute. reflexivity.
Defined.

Lemma read_csv_head w file nrows f t :
  read_csv w file = Ok f →
  _read_csv w file nrows t = (Ok (head nrows f), t ++ [ReadCsv file nrows]).
Proof. intros Hf. unfold _read_csv, call. by rewrite Hf. Qed.

Lemma getcol_total df col : col ∈ columns df → is_Ok (getcol df col).
Proof.
  intros Hin. unfold getcol, is_Ok.
  destruct (list_find_elem_of (eq col) (columns df) col Hin eq_refl) as [[i c] ->]. eauto.
Qed.

Lemma numeric_stats_from_total w df out cols :
  cols ⊆ columns df → is_Ok (numeric_stats_from w df out cols).
Proof.
  revert out. induction cols as [|c cols IH]; intros out Hsub; simpl.
  - by eexists.
  - destruct (getcol_total df c) as [raw ->]; [apply Hsub, list_elem_of_here|].
    cbn [mbind result_bind]. apply IH. intros x Hx. by apply Hsub, list_elem_of_further.
Qed.

(** C8. With both files present and readable, the data checker reads
    each file once, the metocean file first: in quick mode with
    [nrows=5000], in any other mode, full mode among them, without a
    limit. When the files have their required columns the run ends with
    a report of status 0 whose two sections are made from the rows kept
    of each file: in quick mode its first 5000 data rows (all of them
    when the file has no more, exactly 5000 when it has more), in full
    mode every row. The [rows_read] of a section is the number of rows
    kept, and its statistics are those of the rows kept. *)
Theorem rows_read_by_mode w paths_file mode mp cp f1 f2 t :
  configured w paths_file mp cp →
  is_file w mp = true → is_file w cp = true →
  read_csv w mp = Ok f1 → read_csv w cp = Ok f2 →
  ∃ nrows r,
    run w paths_file mode t = (r, t ++ [ReadCsv mp nrows; ReadCsv cp nrows]) ∧
    (mode = "quick" → nrows = Some 5000%Z) ∧
    (mode ≠ "quick" → nrows = None) ∧
    (METOCEAN_REQUIRED ⊆ columns f1 → CURRENT_REQUIRED ⊆ columns f2 →
     ∃ payload d1 d2 stats1 stats2,
       r = Ok (payload, 0%Z) ∧
       columns d1 = columns f1 ∧ columns d2 = columns f2 ∧
       (mode = "quick" →
          rows d1 = take (Z.to_nat 5000) (rows f1) ∧
          rows d2 = take (Z.to_nat 5000) (rows f2) ∧
          Z.of_nat (len d1) = Z.min 5000 (Z.of_nat (len f1)) ∧
          Z.of_nat (len d2) = Z.min 5000 (Z.of_nat (len f2)) ∧
          ((5000 < Z.of_nat (len f1))%Z → Z.of_nat (len d1) = 5000%Z) ∧
          ((5000 < Z.of_nat (len f2))%Z → Z.of_nat (len d2) = 5000%Z)) ∧
       (mode ≠ "quick" → d1 = f1 ∧ d2 = f2) ∧
       _numeric_stats w d1 METOCEAN_NUMERIC = Ok stats1 ∧
       _numeric_stats w d2 CURRENT_NUMERIC = Ok stats2 ∧
       jpath payload ["metocean"; "rows_read"] = Some (JInt (Z.of_nat (len d1))) ∧
       jpath payload ["current"; "rows_read"] = Some (JInt (Z.of_nat (len d2))) ∧
       jpath payload ["metocean"; "numeric_stats"] = Some (JDict stats1) ∧
       jpath payload ["current"; "numeric_stats"] = Some (JDict stats2)).
Proof.
  intros Hcfg Hf1 Hf2 Hr1 Hr2. exists (rows_wanted mode).
  rewrite (run_configured w paths_file mode mp cp) by done.
  unfold missing_files. rewrite !filter_cons, filter_nil. cbn [snd].
  rewrite Hf1, Hf2. cbn [decide decide_rel bool_eq_dec].
  unfold mbind at 1 2, io_bind.
  rewrite (read_csv_head _ _ _ f1), (read_csv_head _ _ _ f2) by done.
  rewrite <- app_assoc. cbn [app].
  assert (Hquick : mode = "quick" → rows_wanted mode = Some 5000%Z).
  { intros ->. unfold rows_wanted. by rewrite decide_True. }
  assert (Hfull : mode ≠ "quick" → rows_wanted mode = None).
  { intros Hne. unfold rows_wanted. by rewrite decide_False. }
  assert (Hc1 : columns (head (rows_wanted mode) f1) = columns f1)
    by by destruct (rows_wanted mode).
  assert (Hc2 : columns (head (rows_wanted mode) f2) = columns f2)
    by by destruct (rows_wanted mode).
  pose proof (missing_columns_nil (head (rows_wanted mode) f1) METOCEAN_REQUIRED) as Hm1.
  pose proof (missing_columns_nil (head (rows_wanted mode) f2) CURRENT_REQUIRED) as Hm2.
  rewrite Hc1 in Hm1. rewrite Hc2 in Hm2.
  destruct (_missing_columns (head (rows_wanted mode) f1) METOCEAN_REQUIRED) as [|c1 m1];
    [|eexists; split_and!; [reflexivity | done | done |];
      intros H _; by apply Hm1 in H].
  destruct (_missing_columns (head (rows_wanted mode) f2) CURRENT_REQUIRED) as [|c2 m2];
    [|eexists; split_and!; [reflexivity | done | done |];
      intros _ H; by apply Hm2 in H].
  destruct (numeric_stats_from_total w (head (rows_wanted mode) f1) []
              (filter (λ c, c ≠ "valid_time") METOCEAN_REQUIRED)) as [stats1 Hs1].
  { rewrite Hc1. intros c [_ Hc]%list_elem_of_filter. by apply Hm1. }
  destruct (numeric_stats_from_total w (head (rows_wanted mode) f2) []
              (filter (λ c, c ≠ "index") CURRENT_REQUIRED)) as [stats2 Hs2].
  { rewrite Hc2. intros c [_ Hc]%list_elem_of_filter. by apply Hm2. }
  unfold _numeric_stats, mbind, io_bind, lift. rewrite Hs1, Hs2.
  eexists. split_and!; [reflexivity | done | done |]. intros _ _.
  eexists _, (head (rows_wanted mode) f1), (head (rows_wanted mode) f2), stats1, stats2.
  split_and!; try done.
  - intros Hq. rewrite (Hquick Hq). unfold len. cbn [head rows].
    rewrite !length_take. split_and!; try done; lia.
  - intros Hne. by rewrite (Hfull Hne).
Qed.

(** A metocean file of 5001 data rows, checked in quick mode: 5000 rows
    are read of it, and the two rows of the current file. *)
Lemma rows_read_by_mode_witness :
  Z.of_nat (len (Example.long_table [Example.metocean_row 2])) = 5001%Z ∧
  ∃ payload,
    run (Example.data_world_long [Example.metocean_row 2]) "paths.yaml" "quick" [] =
      (Ok (payload, 0%Z),
       [ReadCsv "/repo/data/metocean.csv" (Some 5000%Z);
        ReadCsv "/repo/data/current.csv" (Some 5000%Z)]) ∧
    jpath payload ["metocean"; "rows_read"] = Some (JInt 5000) ∧
    jpath payload ["current"; "rows_read"] = Some (JInt 2).
Proof.
  split; [vm_compute; reflexivity|].
  destruct (rows_read_by_mode (Example.data_world_long [Example.metocean_row 2])
              "paths.yaml" "quick" "/repo/data/metocean.csv" "/repo/data/current.csv"
              (Example.long_table [Example.metocean_row 2]) Example.current_table [])
    as (nrows & r & Hrun & Hquick & _ & Hreport).
  - by apply configured_example.
  - reflexivity.
  - reflexivity.
  - reflexivity.
  - reflexivity.
  - destruct Hreport as (payload & d1 & d2 & stats1 & stats2 & -> & _ & _ & Hrows & _ &
                         _ & _ & Hn1 & Hn2 & _).
    + apply (bool_decide_unpack _). vm_compute. reflexivity.
    + apply (bool_decide_unpack _). vm_compute. reflexivity.
    + destruct (Hrows eq_refl) as (_ & _ & Hl1 & Hl2 & _).
      rewrite (Hquick eq_refl) in Hrun. exists payload. split; [exact Hrun|].
      rewrite Hn1, Hn2, Hl1, Hl2. split; vm_compute; reflexivity.
Defined.

End CheckDataFacts.

(** ** The statistics of the data checker *)

Module StatsFacts.
Import Pandas CheckData.

Lemma getcol_length df col raw : getcol df col = Ok raw → length raw = len df.
Proof.
  unfold getcol, len. destruct (list_find _ _) as [[i c]|]; [|done].
  intros [= <-]. apply length_fmap.
Qed.

Lemma mean_float_div mask : mean mask = float_div (sum mask) (Z.of_nat (length mask)).
Proof.
  unfold mean, float_div. destruct mask as [|b mask]; [done|].
  case_decide as H; [simpl in H; lia | done].
Qed.

Lemma dict_keys_set {V} (d : pydict V) k v :
  k ∉ dict_keys d → dict_keys (dict_set d k v) = dict_keys d ++ [k].
Proof.
  unfold dict_keys. induction d as [|[k0 v0] d IH]; simpl; [done|].
  intros Hk. case_decide as Hd.
  - subst. destruct Hk. apply list_elem_of_here.
  - simpl. f_equal. apply IH. intros Hin. apply Hk. by apply list_elem_of_further.
Qed.

Lemma numeric_stats_from_keys w df out cols stats :
  numeric_stats_from w df out cols = Ok stats →
  NoDup (dict_keys out ++ cols) →
  dict_keys stats = dict_keys out ++ cols.
Proof.
  revert out. induction cols as [|c cols IH]; intros out; simpl.
  - intros [= <-] _. by rewrite app_nil_r.
  - destruct (getcol df c) as [raw|e]; [|done]. unfold mbind, result_bind.
    intros Hrun Hnd. apply IH in Hrun.
    + rewrite Hrun, dict_keys_set, <- app_assoc; [done|].
      apply NoDup_app in Hnd as (_ & Hnd & _). intros Hin.
      apply (Hnd c Hin), list_elem_of_here.
    + rewrite dict_keys_set, <- app_assoc; [done|].
      apply NoDup_app in Hnd as (_ & Hnd & _). intros Hin.
      apply (Hnd c Hin), list_elem_of_here.
Qed.

Lemma numeric_stats_from_entries w df out cols stats col entry :
  numeric_stats_from w df out cols = Ok stats →
  dict_get stats col = Some entry →
  dict_get out col = Some entry ∨
  ∃ raw, getcol df col = Ok raw ∧ entry = column_stats w raw.
Proof.
  revert out. induction cols as [|c cols IH]; intros out; simpl.
  - intros [= <-]. auto.
  - destruct (getcol df c) as [raw|e] eqn:Hraw; [|done]. unfold mbind, result_bind.
    intros Hrun Hget. destruct (IH _ Hrun Hget) as [Hout|?]; [|by right].
    rewrite dict_get_set in Hout. destruct (decide (c = col)) as [->|]; [|by left].
    injection Hout as <-. right. eauto.
Qed.

Lemma numeric_stats_entries w df cols stats col entry :
  _numeric_stats w df cols = Ok stats →
  dict_get stats col = Some entry →
  ∃ raw, getcol df col = Ok raw ∧ entry = column_stats w raw.
Proof.
  intros Hrun Hget.
  by destruct (numeric_stats_from_entries _ _ _ _ _ _ _ Hrun Hget) as [?|?].
Qed.

Lemma dataset_stats_reported w df cols stats payload dataset :
  _numeric_stats w df cols = Ok stats → NoDup cols →
  jget payload dataset = Some (dataset_report df stats) →
  stats_reported payload dataset cols.
Proof.
  intros Hrun Hnd Hget. exists (Z.of_nat (len df)), stats.
  unfold jpath. rewrite Hget. split_and!; try reflexivity.
  - by apply (numeric_stats_from_keys _ _ [] _ _ Hrun).
  - intros col entry Hentry.
    destruct (numeric_stats_entries _ _ _ _ _ _ Hrun Hentry) as (raw & Hraw & ->).
    exists (sum (isna <$> raw)). split; [reflexivity|].
    unfold column_stats. cbn [jget dict_get]. 
    rewrite mean_float_div, length_fmap, (getcol_length _ _ _ Hraw). reflexivity.
Qed.

Lemma run_stats w paths_file mode :
  returns (run w paths_file mode)
    (λ r, success_flag r.1 = Some true →
          stats_reported r.1 "metocean" METOCEAN_NUMERIC ∧
          stats_reported r.1 "current" CURRENT_NUMERIC).
Proof.
  unfold run. repeat returns_inv; try (by intros [=]).
  all: intros _; cbn [fst].
  all: split; (eapply dataset_stats_reported; [eassumption| |reflexivity]);
    apply (bool_decide_unpack _); by vm_compute.
Qed.

(** C5. In every successful run of the data checker the statistics are
    computed for exactly the required columns without the identifier
    columns ([valid_time] of the metocean dataset, [index] of the current
    dataset), and every reported [na_rate] is the reported [na_count]
    divided by the number of rows read (NaN when no row was read). *)
Theorem numeric_stats_reported w paths_file mode t payload code t' :
  run w paths_file mode t = (Ok (payload, code), t') →
  success_flag payload = Some true →
  stats_reported payload "metocean" METOCEAN_NUMERIC ∧
  stats_reported payload "current" CURRENT_NUMERIC ∧
  METOCEAN_NUMERIC = filter (fun c => c ≠ "valid_time") METOCEAN_REQUIRED ∧
  CURRENT_NUMERIC = filter (fun c => c ≠ "index") CURRENT_REQUIRED.
Proof.
  intros Hrun Hflag.
  destruct (run_stats w paths_file mode t (payload, code) t' Hrun Hflag) as [H1 H2].
  split_and!; [done | done | reflexivity | reflexivity].
Qed.

Lemma numeric_stats_reported_witness :
  stats_reported (guarded_run Example.data_world "paths.yaml" "quick").1
    "metocean" METOCEAN_NUMERIC ∧
  stats_reported (guarded_run Example.data_world "paths.yaml" "quick").1
    "current" CURRENT_NUMERIC ∧
  METOCEAN_NUMERIC = filter (fun c => c ≠ "valid_time") METOCEAN_REQUIRED ∧
  CURRENT_NUMERIC = filter (fun c => c ≠ "index") CURRENT_REQUIRED.
Proof.
  eapply (numeric_stats_reported Example.data_world "paths.yaml" "quick" [] _ 0%Z _).
  - vm_compute. reflexivity.
  - vm_compute. reflexivity.
Defined.

Lemma dropna_nil {A} (f : A → option Q) (raw : list A) :
  dropna (f <$> raw) = [] ↔ ∀ c, c ∈ raw → f c = None.
Proof.
  unfold dropna. induction raw as [|c raw IH]; simpl.
  - split; [by intros _ c ?%elem_of_nil | done].
  - destruct (f c) as [q|] eqn:Hc; simpl.
    + split; [done|]. intros H. specialize (H c (list_elem_of_here _ _)). congruence.
    + rewrite IH. split.
      * intros H c' [->|?]%elem_of_cons; auto.
      * intros H c' Hin. apply H. by apply list_elem_of_further.
Qed.

Lemma foldl_Qmin_le x xs : (foldl Qmin x xs <= x)%Q.
Proof.
  revert x. induction xs as [|y xs IH]; intros x; simpl; [apply Qle_refl|].
  eapply Qle_trans; [apply IH | apply Q.le_min_l].
Qed.

Lemma foldl_Qmax_ge x xs : (x <= foldl Qmax x xs)%Q.
Proof.
  revert x. induction xs as [|y xs IH]; intros x; simpl; [apply Qle_refl|].
  eapply Qle_trans; [apply Q.le_max_l | apply IH].
Qed.

Lemma column_min_max w raw :
  let entry := column_stats w raw in
  (jget entry "min" = Some JNull ↔ jget entry "max" = Some JNull) ∧
  (jget entry "min" = Some JNull ↔
     ∀ c, c ∈ raw → to_numeric (text_number w) c = None) ∧
  ((jget entry "min" = Some JNull ∧ jget entry "max" = Some JNull) ∨
   (∃ lo hi, jget entry "min" = Some (JFloat (Fin lo)) ∧
      jget entry "max" = Some (JFloat (Fin hi)) ∧ (lo <= hi)%Q)).
Proof.
  intros entry.
  assert (Hmin : jget entry "min" =
            Some (float_json (match dropna (to_numeric (text_number w) <$> raw) with
                              | [] => None
                              | _ => Pandas.min (to_numeric (text_number w) <$> raw)
                              end))) by reflexivity.
  assert (Hmax : jget entry "max" =
            Some (float_json (match dropna (to_numeric (text_number w) <$> raw) with
                              | [] => None
                              | _ => Pandas.max (to_numeric (text_number w) <$> raw)
                              end))) by reflexivity.
  rewrite Hmin, Hmax. clear Hmin Hmax. unfold Pandas.min, Pandas.max.
  rewrite <- dropna_nil.
  destruct (dropna (to_numeric (text_number w) <$> raw)) as [|x xs]; simpl.
  - split_and!; [done | done | by left].
  - split_and!; [done | done |]. right. eexists _, _. split_and!; [done | done |].
    eapply Qle_trans; [apply foldl_Qmin_le | apply foldl_Qmax_ge].
Qed.

(** C10. For every column the statistics routine analyses, the reported
    minimum is [None] exactly when the reported maximum is [None], which
    is exactly when no value of the column coerces to a number; otherwise
    both are numbers and the minimum is at most the maximum. *)
Theorem min_max_reported w df cols stats col entry :
  _numeric_stats w df cols = Ok stats →
  dict_get stats col = Some entry →
  ∃ raw, getcol df col = Ok raw ∧
    (jget entry "min" = Some JNull ↔ jget entry "max" = Some JNull) ∧
    (jget entry "min" = Some JNull ↔
       ∀ c, c ∈ raw → to_numeric (text_number w) c = None) ∧
    ((jget entry "min" = Some JNull ∧ jget entry "max" = Some JNull) ∨
     (∃ lo hi, jget entry "min" = Some (JFloat (Fin lo)) ∧
        jget entry "max" = Some (JFloat (Fin hi)) ∧ (lo <= hi)%Q)).
Proof.
  intros Hrun Hget.
  destruct (numeric_stats_entries _ _ _ _ _ _ Hrun Hget) as (raw & Hraw & ->).
  exists raw. split; [done|]. apply column_min_max.
Qed.

Lemma min_max_reported_witness :
  ∃ raw, getcol Example.metocean_table "峰值波周期" = Ok raw ∧
    let entry := column_stats Example.data_world raw in
    (jget entry "min" = Some JNull ↔ jget entry "max" = Some JNull) ∧
    (jget entry "min" = Some JNull ↔
       ∀ c, c ∈ raw → to_numeric Example.read_number c = None) ∧
    ((jget entry "min" = Some JNull ∧ jget entry "max" = Some JNull) ∨
     (∃ lo hi, jget entry "min" = Some (JFloat (Fin lo)) ∧
        jget entry "max" = Some (JFloat (Fin hi)) ∧ (lo <= hi)%Q)).
Proof.
  destruct (min_max_reported Example.data_world Example.metocean_table
              METOCEAN_NUMERIC
              (default [] (match _numeric_stats Example.data_world Example.metocean_table
                                   METOCEAN_NUMERIC with
                           | Ok stats => Some stats | Raise _ => None end))
              "峰值波周期"
              (column_stats Example.data_world
                 (default [] (match getcol Example.metocean_table "峰值波周期" with
                              | Ok raw => Some raw | Raise _ => None end))))
    as (raw & Hraw & H).
  - vm_compute. reflexivity.
  - vm_compute. reflexivity.
  - exists raw. split; [done|].
    assert (raw = default [] (match getcol Example.metocean_table "峰值波周期" with
                              | Ok raw => Some raw | Raise _ => None end)) as Heq
      by (by rewrite Hraw).
    rewrite <- Heq in H. exact H.
Defined.

End StatsFacts.

(** ** The smoke pipeline: data preparation *)

Module PrepareFacts.
Import Pandas SmokeIform.



Lemma sample_rows {A} (df : list A) (idxs : list nat) :
  Forall (fun i => i < length df) idxs →
  length (omap (fun i => df !! i) idxs) = length idxs ∧
  ∀ r, r ∈ omap (fun i => df !! i) idxs → r ∈ df.
Proof.
  intros Hidx. split.
  - induction Hidx as [|i idxs Hi _ IH]; simpl; [done|].
    destruct (lookup_lt_is_Some_2 df i Hi) as [r ->]. simpl. f_equal. apply IH.
  - intros r (i & _ & Hr)%list_elem_of_omap. by eapply list_elem_of_lookup_2.
Qed.



Lemma draw_ok : sampler_ok Example.smoke_world.
Proof.
  split; cbn [sample_indices Example.smoke_world]; unfold Example.draw.
  - intros seed rows n idxs. case_decide as Hok; [|done]. intros [= <-].
    destruct Hok as (Hseed & Hn & Hrows).
    split_and!; [done | apply length_seq | apply NoDup_seq |].
    apply Forall_forall. intros i [Hlo Hhi]%elem_of_seq.
    pose proof (Nat.mod_upper_bound (Z.to_nat seed) (rows - Z.to_nat n + 1)). lia.
  - intros seed rows n Hseed Hn. rewrite decide_True by done. by eexists.
Qed.


End PrepareFacts.

(** ** The smoke pipeline: the contour *)

Module ContourFacts.
Import Pandas SmokeIform.

Lemma emits_ret {A} (a : A) (P : result A → list event → Prop) :
  P (Ok a) [] → emits (mret a) P.
Proof. intros HP t. exists []. split; [by rewrite app_nil_r | done]. Qed.

Lemma emits_lift {A} (r : result A) (P : result A → list event → Prop) :
  P r [] → emits (lift r) P.
Proof. intros HP t. exists []. split; [by rewrite app_nil_r | done]. Qed.

Lemma emits_call {A} ev (r : result A) (P : result A → list event → Prop) :
  P r [ev] → emits (call ev r) P.
Proof. intros HP t. by exists [ev]. Qed.

Lemma emits_mono {A} (m : io A) (P Q : result A → list event → Prop) :
  emits m P → (∀ r new, P r new → Q r new) → emits m Q.
Proof. intros Hm HPQ t. destruct (Hm t) as (new & Ht & HP). eauto. Qed.

Lemma emits_bind {A B} (m : io A) (k : A → io B) (P : result B → list event → Prop) :
  emits m (λ r new,
    match r with
    | Ok a => emits (k a) (λ r' new', P r' (new ++ new'))
    | Raise e => P (Raise e) new
    end) →
  emits (m ≫= k) P.
Proof.
  intros Hm t. destruct (Hm t) as (new & Ht & Hk). unfold mbind, io_bind.
  destruct (m t) as [[a|e] t1]; simpl in *; subst t1.
  - destruct (Hk (t ++ new)) as (new' & Ht' & HP). exists (new ++ new').
    by rewrite Ht', app_assoc.
  - by exists new.
Qed.

(** The ways a step of a run continues. *)
Lemma computes_ret {A} (a : A) (P : result A → list (Q * Z) → Prop) :
  P (Ok a) [] → computes (mret a) P.
Proof. intros HP. by apply emits_ret. Qed.

Lemma computes_lift {A} (r : result A) (P : result A → list (Q * Z) → Prop) :
  P r [] → computes (lift r) P.
Proof. intros HP. by apply emits_lift. Qed.

Lemma computes_call {A} ev (r : result A) (P : result A → list (Q * Z) → Prop) :
  P r (contours [ev]) → computes (call ev r) P.
Proof. intros HP. by apply emits_call. Qed.

Lemma computes_lift_bind {A B} (r : result A) (k : A → io B)
    (P : result B → list (Q * Z) → Prop) :
  (∀ e, r = Raise e → P (Raise e) []) →
  (∀ a, r = Ok a → computes (k a) P) →
  computes (lift r ≫= k) P.
Proof.
  intros He Ha. apply emits_bind, emits_lift. destruct r as [a|e]; [|by apply He].
  eapply emits_mono; [by apply Ha | done].
Qed.

Lemma computes_call_bind {A B} ev (r : result A) (k : A → io B)
    (P : result B → list (Q * Z) → Prop) :
  (∀ e, r = Raise e → P (Raise e) (contours [ev])) →
  (∀ a, r = Ok a → computes (k a) (λ r' cs, P r' (contours [ev] ++ cs))) →
  computes (call ev r ≫= k) P.
Proof.
  intros He Ha. apply emits_bind, emits_call. destruct r as [a|e]; [|by apply He].
  eapply emits_mono; [by apply Ha|]. intros r' new'. cbn beta.
  unfold contours. by rewrite (omap_app _ [ev]).
Qed.

Lemma computes_quiet_bind {A B} (m : io A) (k : A → io B)
    (P : result B → list (Q * Z) → Prop) :
  computes m (λ _ cs, cs = []) →
  (∀ e, P (Raise e) []) →
  (∀ a, computes (k a) P) →
  computes (m ≫= k) P.
Proof.
  intros Hm He Ha. apply emits_bind. eapply emits_mono; [exact Hm|].
  intros [a|e] new Hnew; cbn beta in *.
  - eapply emits_mono; [apply Ha|]. intros r' new'. cbn beta.
    unfold contours in *. by rewrite omap_app, Hnew.
  - rewrite Hnew. apply He.
Qed.

Lemma prepare_data_quiet w csv_path p s max_rows seed :
  computes (_prepare_data w csv_path p s max_rows seed) (λ _ cs, cs = []).
Proof.
  unfold _prepare_data.
  apply computes_call_bind; [done|]. intros raw_df _.
  apply computes_lift_bind; [done|]. intros primary _.
  apply computes_lift_bind; [done|]. intros secondary _.
  apply computes_lift_bind; [done|]. intros clean_df _.
  destruct clean_df; [by apply computes_lift | by apply computes_ret].
Qed.

Lemma plot_contour_quiet w sample_df coordinates out_path :
  computes (_plot_contour w sample_df coordinates out_path) (λ _ cs, cs = []).
Proof.
  unfold _plot_contour. apply computes_lift_bind; [done|]. intros plot_df _.
  by apply computes_call.
Qed.

Lemma run_contours w paths_file runtime_file :
  computes (run w paths_file runtime_file) (contour_outcome w runtime_file).
Proof.
  unfold run.
  apply computes_lift_bind; [by left|]. intros paths_cfg _.
  apply computes_lift_bind; [by left|]. intros runtime_cfg Hruntime.
  apply computes_lift_bind; [by left|]. intros metocean_csv _.
  apply computes_lift_bind; [by left|]. intros output_dir _.
  apply computes_call_bind; [by left|]. intros _ _.
  apply computes_lift_bind; [by left|]. intros primary_var _.
  apply computes_lift_bind; [by left|]. intros secondary_var _.
  apply computes_lift_bind; [by left|]. intros max_rows _.
  apply computes_lift_bind; [by left|]. intros random_seed _.
  apply computes_lift_bind; [by left|]. intros n_points _.
  apply computes_lift_bind; [by left|]. intros hours Hhours.
  assert (Hduration : state_duration w runtime_file = Some hours).
  { unfold state_duration. by rewrite Hruntime, Hhours. }
  assert (Hone : one_contour w runtime_file [(calculate_alpha w hours 50, n_points)])
    by (by exists hours, n_points).
  apply computes_quiet_bind; [apply prepare_data_quiet | by left |].
  intros [sample_df raw_rows].
  apply computes_call_bind; [by left|]. intros model _.
  cbv zeta. apply computes_call_bind; [by right|]. intros coordinates _.
  apply computes_lift_bind; [by right|]. intros p _.
  apply computes_lift_bind; [by right|]. intros s _.
  apply computes_call_bind; [by right|]. intros _ _.
  apply computes_quiet_bind; [apply plot_contour_quiet | by right |]. intros _.
  apply computes_lift_bind; [by right|]. intros max_primary _.
  apply computes_lift_bind; [by right|]. intros max_secondary _.
  apply computes_ret. exists hours, n_points. split_and!; [done | done | reflexivity].
Qed.

(** C7. Every run of the smoke pipeline computes at most one contour, a
    run that ends with a report exactly one, and the probability of that
    contour, which the report gives as [alpha], is what virocon derives
    from the configured state duration and the constant 50: no other
    configuration value enters it. *)
Theorem one_contour_of_fifty_years w paths_file runtime_file t :
  ∃ new,
    (run w paths_file runtime_file t).2 = t ++ new ∧
    (contours new = [] ∨ one_contour w runtime_file (contours new)) ∧
    ∀ payload code, (run w paths_file runtime_file t).1 = Ok (payload, code) →
      ∃ hours n_points, state_duration w runtime_file = Some hours ∧
        contours new = [(calculate_alpha w hours 50, n_points)] ∧
        jget payload "alpha" = Some (JFloat (Fin (calculate_alpha w hours 50))).
Proof.
  destruct (run_contours w paths_file runtime_file t) as (new & Ht & Hout).
  exists new. split; [done|]. unfold contour_outcome in Hout.
  destruct (run w paths_file runtime_file t).1 as [[payload code]|e].
  - split; [|by intros ? ? [= <- <-]].
    destruct Hout as (hours & n_points & ? & ? & _). right. by exists hours, n_points.
  - split; [done | by intros ? ? [=]].
Qed.

Lemma one_contour_of_fifty_years_witness :
  ∃ new payload hours n_points,
    (run Example.smoke_world "paths.yaml" "runtime.yaml" []).2 = [] ++ new ∧
    (run Example.smoke_world "paths.yaml" "runtime.yaml" []).1 = Ok (payload, 0%Z) ∧
    state_duration Example.smoke_world "runtime.yaml" = Some hours ∧
    contours new = [(calculate_alpha Example.smoke_world hours 50, n_points)] ∧
    jget payload "alpha" =
      Some (JFloat (Fin (calculate_alpha Example.smoke_world hours 50))).
Proof.
  destruct (one_contour_of_fifty_years Example.smoke_world "paths.yaml" "runtime.yaml" [])
    as (new & Ht & _ & Hok).
  eassert (Hrun : (run Example.smoke_world "paths.yaml" "runtime.yaml" []).1 = Ok (_, _))
    by (vm_compute; reflexivity).
  destruct (Hok _ _ Hrun) as (hours & n_points & Hh & Hc & Ha).
  eexists new, _, hours, n_points.
  split_and!; [exact Ht | exact Hrun | exact Hh | exact Hc | exact Ha].
Defined.

End ContourFacts.

(** ** The smoke pipeline: two runs on the same input *)

Module DeterminismFacts.
Import Pandas SmokeIform.

Lemma getitem_inv cfg key v : getitem cfg key = Ok v → cfg !! key = Some v.
Proof. unfold getitem. destruct (cfg !! key); [by intros [= ->] | done]. Qed.

Lemma getitem_bind_inv {A} cfg key (f : yaml_value → result A) a :
  getitem cfg key ≫= f = Ok a → ∃ v, cfg !! key = Some v ∧ f v = Ok a.
Proof.
  unfold getitem, mbind, result_bind. destruct (cfg !! key) as [v|]; [|done]. eauto.
Qed.

Lemma runtime_setting_conv {A} w runtime_file cfg key (f : yaml_value → result A) a :
  _load_yaml w runtime_file = Ok cfg →
  getitem cfg key ≫= f = Ok a →
  ∃ v, runtime_setting w runtime_file key = Some v ∧ f v = Ok a.
Proof.
  intros Hcfg Hget. unfold runtime_setting. rewrite Hcfg. by apply getitem_bind_inv.
Qed.

Lemma run_counted w paths_file runtime_file :
  returns (run w paths_file runtime_file) (λ r, counted w paths_file runtime_file r.1).
Proof.
  unfold run.
  apply returns_lift_bind; intros paths_cfg Hpaths.
  apply returns_lift_bind; intros runtime_cfg Hruntime.
  apply returns_lift_bind; intros metocean_csv Hcsv.
  apply returns_lift_bind; intros output_dir _.
  apply returns_call_bind; intros _ _.
  apply returns_lift_bind; intros primary_var Hp.
  apply returns_lift_bind; intros secondary_var Hs.
  apply returns_lift_bind; intros max_rows Hmax.
  apply returns_lift_bind; intros random_seed Hseed.
  apply returns_lift_bind; intros n_points Hn.
  apply returns_lift_bind; intros hours Hhours.
  apply returns_bind_eq; intros [sample_df raw_rows] (t & t' & Hprep).
  apply returns_call_bind; intros model Hfit.
  cbv zeta. apply returns_call_bind; intros coordinates Hcoords.
  apply returns_lift_bind; intros p _.
  apply returns_lift_bind; intros s _.
  apply returns_call_bind; intros _ _.
  apply returns_bind; intros _.
  apply returns_lift_bind; intros max_primary _.
  apply returns_lift_bind; intros max_secondary _.
  apply returns_ret. cbn [fst].
  exists (read_csv w metocean_csv), primary_var, secondary_var, max_rows, random_seed,
    n_points, hours, sample_df, raw_rows, model, coordinates.
  split_and!.
  - unfold input_csv. by rewrite Hpaths, Hcsv.
  - unfold runtime_setting. rewrite Hruntime. by apply getitem_inv.
  - unfold runtime_setting. rewrite Hruntime. by apply getitem_inv.
  - by eapply runtime_setting_conv.
  - by eapply runtime_setting_conv.
  - by eapply runtime_setting_conv.
  - by eapply runtime_setting_conv.
  - by exists metocean_csv, t, t'.
  - done.
  - done.
  - reflexivity.
  - reflexivity.
Qed.

Lemma py_int_ext w1 w2 v : same_library w1 w2 → py_int w1 v = py_int w2 v.
Proof. intros [_ Hint _ _ _ _ _]. unfold py_int. by rewrite Hint. Qed.

Lemma py_float_ext w1 w2 v : same_library w1 w2 → py_float w1 v = py_float w2 v.
Proof. intros [_ _ Hfloat _ _ _ _]. unfold py_float. by rewrite Hfloat. Qed.

(** What [_prepare_data] returns depends on the world through the file
    contents and the library only. *)
Lemma prepare_data_ext w1 w2 csv1 csv2 p s max_rows seed t1 t2 :
  same_library w1 w2 → read_csv w1 csv1 = read_csv w2 csv2 →
  (_prepare_data w1 csv1 p s max_rows seed t1).1 =
  (_prepare_data w2 csv2 p s max_rows seed t2).1.
Proof.
  intros [Htext _ _ Hsample _ _ _] Hread.
  unfold _prepare_data, clean, coerce_columns, sample, call, lift, mbind, io_bind, result_bind.
  rewrite Htext, Hsample, Hread.
  destruct (label p) as [p'|e]; [|done].
  destruct (label s) as [s'|e]; [|done].
  destruct (read_csv w2 csv2) as [df|e]; [|done].
  destruct (usecols [p'; s'] df) as [raw_df|e]; [|done].
  destruct (getcol raw_df p') as [primary|e]; [|done].
  destruct (getcol raw_df s') as [secondary|e]; [|done].
  destruct (if decide _ then _ else _) as [[|r rows]|e]; done.
Qed.

Lemma setting_agrees {A} w1 r1 w2 r2 key (f1 f2 : yaml_value → result A) a1 a2 :
  runtime_setting w1 r1 key = runtime_setting w2 r2 key →
  (∀ v, f1 v = f2 v) →
  (∃ v, runtime_setting w1 r1 key = Some v ∧ f1 v = Ok a1) →
  (∃ v, runtime_setting w2 r2 key = Some v ∧ f2 v = Ok a2) →
  a1 = a2.
Proof.
  intros Hkey Hf (v1 & Hv1 & Ha1) (v2 & Hv2 & Ha2).
  rewrite Hkey, Hv2 in Hv1. injection Hv1 as <-. rewrite Hf, Ha2 in Ha1.
  by injection Ha1.
Qed.

(** C9. Two runs of the smoke pipeline that read the same CSV contents
    under the same runtime configuration, with the same library, and that
    both end with a report, report the same [rows_used] and the same
    [contour_points]; where the files lie, where the output goes and what
    was called before do not matter. *)
Theorem counts_reproducible w1 paths1 runtime1 t1 payload1 code1 t1'
    w2 paths2 runtime2 t2 payload2 code2 t2' :
  same_library w1 w2 →
  same_input w1 paths1 runtime1 w2 paths2 runtime2 →
  run w1 paths1 runtime1 t1 = (Ok (payload1, code1), t1') →
  run w2 paths2 runtime2 t2 = (Ok (payload2, code2), t2') →
  ∃ rows_used contour_points,
    jpath payload1 ["sample"; "rows_used"] = Some (JInt rows_used) ∧
    jpath payload2 ["sample"; "rows_used"] = Some (JInt rows_used) ∧
    jget payload1 "contour_points" = Some (JInt contour_points) ∧
    jget payload2 "contour_points" = Some (JInt contour_points).
Proof.
  intros Hlib [Hcsv Hkeys] Hrun1 Hrun2.
  apply run_counted in Hrun1
    as (table1 & p1 & s1 & max1 & seed1 & n1 & hours1 & sample1 & raw1 & model1 & coords1 &
        Htable1 & Hp1 & Hs1 & Hmax1 & Hseed1 & Hn1 & Hhours1 & Hprep1 & Hfit1 & Hcoords1 &
        Hrows1 & Hpoints1).
  apply run_counted in Hrun2
    as (table2 & p2 & s2 & max2 & seed2 & n2 & hours2 & sample2 & raw2 & model2 & coords2 &
        Htable2 & Hp2 & Hs2 & Hmax2 & Hseed2 & Hn2 & Hhours2 & Hprep2 & Hfit2 & Hcoords2 &
        Hrows2 & Hpoints2).
  cbn [fst] in *.
  assert (Hin : ∀ key, key ∈ runtime_keys → key ∈ runtime_keys) by done.
  assert (table1 = table2) as <- by (rewrite Hcsv, Htable2 in Htable1; by injection Htable1).
  assert (p1 = p2) as <-.
  { rewrite Hkeys, Hp2 in Hp1; [by injection Hp1|]. by apply (bool_decide_unpack _). }
  assert (s1 = s2) as <-.
  { rewrite Hkeys, Hs2 in Hs1; [by injection Hs1|]. by apply (bool_decide_unpack _). }
  assert (max1 = max2) as <-.
  { eapply setting_agrees; [apply Hkeys | intros v; by apply py_int_ext | done..].
    by apply (bool_decide_unpack _). }
  assert (seed1 = seed2) as <-.
  { eapply setting_agrees; [apply Hkeys | intros v; by apply py_int_ext | done..].
    by apply (bool_decide_unpack _). }
  assert (n1 = n2) as <-.
  { eapply setting_agrees; [apply Hkeys | intros v; by apply py_int_ext | done..].
    by apply (bool_decide_unpack _). }
  assert (hours1 = hours2) as <-.
  { eapply setting_agrees; [apply Hkeys | intros v; by apply py_float_ext | done..].
    by apply (bool_decide_unpack _). }
  destruct Hprep1 as (csv1 & u1 & u1' & Hread1 & Hprep1).
  destruct Hprep2 as (csv2 & u2 & u2' & Hread2 & Hprep2).
  assert (sample1 = sample2) as <-.
  { pose proof (prepare_data_ext w1 w2 csv1 csv2 p1 s1 max1 seed1 u1 u2 Hlib) as Hext.
    rewrite Hprep1, Hprep2 in Hext. cbn [fst] in Hext.
    assert (Ok (sample1, raw1) = Ok (sample2, raw2)) as Heq
      by (apply Hext; by rewrite <- Hread1, <- Hread2).
    by injection Heq. }
  destruct Hlib as [_ _ _ _ Hfit Halpha Hcontour].
  rewrite Hfit, Hfit2 in Hfit1. injection Hfit1 as <-.
  rewrite Halpha, Hcontour, Hcoords2 in Hcoords1. injection Hcoords1 as <-.
  by eexists _, _.
Qed.

Lemma counts_reproducible_witness :
  ∃ rows_used contour_points,
    jpath (guarded_run Example.smoke_world "paths.yaml" "runtime.yaml").1
      ["sample"; "rows_used"] = Some (JInt rows_used) ∧
    jpath (guarded_run Example.smoke_world_moved
             "elsewhere/paths.yaml" "elsewhere/runtime.yaml").1
      ["sample"; "rows_used"] = Some (JInt rows_used) ∧
    jget (guarded_run Example.smoke_world "paths.yaml" "runtime.yaml").1
      "contour_points" = Some (JInt contour_points) ∧
    jget (guarded_run Example.smoke_world_moved
            "elsewhere/paths.yaml" "elsewhere/runtime.yaml").1
      "contour_points" = Some (JInt contour_points).
Proof.
  eapply (counts_reproducible
            Example.smoke_world "paths.yaml" "runtime.yaml" [] _ 0%Z _
            Example.smoke_world_moved "elsewhere/paths.yaml" "elsewhere/runtime.yaml"
            [Mkdir "/tmp"] _ 0%Z _).
  - split; reflexivity.
  - split; [vm_compute; reflexivity|]. intros key Hkey.
    repeat (apply elem_of_cons in Hkey as [->|Hkey]; [vm_compute; reflexivity|]).
    by apply elem_of_nil in Hkey.
  - vm_compute. reflexivity.
  - vm_compute. reflexivity.
Defined.

End DeterminismFacts.

(** * Further properties of the scripts and of their tests *)

(** ** The report of the environment checker *)

Module EnvReportFacts.
Import CheckEnv CheckEnvFacts.

Lemma dict_set_fresh {V} (d : pydict V) k v :
  k ∉ dict_keys d → dict_set d k v = d ++ [(k, v)].
Proof.
  unfold dict_keys. induction d as [|[k0 v0] d IH]; simpl; [done|].
  intros Hk. case_decide as Hd.
  - subst. destruct Hk. apply list_elem_of_here.
  - f_equal. apply IH. intros Hin. apply Hk. by apply list_elem_of_further.
Qed.

Lemma check_imports_from w names st im :
  NoDup names →
  (∀ k, k ∈ names → k ∉ dict_keys st) →
  (∀ k, k ∈ names → k ∉ dict_keys im) →
  foldl (check_import w) (st, im) names =
    (st ++ ((λ name, (name, status_of w name)) <$> names),
     im ++ omap (λ name, pair name <$> module_of w name) names).
Proof.
  revert st im. induction names as [|name names IH]; intros st im Hnd Hst Him; simpl.
  - by rewrite !app_nil_r.
  - apply NoDup_cons in Hnd as [Hname Hnd].
    assert (Hfresh : ∀ {V} (d : pydict V) v k,
              (∀ k, k ∈ name :: names → k ∉ dict_keys d) →
              k ∈ names → k ∉ dict_keys (d ++ [(name, v)])).
    { intros V d v k Hd Hk. unfold dict_keys. rewrite fmap_app, elem_of_app.
      intros [Hin|Hin%list_elem_of_singleton].
      - by apply (Hd k); [apply list_elem_of_further|].
      - simpl in Hin. by subst. }
    unfold status_of, module_of.
    destruct (import_module w name) as [m|e] eqn:E; simpl.
    + rewrite !dict_set_fresh by (apply Hst || apply Him; apply list_elem_of_here).
      rewrite IH by eauto. by rewrite <- !app_assoc.
    + rewrite !dict_set_fresh by (apply Hst; apply list_elem_of_here).
      rewrite IH; [by rewrite <- !app_assoc | done | by eauto |].
      intros k Hk. apply Him. by apply list_elem_of_further.
Qed.

Lemma check_imports_listing w names :
  NoDup names →
  _check_imports w names =
    ((λ name, (name, status_of w name)) <$> names,
     omap (λ name, pair name <$> module_of w name) names).
Proof.
  intros Hnd. unfold _check_imports.
  rewrite check_imports_from; [done | done | |]; intros k _ []%elem_of_nil.
Qed.

(** X1. For a list of module names without repetition, [_check_imports]
    records a status for every name, in the order of the list, whether
    the import raised or not: a failing import does not end the loop. The
    status is ok for a module that imported and carries [Type: message]
    of the exception otherwise, and the second dictionary holds exactly
    the modules that imported, in the same order. *)
Theorem check_imports_complete w names :
  NoDup names →
  (_check_imports w names).1 = (λ name, (name, status_of w name)) <$> names ∧
  (_check_imports w names).2 = omap (λ name, pair name <$> module_of w name) names.
Proof. intros Hnd. by rewrite check_imports_listing. Qed.

Lemma module_names_NoDup : NoDup module_names.
Proof. apply (bool_decide_unpack _). by vm_compute. Qed.

Lemma check_imports_complete_witness :
  (_check_imports Example.env_world module_names).1 =
    (λ name, (name, status_of Example.env_world name)) <$> module_names ∧
  (_check_imports Example.env_world module_names).2 =
    omap (λ name, pair name <$> module_of Example.env_world name) module_names.
Proof. apply check_imports_complete, module_names_NoDup. Defined.

(** The run of the checker once the configuration names a root. *)
Lemma run_root w paths_file root :
  configured_root w paths_file = Some root →
  run w paths_file =
    (let repo_root := resolve w root in
     let imports := (λ name, (name, status_of w name)) <$> module_names in
     found ← match module_of w "virocon" with
              | None => Ok (None, None, false)
              | Some m =>
                  match mod_file m with
                  | None => Raise (Exc "TypeError" "<module 'virocon'> is a built-in module")
                  | Some f =>
                      Ok (Some (resolve w f), Some (default "unknown" (mod_version m)),
                          bool_decide (repo_root ∈ parents (resolve w f)))
                  end
              end;
     let '(virocon_file, virocon_version, source_in_repo) := found in
     let success := forallb status_ok (dict_values imports) && source_in_repo in
     Ok (JDict [
           ("success", JBool success);
           ("python_version", JStr (python_version w));
           ("virocon_version", opt_json JStr virocon_version);
           ("virocon_file", opt_json (fun p => JStr (path_str p)) virocon_file);
           ("repo_root", JStr (path_str repo_root));
           ("source_in_repo", JBool source_in_repo);
           ("imports", JDict (prod_map id status_json <$> imports))
         ], if success then 0 else 1)%Z).
Proof.
  unfold configured_root, run. destruct (_load_yaml w paths_file) as [config|e]; [|done].
  cbn [mbind result_bind]. unfold getitem. destruct (config !! "repo_root") as [[s| | |]|]; try done.
  intros [= ->]. cbn [mbind result_bind Path].
  pose proof (inv_modules _ _ _ (check_imports_inv w module_names) "virocon") as Hvir.
  rewrite decide_True in Hvir by (by apply (bool_decide_unpack _)).
  rewrite check_imports_listing in Hvir |- * by apply module_names_NoDup.
  cbn [snd] in Hvir. by rewrite Hvir.
Qed.

(** X2. With a configuration that names a root, and as long as
    [inspect.getfile] does not fail on an imported [virocon], the
    environment checker returns its report of seven fields whatever the
    imports do. The report gives the interpreter version, the resolved
    root and, under [imports], the seven modules in the order of the
    list, each with its status. *)
Theorem import_errors_do_not_abort w paths_file root :
  configured_root w paths_file = Some root →
  (∀ m, import_module w "virocon" = Ok m → is_Some (mod_file m)) →
  ∃ payload code, run w paths_file = Ok (payload, code) ∧
    jkeys payload = ["success"; "python_version"; "virocon_version"; "virocon_file";
                     "repo_root"; "source_in_repo"; "imports"] ∧
    jget payload "python_version" = Some (JStr (python_version w)) ∧
    jget payload "repo_root" = Some (JStr (path_str (resolve w root))) ∧
    jget payload "imports" =
      Some (JDict ((λ name, (name, status_json (status_of w name))) <$> module_names)).
Proof.
  intros Hroot Hfile. rewrite (run_root _ _ _ Hroot). unfold module_of. cbv zeta.
  destruct (import_module w "virocon") as [m|e] eqn:Ev.
  - destruct (Hfile m eq_refl) as [f ->]. eexists _, _. split; [reflexivity|].
    split_and!; reflexivity.
  - eexists _, _. split; [reflexivity|]. split_and!; reflexivity.
Qed.

Lemma import_errors_do_not_abort_witness :
  ∃ payload code, run Example.env_world_bare "paths.yaml" = Ok (payload, code) ∧
    jkeys payload = ["success"; "python_version"; "virocon_version"; "virocon_file";
                     "repo_root"; "source_in_repo"; "imports"] ∧
    jget payload "python_version" = Some (JStr "3.11.4") ∧
    jget payload "repo_root" = Some (JStr "/repo") ∧
    jget payload "imports" =
      Some (JDict ((λ name, (name, status_json (status_of Example.env_world_bare name)))
                     <$> module_names)).
Proof.
  apply (import_errors_do_not_abort Example.env_world_bare "paths.yaml" "/repo").
  - reflexivity.
  - intros m [=].
Defined.

(** X3. When [virocon] does not import, the checker still reports: the
    exit status is 1, [success] and [source_in_repo] are false,
    [virocon_version] and [virocon_file] are null, and the entry of
    [virocon] under [imports] carries [Type: message] of the exception
    the import raised. *)
Theorem virocon_missing_reported w paths_file root e :
  configured_root w paths_file = Some root →
  import_module w "virocon" = Raise e →
  ∃ payload, guarded_run w paths_file = (payload, 1%Z) ∧
    success_flag payload = Some false ∧
    jget payload "virocon_version" = Some JNull ∧
    jget payload "virocon_file" = Some JNull ∧
    jget payload "source_in_repo" = Some (JBool false) ∧
    jpath payload ["imports"; "virocon"] =
      Some (JDict [("ok", JBool false); ("error", JStr (describe e))]).
Proof.
  intros Hroot Hvir. unfold guarded_run. rewrite (run_root _ _ _ Hroot).
  unfold module_of. rewrite Hvir. cbn [mbind result_bind]. cbv zeta.
  rewrite andb_false_r. eexists. split; [reflexivity|].
  split_and!; try reflexivity.
  unfold module_names. cbn -[describe status_of]. unfold status_of. by rewrite Hvir.
Qed.

Lemma virocon_missing_reported_witness :
  ∃ payload, guarded_run Example.env_world_bare "paths.yaml" = (payload, 1%Z) ∧
    success_flag payload = Some false ∧
    jget payload "virocon_version" = Some JNull ∧
    jget payload "virocon_file" = Some JNull ∧
    jget payload "source_in_repo" = Some (JBool false) ∧
    jpath payload ["imports"; "virocon"] =
      Some (JDict [("ok", JBool false);
                   ("error", JStr "ModuleNotFoundError: No module named 'virocon'")]).
Proof.
  apply (virocon_missing_reported Example.env_world_bare "paths.yaml" "/repo"
           (Exc "ModuleNotFoundError" "No module named 'virocon'")); reflexivity.
Defined.

Lemma not_strictly_under_self (p : path) : ¬ strictly_under p p.
Proof.
  intros (rest & Hne & Heq). apply Hne.
  apply (app_inv_head p). by rewrite app_nil_r.
Qed.

(** X4. When [virocon] imports from a file, the report gives the resolved
    file, the version of the module (the text [unknown] when it has no
    [__version__]) and [source_in_repo], which is true exactly when the
    resolved file lies strictly below the resolved root, whatever the
    other imports do; a file that resolves to the root itself is not in
    the repository; a report of success has [source_in_repo] true. *)
Theorem virocon_location_reported w paths_file root m f :
  configured_root w paths_file = Some root →
  import_module w "virocon" = Ok m → mod_file m = Some f →
  ∃ payload code b, run w paths_file = Ok (payload, code) ∧
    jget payload "virocon_file" = Some (JStr (path_str (resolve w f))) ∧
    jget payload "virocon_version" = Some (JStr (default "unknown" (mod_version m))) ∧
    jget payload "source_in_repo" = Some (JBool b) ∧
    (b = true ↔ strictly_under (resolve w root) (resolve w f)) ∧
    (resolve w f = resolve w root → b = false) ∧
    (success_flag payload = Some true → b = true).
Proof.
  intros Hroot Hvir Hf. rewrite (run_root _ _ _ Hroot).
  unfold module_of. rewrite Hvir, Hf. cbn [mbind result_bind]. cbv zeta.
  eexists _, _, _. split; [reflexivity|].
  assert (Hb : bool_decide (resolve w root ∈ parents (resolve w f)) = true ↔
               strictly_under (resolve w root) (resolve w f))
    by (by rewrite bool_decide_eq_true, elem_of_parents).
  split_and!; try reflexivity.
  - exact Hb.
  - intros Heq. apply not_true_is_false. rewrite Hb, Heq. apply not_strictly_under_self.
  - rewrite success_flag_head. intros [= [_ H]%andb_true_iff]. exact H.
Qed.

Lemma virocon_location_reported_witness :
  ∃ payload code b, run Example.env_world "paths.yaml" = Ok (payload, code) ∧
    jget payload "virocon_file" = Some (JStr "/repo/virocon/__init__.py") ∧
    jget payload "virocon_version" = Some (JStr "2.2.0") ∧
    jget payload "source_in_repo" = Some (JBool b) ∧
    (b = true ↔ strictly_under ["repo"] ["repo"; "virocon"; "__init__.py"]) ∧
    (["repo"; "virocon"; "__init__.py"] = ["repo"] → b = false) ∧
    (success_flag payload = Some true → b = true).
Proof.
  apply (virocon_location_reported Example.env_world "paths.yaml" "/repo"
           {| mod_file := Some "virocon/__init__.py"; mod_version := Some "2.2.0" |}
           "virocon/__init__.py"); reflexivity.
Defined.

(** X5. What the environment checker prints for a configuration it cannot
    use, every time with exit status 1: the exception of the loader as
    it is; [ValueError: YAML root must be a mapping: <file>] for a
    document that is not a mapping; [KeyError: 'repo_root'] for a mapping
    without the key; a [TypeError] for a root that is not a string. *)
Theorem configuration_errors_reported w paths_file :
  (∀ e, safe_load w paths_file = Raise e →
     guarded_run w paths_file =
       (JDict [("success", JBool false); ("error", JStr (describe e))], 1%Z)) ∧
  (safe_load w paths_file = Ok YNotMapping →
     guarded_run w paths_file =
       (JDict [("success", JBool false);
               ("error", JStr ("ValueError: YAML root must be a mapping: " +:+ paths_file))],
        1%Z)) ∧
  (∀ config, safe_load w paths_file = Ok (YMapping config) →
     config !! "repo_root" = None →
     guarded_run w paths_file =
       (JDict [("success", JBool false); ("error", JStr "KeyError: 'repo_root'")], 1%Z)) ∧
  (∀ config v, safe_load w paths_file = Ok (YMapping config) →
     config !! "repo_root" = Some v → (∀ s, v ≠ YStr s) →
     ∃ msg, guarded_run w paths_file =
       (JDict [("success", JBool false); ("error", JStr ("TypeError: " +:+ msg))], 1%Z)).
Proof.
  unfold guarded_run, run, _load_yaml, getitem. split_and!.
  - by intros e ->.
  - by intros ->.
  - intros config -> Hroot. cbn [mbind result_bind]. by rewrite Hroot.
  - intros config v -> Hroot Hv. cbn [mbind result_bind]. rewrite Hroot.
    destruct v as [s| | |]; [by destruct (Hv s) | by eexists..].
Qed.

End EnvReportFacts.

(** ** The reports of the data checker *)

Module DataReportFacts.
Import Pandas CheckData CheckDataFacts StatsFacts.

Lemma run_reports_mode w paths_file mode :
  returns (run w paths_file mode) (λ r, jget r.1 "mode" = Some (JStr mode)).
Proof. unfold run. repeat returns_step; reflexivity. Qed.

(** X6. Every report of the data checker carries the mode it ran in,
    the reports of missing files, of missing columns, of success and of
    an escaped exception alike; started from the command line, the mode
    of the report that is printed is [quick] when [--quick] was given and
    [full] otherwise, and a report is printed whenever the imports
    succeed, the command line is parsed and the report can be printed. *)
Theorem mode_always_reported w paths_file mode :
  jget (guarded_run w paths_file mode).1 "mode" = Some (JStr mode) ∧
  (∀ argv a payload code, parse_args w argv = Parsed a →
     main w argv = (Some payload, code) →
     jget payload "mode" = Some (JStr (if quick a then "quick" else "full"))) ∧
  (∀ argv a, parse_args w argv = Parsed a →
     is_Ok (imports w) →
     is_Ok (print_json w (guarded_run w (paths a)
                            (if quick a then "quick" else "full")).1) →
     ∃ payload code, main w argv = (Some payload, code) ∧
       jget payload "mode" = Some (JStr (if quick a then "quick" else "full"))).
Proof.
  assert (H : ∀ file mode, jget (guarded_run w file mode).1 "mode" = Some (JStr mode)).
  { clear. intros file mode. unfold guarded_run.
    destruct (run w file mode []) as [[r|e] t] eqn:E; [|reflexivity].
    by apply run_reports_mode in E. }
  split_and!; [apply H | |].
  - intros argv a payload code Ha. unfold main. rewrite Ha.
    specialize (H (paths a) (if quick a then "quick" else "full")).
    destruct (imports w); [|done].
    destruct (guarded_run w (paths a) _) as [payload' code'].
    destruct (print_json w payload'); [|done]. by intros [= <- <-].
  - intros argv a Ha [u Himp] [u' Hprint]. unfold main. rewrite Ha, Himp.
    specialize (H (paths a) (if quick a then "quick" else "full")).
    destruct (guarded_run w (paths a) _) as [payload code].
    cbn [fst] in Hprint. rewrite Hprint. by exists payload, code.
Qed.

(** X7. When the two configured files exist and can be parsed, the data
    checker reads both and always ends with a report, never with an
    exception: computing the statistics cannot fail once the required
    columns are there. The exit status is 0 exactly when each file has
    all its required columns, and then the report lists every column of
    each file, in file order. *)
Theorem data_check_succeeds_iff w paths_file mode mp cp f1 f2 t :
  configured w paths_file mp cp →
  is_file w mp = true → is_file w cp = true →
  read_csv w mp = Ok f1 → read_csv w cp = Ok f2 →
  ∃ payload code,
    run w paths_file mode t =
      (Ok (payload, code), t ++ [ReadCsv mp (rows_wanted mode); ReadCsv cp (rows_wanted mode)]) ∧
    (code = 0%Z ∨ code = 1%Z) ∧
    (code = 0%Z ↔ METOCEAN_REQUIRED ⊆ columns f1 ∧ CURRENT_REQUIRED ⊆ columns f2) ∧
    (success_flag payload = Some true ↔ code = 0%Z) ∧
    (code = 0%Z →
       jpath payload ["metocean"; "columns"] = Some (str_list (columns f1)) ∧
       jpath payload ["current"; "columns"] = Some (str_list (columns f2))).
Proof.
  intros Hcfg Hf1 Hf2 Hr1 Hr2.
  rewrite (run_configured w paths_file mode mp cp) by done.
  unfold missing_files. rewrite !filter_cons, filter_nil. cbn [snd].
  rewrite Hf1, Hf2. cbn [decide decide_rel bool_eq_dec].
  unfold mbind at 1 2, io_bind.
  rewrite (read_csv_head _ _ _ f1), (read_csv_head _ _ _ f2) by done.
  rewrite <- app_assoc. cbn [app].
  assert (Hc1 : columns (head (rows_wanted mode) f1) = columns f1)
    by by destruct (rows_wanted mode).
  assert (Hc2 : columns (head (rows_wanted mode) f2) = columns f2)
    by by destruct (rows_wanted mode).
  pose proof (missing_columns_nil (head (rows_wanted mode) f1) METOCEAN_REQUIRED) as Hm1.
  pose proof (missing_columns_nil (head (rows_wanted mode) f2) CURRENT_REQUIRED) as Hm2.
  rewrite Hc1 in Hm1. rewrite Hc2 in Hm2.
  destruct (_missing_columns (head (rows_wanted mode) f1) METOCEAN_REQUIRED) as [|c1 m1].
  - destruct (_missing_columns (head (rows_wanted mode) f2) CURRENT_REQUIRED) as [|c2 m2].
    + destruct (numeric_stats_from_total w (head (rows_wanted mode) f1) []
                  (filter (λ c, c ≠ "valid_time") METOCEAN_REQUIRED)) as [stats1 Hs1].
      { rewrite Hc1. intros c [_ Hc]%list_elem_of_filter. by apply Hm1. }
      destruct (numeric_stats_from_total w (head (rows_wanted mode) f2) []
                  (filter (λ c, c ≠ "index") CURRENT_REQUIRED)) as [stats2 Hs2].
      { rewrite Hc2. intros c [_ Hc]%list_elem_of_filter. by apply Hm2. }
      unfold _numeric_stats, mbind, io_bind, lift. rewrite Hs1, Hs2.
      eexists _, _. split; [reflexivity|]. split_and!; [by left | | done |].
      * split; [intros _; split; [by apply Hm1 | by apply Hm2] | done].
      * intros _. rewrite <- Hc1, <- Hc2. split; reflexivity.
    + eexists _, _. split; [reflexivity|]. split_and!; [by right | | done | done].
      split; [done|]. intros [_ H]. by apply Hm2 in H.
  - eexists _, _. split; [reflexivity|]. split_and!; [by right | | done | done].
    split; [done|]. intros [H _]. by apply Hm1 in H.
Qed.

Lemma data_check_succeeds_iff_witness :
  ∃ payload code,
    run Example.data_world "paths.yaml" "full" [] =
      (Ok (payload, code),
       [] ++ [ReadCsv "/repo/data/metocean.csv" (rows_wanted "full");
              ReadCsv "/repo/data/current.csv" (rows_wanted "full")]) ∧
    (code = 0%Z ∨ code = 1%Z) ∧
    (code = 0%Z ↔ METOCEAN_REQUIRED ⊆ columns Example.metocean_table ∧
                  CURRENT_REQUIRED ⊆ columns Example.current_table) ∧
    (success_flag payload = Some true ↔ code = 0%Z) ∧
    (code = 0%Z →
       jpath payload ["metocean"; "columns"] =
         Some (str_list (columns Example.metocean_table)) ∧
       jpath payload ["current"; "columns"] =
         Some (str_list (columns Example.current_table))).
Proof.
  apply data_check_succeeds_iff.
  - by apply configured_example.
  - reflexivity.
  - reflexivity.
  - reflexivity.
  - reflexivity.
Defined.

Lemma sum_fmap {A} (f : A → bool) (l : list A) :
  sum (f <$> l) = Z.of_nat (length (filter (λ a, f a = true) l)).
Proof.
  unfold sum. f_equal. induction l as [|a l IH]; [done|].
  rewrite fmap_cons, !filter_cons. destruct (f a); simpl; congruence.
Qed.

Lemma zip_with_fmap_same {A B C D} (f : B → C → D) (g : A → B) (h : A → C) (l : list A) :
  zip_with f (g <$> l) (h <$> l) = (λ a, f (g a) (h a)) <$> l.
Proof. induction l as [|a l IH]; [done|]. rewrite !fmap_cons. simpl. by rewrite IH. Qed.

Lemma column_partition w raw :
  length (filter (λ c, isna c = true) raw) +
  length (filter (λ c, non_numeric w c = true) raw) +
  length (dropna (to_numeric (text_number w) <$> raw)) = length raw.
Proof.
  unfold dropna, non_numeric. induction raw as [|c raw IH]; [done|].
  rewrite fmap_cons, !filter_cons.
  destruct c as [|q|s]; simpl; [| |destruct (text_number w s); simpl];
    change (list_omap (option Q) Q id (to_numeric (text_number w) <$> raw))
      with (omap id (to_numeric (text_number w) <$> raw)); lia.
Qed.

(** X8. In the statistics of a column, [na_count] counts the missing
    values and [non_numeric_count] the values that are present and not
    read as a number; together with the values read as numbers they
    account for every row, so the two counts sum to the number of rows
    exactly when [min] is null. *)
Theorem column_counts_partition w df cols stats col entry :
  _numeric_stats w df cols = Ok stats →
  dict_get stats col = Some entry →
  ∃ raw na_count non_numeric_count,
    getcol df col = Ok raw ∧
    jget entry "na_count" = Some (JInt na_count) ∧
    jget entry "non_numeric_count" = Some (JInt non_numeric_count) ∧
    na_count = Z.of_nat (length (filter (λ c, isna c = true) raw)) ∧
    non_numeric_count = Z.of_nat (length (filter (λ c, non_numeric w c = true) raw)) ∧
    (na_count + non_numeric_count +
       Z.of_nat (length (dropna (to_numeric (text_number w) <$> raw))) =
     Z.of_nat (len df))%Z ∧
    (jget entry "min" = Some JNull ↔ (na_count + non_numeric_count = Z.of_nat (len df))%Z).
Proof.
  intros Hrun Hget.
  destruct (numeric_stats_entries _ _ _ _ _ _ Hrun Hget) as (raw & Hraw & ->).
  assert (Hna : jget (column_stats w raw) "na_count" =
                  Some (JInt (sum (isna <$> raw)))) by reflexivity.
  assert (Hnn : jget (column_stats w raw) "non_numeric_count" =
                  Some (JInt (sum (zip_with (λ na n, negb na && isnan n) (isna <$> raw)
                                     (to_numeric (text_number w) <$> raw))))) by reflexivity.
  rewrite zip_with_fmap_same in Hnn. rewrite sum_fmap in Hna, Hnn.
  pose proof (column_partition w raw) as Hpart. unfold non_numeric in Hpart.
  pose proof (getcol_length _ _ _ Hraw) as Hlen.
  eexists raw, _, _. split_and!; [done | exact Hna | exact Hnn | done | done | lia |].
  destruct (column_min_max w raw) as (_ & Hmin & _). rewrite Hmin, <- dropna_nil.
  split.
  - intros Hnil. rewrite Hnil in Hpart. simpl in Hpart. lia.
  - intros Hsum. apply length_zero_iff_nil. lia.
Qed.

Lemma column_counts_partition_witness :
  ∃ entry raw na_count non_numeric_count,
    getcol Example.metocean_table "峰值波周期" = Ok raw ∧
    jget entry "na_count" = Some (JInt na_count) ∧
    jget entry "non_numeric_count" = Some (JInt non_numeric_count) ∧
    na_count = Z.of_nat (length (filter (λ c, isna c = true) raw)) ∧
    non_numeric_count =
      Z.of_nat (length (filter (λ c, non_numeric Example.data_world c = true) raw)) ∧
    (na_count + non_numeric_count +
       Z.of_nat (length (dropna (to_numeric Example.read_number <$> raw))) =
     Z.of_nat (len Example.metocean_table))%Z ∧
    (jget entry "min" = Some JNull ↔
       (na_count + non_numeric_count = Z.of_nat (len Example.metocean_table))%Z).
Proof.
  eexists.
  eapply (column_counts_partition Example.data_world Example.metocean_table
            METOCEAN_NUMERIC _ "峰值波周期" _).
  - vm_compute. reflexivity.
  - vm_compute. reflexivity.
Defined.

Lemma Qmin_cases x y : Qmin x y = x ∨ Qmin x y = y.
Proof. unfold Qmin, GenericMinMax.gmin. destruct (x ?= y)%Q; auto. Qed.

Lemma Qmax_cases x y : Qmax x y = x ∨ Qmax x y = y.
Proof. unfold Qmax, GenericMinMax.gmax. destruct (x ?= y)%Q; auto. Qed.

Lemma foldl_Qmin_least x xs :
  foldl Qmin x xs ∈ x :: xs ∧ ∀ q, q ∈ x :: xs → (foldl Qmin x xs <= q)%Q.
Proof.
  revert x. induction xs as [|y xs IH]; intros x; simpl.
  - split; [apply list_elem_of_here|]. intros q ->%list_elem_of_singleton. apply Qle_refl.
  - destruct (IH (Qmin x y)) as [Hin Hle]. split.
    + apply elem_of_cons in Hin as [->|Hin].
      * destruct (Qmin_cases x y) as [-> | ->];
          [apply list_elem_of_here | apply list_elem_of_further, list_elem_of_here].
      * by do 2 apply list_elem_of_further.
    + intros q [->|[->|Hq]%elem_of_cons]%elem_of_cons.
      * eapply Qle_trans; [apply Hle, list_elem_of_here | apply Q.le_min_l].
      * eapply Qle_trans; [apply Hle, list_elem_of_here | apply Q.le_min_r].
      * by apply Hle, list_elem_of_further.
Qed.

Lemma foldl_Qmax_greatest x xs :
  foldl Qmax x xs ∈ x :: xs ∧ ∀ q, q ∈ x :: xs → (q <= foldl Qmax x xs)%Q.
Proof.
  revert x. induction xs as [|y xs IH]; intros x; simpl.
  - split; [apply list_elem_of_here|]. intros q ->%list_elem_of_singleton. apply Qle_refl.
  - destruct (IH (Qmax x y)) as [Hin Hle]. split.
    + apply elem_of_cons in Hin as [->|Hin].
      * destruct (Qmax_cases x y) as [-> | ->];
          [apply list_elem_of_here | apply list_elem_of_further, list_elem_of_here].
      * by do 2 apply list_elem_of_further.
    + intros q [->|[->|Hq]%elem_of_cons]%elem_of_cons.
      * eapply Qle_trans; [apply Q.le_max_l | apply Hle, list_elem_of_here].
      * eapply Qle_trans; [apply Q.le_max_r | apply Hle, list_elem_of_here].
      * by apply Hle, list_elem_of_further.
Qed.

Lemma elem_of_dropna {A} (f : A → option Q) (raw : list A) q :
  q ∈ dropna (f <$> raw) ↔ ∃ c, c ∈ raw ∧ f c = Some q.
Proof.
  unfold dropna. rewrite list_elem_of_omap. split.
  - intros (o & (c & -> & Hc)%list_elem_of_fmap & Ho). simpl in Ho. eauto.
  - intros (c & Hc & Hq). exists (Some q). split; [|done].
    apply list_elem_of_fmap. eauto.
Qed.

(** X9. When the statistics of a column give numbers for [min] and
    [max], each of the two is the number read from some value of the
    column, and every number read from the column lies between them. *)
Theorem min_max_bound_the_column w df cols stats col entry lo hi :
  _numeric_stats w df cols = Ok stats →
  dict_get stats col = Some entry →
  jget entry "min" = Some (JFloat (Fin lo)) →
  jget entry "max" = Some (JFloat (Fin hi)) →
  ∃ raw, getcol df col = Ok raw ∧
    (∃ c, c ∈ raw ∧ to_numeric (text_number w) c = Some lo) ∧
    (∃ c, c ∈ raw ∧ to_numeric (text_number w) c = Some hi) ∧
    ∀ c q, c ∈ raw → to_numeric (text_number w) c = Some q → (lo <= q <= hi)%Q.
Proof.
  intros Hrun Hget.
  destruct (numeric_stats_entries _ _ _ _ _ _ Hrun Hget) as (raw & Hraw & ->).
  assert (Hmin : jget (column_stats w raw) "min" =
            Some (float_json (match dropna (to_numeric (text_number w) <$> raw) with
                              | [] => None
                              | _ => Pandas.min (to_numeric (text_number w) <$> raw)
                              end))) by reflexivity.
  assert (Hmax : jget (column_stats w raw) "max" =
            Some (float_json (match dropna (to_numeric (text_number w) <$> raw) with
                              | [] => None
                              | _ => Pandas.max (to_numeric (text_number w) <$> raw)
                              end))) by reflexivity.
  rewrite Hmin, Hmax. clear Hmin Hmax.
  unfold Pandas.min, Pandas.max.
  pose proof (elem_of_dropna (to_numeric (text_number w)) raw) as Hdrop.
  destruct (dropna (to_numeric (text_number w) <$> raw)) as [|x xs]; [done|].
  simpl. intros [= <-] [= <-]. exists raw. split; [done|].
  destruct (foldl_Qmin_least x xs) as [Hlo_in Hlo].
  destruct (foldl_Qmax_greatest x xs) as [Hhi_in Hhi].
  split_and!.
  - by apply Hdrop.
  - by apply Hdrop.
  - intros c q Hc Hq. assert (q ∈ x :: xs) by (apply Hdrop; eauto). auto.
Qed.

Lemma min_max_bound_the_column_witness :
  ∃ raw, getcol Example.metocean_table "10米风速" = Ok raw ∧
    (∃ c, c ∈ raw ∧ to_numeric Example.read_number c = Some (inject_Z 0)) ∧
    (∃ c, c ∈ raw ∧ to_numeric Example.read_number c = Some (inject_Z 9)) ∧
    ∀ c q, c ∈ raw → to_numeric Example.read_number c = Some q →
      (inject_Z 0 <= q <= inject_Z 9)%Q.
Proof.
  eapply (min_max_bound_the_column Example.data_world Example.metocean_table
            METOCEAN_NUMERIC _ "10米风速" _).
  - vm_compute. reflexivity.
  - vm_compute. reflexivity.
  - vm_compute. reflexivity.
  - vm_compute. reflexivity.
Defined.

(** X10. On a table without data rows, every column the statistics
    routine analyses gets the entry with both counts 0, [min] and [max]
    null, and [na_rate] NaN: the mean of an empty series. *)
Theorem empty_table_stats w df cols stats col entry :
  rows df = [] →
  _numeric_stats w df cols = Ok stats →
  dict_get stats col = Some entry →
  entry = JDict [("na_count", JInt 0); ("na_rate", JFloat NaN);
                 ("non_numeric_count", JInt 0); ("min", JNull); ("max", JNull)].
Proof.
  intros Hrows Hrun Hget.
  destruct (numeric_stats_entries _ _ _ _ _ _ Hrun Hget) as (raw & Hraw & ->).
  apply getcol_length in Hraw. unfold len in Hraw. rewrite Hrows in Hraw.
  by apply length_zero_iff_nil in Hraw as ->.
Qed.

Lemma empty_table_stats_witness :
  ∃ stats entry,
    _numeric_stats Example.data_world Example.empty_table METOCEAN_NUMERIC = Ok stats ∧
    dict_get stats "有义波高" = Some entry ∧
    entry = JDict [("na_count", JInt 0); ("na_rate", JFloat NaN);
                   ("non_numeric_count", JInt 0); ("min", JNull); ("max", JNull)].
Proof.
  eexists _, _. split; [vm_compute; reflexivity|]. split; [vm_compute; reflexivity|].
  eapply (empty_table_stats Example.data_world Example.empty_table
            METOCEAN_NUMERIC _ "有义波高" _ eq_refl); vm_compute; reflexivity.
Defined.

(** X11. When both files exist and one of them cannot be parsed, the
    exception of the reader ends the run: nothing is read after the file
    that failed (the current file is not opened when the metocean file
    fails), and the report is [{"success": false, "mode": ...,
    "error": "Type: message"}] with exit status 1. *)
Theorem unreadable_file_reported w paths_file mode mp cp e t :
  configured w paths_file mp cp →
  is_file w mp = true → is_file w cp = true →
  (read_csv w mp = Raise e →
     run w paths_file mode t = (Raise e, t ++ [ReadCsv mp (rows_wanted mode)])) ∧
  (∀ f1, read_csv w mp = Ok f1 → read_csv w cp = Raise e →
     run w paths_file mode t =
       (Raise e, t ++ [ReadCsv mp (rows_wanted mode); ReadCsv cp (rows_wanted mode)])) ∧
  (read_csv w mp = Raise e ∨ (is_Ok (read_csv w mp) ∧ read_csv w cp = Raise e) →
     guarded_run w paths_file mode =
       (JDict [("success", JBool false); ("mode", JStr mode);
               ("error", JStr (describe e))], 1%Z)).
Proof.
  intros Hcfg Hf1 Hf2.
  assert (Hrun : ∀ t, run w paths_file mode t =
            (metocean_df ← _read_csv w mp (rows_wanted mode);
             current_df ← _read_csv w cp (rows_wanted mode);
             match _missing_columns metocean_df METOCEAN_REQUIRED,
                   _missing_columns current_df CURRENT_REQUIRED with
             | [], [] =>
                 metocean_stats ← lift (_numeric_stats w metocean_df
                                          (filter (fun c => c ≠ "valid_time") METOCEAN_REQUIRED));
                 current_stats ← lift (_numeric_stats w current_df
                                         (filter (fun c => c ≠ "index") CURRENT_REQUIRED));
                 mret (JDict [("success", JBool true); ("mode", JStr mode);
                              ("paths", JDict [("metocean_csv", JStr mp); ("current_csv", JStr cp)]);
                              ("metocean", dataset_report metocean_df metocean_stats);
                              ("current", dataset_report current_df current_stats)], 0%Z)
             | _, _ =>
                 mret (JDict [("success", JBool false); ("mode", JStr mode);
                              ("errors", str_list ["required columns missing"]);
                              ("missing_columns",
                               JDict [("metocean_csv",
                                       str_list (_missing_columns metocean_df METOCEAN_REQUIRED));
                                      ("current_csv",
                                       str_list (_missing_columns current_df CURRENT_REQUIRED))])],
                       1%Z)
             end) t).
  { intros t0. rewrite (run_configured w paths_file mode mp cp) by done.
    unfold missing_files. rewrite !filter_cons, filter_nil. cbn [snd].
    rewrite Hf1, Hf2. reflexivity. }
  assert (H1 : ∀ t, read_csv w mp = Raise e →
            run w paths_file mode t = (Raise e, t ++ [ReadCsv mp (rows_wanted mode)])).
  { intros t0 Hr. rewrite Hrun. unfold mbind at 1, io_bind, _read_csv at 1, call.
    by rewrite Hr. }
  assert (H2 : ∀ t f1, read_csv w mp = Ok f1 → read_csv w cp = Raise e →
            run w paths_file mode t =
              (Raise e, t ++ [ReadCsv mp (rows_wanted mode); ReadCsv cp (rows_wanted mode)])).
  { intros t0 f1 Hr1 Hr2. rewrite Hrun. unfold mbind at 1 2, io_bind.
    rewrite (read_csv_head _ _ _ f1) by done. unfold _read_csv, call. rewrite Hr2.
    cbn [fmap result_fmap]. by rewrite <- app_assoc. }
  split_and!; [apply H1 | apply H2 |].
  intros [Hr | [[f1 Hr1] Hr2]]; unfold guarded_run.
  - by rewrite H1.
  - by rewrite (H2 _ f1).
Qed.

Lemma unreadable_file_reported_witness :
  guarded_run Example.data_world_unreadable "paths.yaml" "quick" =
    (JDict [("success", JBool false); ("mode", JStr "quick");
            ("error", JStr "EmptyDataError: No columns to parse from file")], 1%Z).
Proof.
  destruct (unreadable_file_reported Example.data_world_unreadable "paths.yaml" "quick"
              "/repo/data/metocean.csv" "/repo/data/current.csv"
              (Exc "EmptyDataError" "No columns to parse from file") [])
    as (_ & _ & H).
  - by apply configured_example.
  - reflexivity.
  - reflexivity.
  - apply H. right. split; [by eexists | reflexivity].
Defined.

(** X12. Whatever its outcome, a run of the data checker reads nothing
    unless the configuration names both files and both exist; it then
    reads the metocean file first and the current file second, each at
    most once and with the row limit of the mode, and nothing else. *)
Theorem reads_only_existing_files w paths_file mode t :
  ∃ new, (run w paths_file mode t).2 = t ++ new ∧
    (new = [] ∨
     ∃ mp cp, configured w paths_file mp cp ∧
       is_file w mp = true ∧ is_file w cp = true ∧
       new `prefix_of` [ReadCsv mp (rows_wanted mode); ReadCsv cp (rows_wanted mode)]).
Proof.
  assert (Hquiet : ∀ e, ∃ new, (@Raise (json * Z) e, t).2 = t ++ new ∧
            (new = [] ∨
             ∃ mp cp, configured w paths_file mp cp ∧
               is_file w mp = true ∧ is_file w cp = true ∧
               new `prefix_of` [ReadCsv mp (rows_wanted mode); ReadCsv cp (rows_wanted mode)])).
  { intros e. exists []. split; [by rewrite app_nil_r | by left]. }
  destruct (_load_yaml w paths_file) as [cfg|e] eqn:Hload;
    [|unfold run, lift, mbind, io_bind; rewrite Hload; apply Hquiet].
  destruct (cfg !! "metocean_csv") as [v1|] eqn:H1;
    [|unfold run, lift, mbind, io_bind, result_bind, getitem; rewrite Hload, H1; apply Hquiet].
  destruct v1 as [mp| | |];
    try (unfold run, lift, mbind, io_bind, result_bind, getitem; rewrite Hload, H1;
         apply Hquiet).
  destruct (cfg !! "current_csv") as [v2|] eqn:H2;
    [|unfold run, lift, mbind, io_bind, result_bind, getitem; rewrite Hload, H1;
      cbn [Path]; rewrite H2; apply Hquiet].
  destruct v2 as [cp| | |];
    try (unfold run, lift, mbind, io_bind, result_bind, getitem; rewrite Hload, H1;
         cbn [Path]; rewrite H2; apply Hquiet).
  assert (Hcfg : configured w paths_file mp cp) by (by exists cfg).
  rewrite (run_configured w paths_file mode mp cp) by done.
  unfold missing_files. rewrite !filter_cons, filter_nil. cbn [snd].
  destruct (is_file w mp) eqn:Hf1, (is_file w cp) eqn:Hf2;
    cbn [decide decide_rel bool_eq_dec];
    try (exists []; split; [by rewrite app_nil_r | by left]).
  unfold mbind at 1, io_bind, _read_csv at 1, call.
  destruct (read_csv w mp) as [f1|e]; cbn [fmap result_fmap].
  - unfold mbind at 1, io_bind, _read_csv at 1, call.
    assert (Hall : ∀ r : result (json * Z),
              ∃ new, (r, (t ++ [ReadCsv mp (rows_wanted mode)]) ++
                          [ReadCsv cp (rows_wanted mode)]).2 = t ++ new ∧
                (new = [] ∨
                 ∃ mp0 cp0, configured w paths_file mp0 cp0 ∧
                   is_file w mp0 = true ∧ is_file w cp0 = true ∧
                   new `prefix_of` [ReadCsv mp0 (rows_wanted mode);
                                    ReadCsv cp0 (rows_wanted mode)])).
    { intros r. eexists. split; [cbn [snd]; by rewrite <- app_assoc|].
      right. exists mp, cp. by split_and!. }
    destruct (read_csv w cp) as [f2|e]; cbn [fmap result_fmap]; [|apply Hall].
    destruct (_missing_columns _ METOCEAN_REQUIRED);
      [destruct (_missing_columns _ CURRENT_REQUIRED)|]; try apply Hall.
    unfold mbind, io_bind, lift.
    destruct (_numeric_stats w _ _); [destruct (_numeric_stats w _ _)|]; apply Hall.
  - eexists. split; [reflexivity|]. right. exists mp, cp. split_and!; try done.
    apply prefix_cons, prefix_nil.
Qed.

Lemma numeric_stats_from_ext w1 w2 df out cols :
  text_number w1 = text_number w2 →
  numeric_stats_from w1 df out cols = numeric_stats_from w2 df out cols.
Proof.
  intros Htext. revert out. induction cols as [|c cols IH]; intros out; simpl; [done|].
  destruct (getcol df c) as [raw|e]; [|done]. cbn [mbind result_bind].
  unfold column_stats. rewrite Htext. apply IH.
Qed.

(** X24. In quick mode the data checker looks at the first 5000 data
    rows of a file only: on two machines that agree on the
    configuration, on which files exist, on how texts are read as
    numbers and on the first 5000 rows of every file, the run gives the
    same report, the same exit status and the same calls, whatever the
    files hold further down. *)
Theorem quick_ignores_later_rows w1 w2 paths_file t :
  safe_load w1 = safe_load w2 →
  is_file w1 = is_file w2 →
  text_number w1 = text_number w2 →
  (∀ file, head (Some 5000%Z) <$> read_csv w1 file = head (Some 5000%Z) <$> read_csv w2 file) →
  run w1 paths_file "quick" t = run w2 paths_file "quick" t.
Proof.
  intros Hload Hfile Htext Hread.
  assert (Hyaml : _load_yaml w1 paths_file = _load_yaml w2 paths_file)
    by (unfold _load_yaml; by rewrite Hload).
  unfold run, _read_csv, _numeric_stats. rewrite Hyaml, Hfile.
  unfold lift, call, mbind, io_bind.
  destruct (_load_yaml w2 paths_file) as [cfg|e]; [|reflexivity].
  destruct (result_bind _ _ Path (getitem cfg "metocean_csv")) as [mp|e]; [|reflexivity].
  destruct (result_bind _ _ Path (getitem cfg "current_csv")) as [cp|e]; [|reflexivity].
  destruct (_ ++ _) as [|err errs]; [|reflexivity].
  rewrite decide_True by done. rewrite !Hread.
  destruct (head _ <$> read_csv w2 mp) as [metocean_df|e]; [|reflexivity].
  destruct (head _ <$> read_csv w2 cp) as [current_df|e]; [|reflexivity].
  destruct (_missing_columns metocean_df _);
    [destruct (_missing_columns current_df _)|]; try reflexivity.
  by rewrite !(numeric_stats_from_ext w1 w2).
Qed.

Lemma quick_ignores_later_rows_witness :
  run (Example.data_world_long [Example.metocean_row 2]) "paths.yaml" "quick" [] =
  run (Example.data_world_long [Example.metocean_row 3; Example.metocean_row 4])
    "paths.yaml" "quick" [].
Proof.
  apply quick_ignores_later_rows; try reflexivity.
  intros file. cbn [read_csv Example.data_world_long].
  case_decide; reflexivity.
Defined.

End DataReportFacts.

(** ** The smoke pipeline: its calls *)

Module SmokeCallFacts.
Import Pandas SmokeIform ContourFacts.

Lemma emits_lift_bind {A B} (r : result A) (k : A → io B)
    (P : result B → list event → Prop) :
  (∀ e, r = Raise e → P (Raise e) []) →
  (∀ a, r = Ok a → emits (k a) P) →
  emits (lift r ≫= k) P.
Proof.
  intros He Ha. apply emits_bind, emits_lift. destruct r as [a|e]; [|by apply He].
  eapply emits_mono; [by apply Ha | done].
Qed.

Lemma emits_call_bind {A B} ev (r : result A) (k : A → io B)
    (P : result B → list event → Prop) :
  (∀ e, r = Raise e → P (Raise e) [ev]) →
  (∀ a, r = Ok a → emits (k a) (λ r' new, P r' (ev :: new))) →
  emits (call ev r ≫= k) P.
Proof.
  intros He Ha. apply emits_bind, emits_call. destruct r as [a|e]; [|by apply He].
  eapply emits_mono; [by apply Ha | done].
Qed.

Lemma emits_then {A B} (m : io A) (k : A → io B) (Qm : result A → list event → Prop)
    (P : result B → list event → Prop) :
  emits m Qm →
  (∀ e new, Qm (Raise e) new → P (Raise e) new) →
  (∀ a new, Qm (Ok a) new → emits (k a) (λ r' new', P r' (new ++ new'))) →
  emits (m ≫= k) P.
Proof.
  intros Hm He Ha. apply emits_bind. eapply emits_mono; [exact Hm|].
  intros [a|e] new HQ; [by apply Ha | by apply He].
Qed.

Lemma prepare_data_calls w csv_path p s max_rows seed :
  emits (_prepare_data w csv_path p s max_rows seed)
    (λ r new, new = [ReadCsv csv_path None] ∧
       ∀ sample raw, r = Ok (sample, raw) → sample ≠ []).
Proof.
  unfold _prepare_data.
  apply emits_call_bind; [done|]. intros raw_df _.
  apply emits_lift_bind; [done|]. intros primary _.
  apply emits_lift_bind; [done|]. intros secondary _.
  apply emits_lift_bind; [done|]. intros clean_df _.
  destruct clean_df; [by apply emits_lift | apply emits_ret].
  split; [done|]. by intros ? ? [= <- _].
Qed.

Lemma plot_contour_calls w sample_df coordinates out_path :
  emits (_plot_contour w sample_df coordinates out_path)
    (λ r new, new `prefix_of` [Savefig out_path] ∧ (is_Ok r → new = [Savefig out_path])).
Proof.
  unfold _plot_contour.
  apply emits_lift_bind.
  - intros e _. split; [apply prefix_nil | by intros [? [=]]].
  - intros plot_df _. by apply emits_call.
Qed.

Ltac initial_part :=
  unshelve (eexists _, _, _, _, _; split_and!;
    [first [by left | right; eassumption]
    | unfold pipeline; repeat apply prefix_cons; apply prefix_nil
    | by intros ? ? [=]]);
  first [exact "" | exact 0%nat | exact 0%Q | exact 0%Z].

Lemma run_calls w paths_file runtime_file :
  emits (run w paths_file runtime_file) (calls_outcome w paths_file runtime_file).
Proof.
  unfold run.
  apply emits_lift_bind; [intros; initial_part|]. intros paths_cfg Hpaths.
  apply emits_lift_bind; [intros; initial_part|]. intros runtime_cfg Hruntime.
  apply emits_lift_bind; [intros; initial_part|]. intros metocean_csv Hcsv.
  apply emits_lift_bind; [intros; initial_part|]. intros output_dir Hout.
  assert (Hcfg : configured w paths_file metocean_csv output_dir).
  { exists paths_cfg. split; [done|].
    apply DeterminismFacts.getitem_bind_inv in Hcsv as (v1 & Hv1 & Hp1).
    apply DeterminismFacts.getitem_bind_inv in Hout as (v2 & Hv2 & Hp2).
    destruct v1, v2; try done. injection Hp1 as ->. injection Hp2 as ->. done. }
  apply emits_call_bind; [intros; initial_part|]. intros _ _.
  apply emits_lift_bind; [intros; initial_part|]. intros primary_var _.
  apply emits_lift_bind; [intros; initial_part|]. intros secondary_var _.
  apply emits_lift_bind; [intros; initial_part|]. intros max_rows _.
  apply emits_lift_bind; [intros; initial_part|]. intros random_seed _.
  apply emits_lift_bind; [intros; initial_part|]. intros n_points Hn.
  apply (DeterminismFacts.runtime_setting_conv w runtime_file _ _ _ _ Hruntime) in Hn.
  apply emits_lift_bind; [intros; initial_part|]. intros hours _.
  eapply emits_then; [apply prepare_data_calls | |].
  { intros e new [-> _]. initial_part. }
  intros [sample_df raw_rows] new [-> Hne]. specialize (Hne _ _ eq_refl).
  apply emits_call_bind; [intros; initial_part|]. intros model _.
  cbv zeta. apply emits_call_bind; [intros; initial_part|]. intros coordinates _.
  apply emits_lift_bind; [intros; initial_part|]. intros p _.
  apply emits_lift_bind; [intros; initial_part|]. intros s _.
  apply emits_call_bind; [intros; initial_part|]. intros _ _.
  eapply emits_then; [apply plot_contour_calls | |].
  { intros e new [Hpre _]. eexists output_dir, metocean_csv, _, _, _.
    split_and!; [by right | | by intros ? ? [=]].
    unfold pipeline. repeat apply prefix_cons. exact Hpre. }
  intros _ new [_ ->]; [|by eexists].
  apply emits_lift_bind; [intros; initial_part|]. intros max_primary _.
  apply emits_lift_bind; [intros; initial_part|]. intros max_secondary _.
  apply emits_ret. eexists output_dir, metocean_csv, _, _, n_points.
  split_and!; [by right | unfold pipeline; repeat apply prefix_cons; apply prefix_nil |].
  intros payload code [= <- <-].
  split_and!; try done. destruct sample_df; [done | simpl; lia].
Qed.

(** X13. A run of the smoke pipeline that ends with a report made exactly
    six calls, in this order: it created the configured output
    directory, read the configured metocean file in full, fitted the
    model on as many rows as the report gives as [rows_used] (at least
    one), computed one contour with the configured number of points,
    wrote the coordinates and saved the figure; the exit status is 0, and
    the two paths under [output] are the two files written, both in the
    output directory. *)
Theorem smoke_run_calls w paths_file runtime_file t payload code t' :
  run w paths_file runtime_file t = (Ok (payload, code), t') →
  ∃ output_dir csv rows alpha n_points,
    configured w paths_file csv output_dir ∧
    (∃ v, runtime_setting w runtime_file "smoke_n_points" = Some v ∧
          py_int w v = Ok n_points) ∧
    t' = t ++ [Mkdir output_dir; ReadCsv csv None; Fit rows; Contour alpha n_points;
               ToCsv (output_dir +:+ "/iform_wind10_hs_coords.csv");
               Savefig (output_dir +:+ "/iform_wind10_hs_plot.png")] ∧
    code = 0%Z ∧
    jpath payload ["output"; "coords_csv"] =
      Some (JStr (output_dir +:+ "/iform_wind10_hs_coords.csv")) ∧
    jpath payload ["output"; "plot_png"] =
      Some (JStr (output_dir +:+ "/iform_wind10_hs_plot.png")) ∧
    jpath payload ["sample"; "rows_used"] = Some (JInt (Z.of_nat rows)) ∧
    (0 < rows)%nat.
Proof.
  intros Hrun. destruct (run_calls w paths_file runtime_file t) as (new & Ht & Hout).
  rewrite Hrun in Ht, Hout. simpl in Ht, Hout.
  destruct Hout as (output_dir & csv & rows & alpha & n_points & _ & _ & Hok).
  destruct (Hok _ _ eq_refl) as (Hcfg & Hn & -> & ? & ? & ? & ? & ?).
  exists output_dir, csv, rows, alpha, n_points. by split_and!.
Qed.

Lemma smoke_run_calls_witness :
  ∃ payload code t',
    run Example.smoke_world "paths.yaml" "runtime.yaml" [] = (Ok (payload, code), t') ∧
    ∃ output_dir csv rows alpha n_points,
      configured Example.smoke_world "paths.yaml" csv output_dir ∧
      (∃ v, runtime_setting Example.smoke_world "runtime.yaml" "smoke_n_points" = Some v ∧
            py_int Example.smoke_world v = Ok n_points) ∧
      t' = [] ++ [Mkdir output_dir; ReadCsv csv None; Fit rows; Contour alpha n_points;
                  ToCsv (output_dir +:+ "/iform_wind10_hs_coords.csv");
                  Savefig (output_dir +:+ "/iform_wind10_hs_plot.png")] ∧
      code = 0%Z ∧
      jpath payload ["output"; "coords_csv"] =
        Some (JStr (output_dir +:+ "/iform_wind10_hs_coords.csv")) ∧
      jpath payload ["output"; "plot_png"] =
        Some (JStr (output_dir +:+ "/iform_wind10_hs_plot.png")) ∧
      jpath payload ["sample"; "rows_used"] = Some (JInt (Z.of_nat rows)) ∧
      (0 < rows)%nat.
Proof.
  eexists _, _, _.
  eassert (Hrun : run Example.smoke_world "paths.yaml" "runtime.yaml" [] = (Ok (_, _), _))
    by (vm_compute; reflexivity).
  split; [exact Hrun|].
  exact (smoke_run_calls Example.smoke_world "paths.yaml" "runtime.yaml" [] _ _ _ Hrun).
Defined.

(** X14. Whatever its outcome, a run of the smoke pipeline makes an
    initial part of that sequence of six calls and nothing else: no file
    is written before the contour is computed and the model is not
    fitted before the data is read. A run that makes a call at all has
    loaded the paths file, and the directory it creates and writes into
    and the file it reads are the [output_dir] and the [metocean_csv]
    that file names: no other file is read, and that one in full. *)
Theorem smoke_calls_in_order w paths_file runtime_file t :
  ∃ new output_dir csv rows alpha n_points,
    (run w paths_file runtime_file t).2 = t ++ new ∧
    (new = [] ∨ configured w paths_file csv output_dir) ∧
    new `prefix_of`
      [Mkdir output_dir; ReadCsv csv None; Fit rows; Contour alpha n_points;
       ToCsv (output_dir +:+ "/iform_wind10_hs_coords.csv");
       Savefig (output_dir +:+ "/iform_wind10_hs_plot.png")] ∧
    (∀ file nrows, ReadCsv file nrows ∈ new → file = csv ∧ nrows = None).
Proof.
  destruct (run_calls w paths_file runtime_file t) as (new & Ht & Hout).
  destruct Hout as (output_dir & csv & rows & alpha & n_points & Hcfg & Hpre & _).
  exists new, output_dir, csv, rows, alpha, n_points. split_and!; try done.
  intros file nrows Hin. destruct Hpre as [rest Hpre]. unfold pipeline in Hpre.
  assert (Hin' : ReadCsv file nrows ∈ new ++ rest) by (apply elem_of_app; by left).
  rewrite <- Hpre in Hin'.
  repeat (apply elem_of_cons in Hin' as [Heq|Hin']; [by simplify_eq|]).
  by apply elem_of_nil in Hin'.
Qed.

Lemma run_without_runtime_key w paths_file runtime_file key :
  key ∈ runtime_keys → runtime_setting w runtime_file key = None →
  emits (run w paths_file runtime_file)
    (λ r new, (∃ e, r = Raise e) ∧ (new = [] ∨ ∃ output_dir, new = [Mkdir output_dir])).
Proof.
  intros Hkey Hnone. unfold run, runtime_setting in *.
  apply emits_lift_bind; [by eauto|]. intros paths_cfg _.
  apply emits_lift_bind; [by eauto|]. intros runtime_cfg Hruntime.
  rewrite Hruntime in Hnone.
  apply emits_lift_bind; [by eauto|]. intros metocean_csv _.
  apply emits_lift_bind; [by eauto|]. intros output_dir _.
  apply emits_call_bind; [by eauto|]. intros _ _.
  apply emits_lift_bind; [by eauto|]. intros primary_var H1%DeterminismFacts.getitem_inv.
  apply emits_lift_bind; [by eauto|]. intros secondary_var H2%DeterminismFacts.getitem_inv.
  apply emits_lift_bind; [by eauto|].
  intros max_rows (? & H3 & _)%DeterminismFacts.getitem_bind_inv.
  apply emits_lift_bind; [by eauto|].
  intros random_seed (? & H4 & _)%DeterminismFacts.getitem_bind_inv.
  apply emits_lift_bind; [by eauto|].
  intros n_points (? & H5 & _)%DeterminismFacts.getitem_bind_inv.
  apply emits_lift_bind; [by eauto|].
  intros hours (? & H6 & _)%DeterminismFacts.getitem_bind_inv.
  exfalso. unfold runtime_keys in Hkey.
  repeat (apply elem_of_cons in Hkey as [->|Hkey]; [congruence|]).
  by apply elem_of_nil in Hkey.
Qed.

(** X15. Each of the six runtime settings is required: when one of them
    is absent (or the runtime file cannot be loaded), the run raises,
    having made no call, or only the call that creates the output
    directory; no data is read. *)
Theorem runtime_keys_required w paths_file runtime_file key t :
  key ∈ runtime_keys →
  runtime_setting w runtime_file key = None →
  ∃ e new, run w paths_file runtime_file t = (Raise e, t ++ new) ∧
    (new = [] ∨ ∃ output_dir, new = [Mkdir output_dir]).
Proof.
  intros Hkey Hnone.
  destruct (run_without_runtime_key w paths_file runtime_file key Hkey Hnone t)
    as (new & Ht & [e He] & Hnew).
  exists e, new. split; [|done].
  destruct (run w paths_file runtime_file t) as [r t']. simpl in *. by subst.
Qed.

Lemma runtime_keys_required_witness :
  ∃ e new,
    run (Example.smoke_world_with Example.load_without_points)
      "paths.yaml" "runtime.yaml" [] = (Raise e, [] ++ new) ∧
    (new = [] ∨ ∃ output_dir, new = [Mkdir output_dir]).
Proof.
  apply (runtime_keys_required _ _ _ "smoke_n_points").
  - by apply (bool_decide_unpack _).
  - reflexivity.
Defined.

(** X16. When the paths file does not name both the metocean file and
    the output directory as strings, or the runtime file cannot be
    loaded, the run raises before any call: the output directory is not
    created. *)
Theorem bad_configuration_no_call w paths_file runtime_file t :
  (¬ ∃ csv output_dir, configured w paths_file csv output_dir) ∨
  (¬ is_Ok (_load_yaml w runtime_file)) →
  ∃ e, run w paths_file runtime_file t = (Raise e, t).
Proof.
  intros Hbad. unfold run, lift, mbind, io_bind.
  destruct (_load_yaml w paths_file) as [paths_cfg|e] eqn:Hpaths; [|by eexists].
  destruct (_load_yaml w runtime_file) as [runtime_cfg|e] eqn:Hruntime; [|by eexists].
  destruct Hbad as [Hbad|Hbad]; [|destruct Hbad; by eexists].
  unfold getitem, result_bind.
  destruct (paths_cfg !! "metocean_csv") as [v1|] eqn:H1; [|by eexists].
  destruct v1 as [csv| | |]; try by eexists.
  cbn [Path].
  destruct (paths_cfg !! "output_dir") as [v2|] eqn:H2; [|by eexists].
  destruct v2 as [output_dir| | |]; try by eexists.
  destruct Hbad. exists csv, output_dir, paths_cfg. done.
Qed.

Lemma bad_configuration_no_call_witness :
  ∃ e, run (Example.smoke_world_with Example.load_without_output)
         "paths.yaml" "runtime.yaml" [] = (Raise e, []).
Proof.
  apply bad_configuration_no_call. left.
  intros (csv & output_dir & cfg & Hcfg & _ & Hout).
  vm_compute in Hcfg. injection Hcfg as <-. vm_compute in Hout. discriminate Hout.
Defined.

End SmokeCallFacts.

(** ** The smoke pipeline: its report *)

Module SmokeReportFacts.
Import Pandas SmokeIform PrepareFacts.

Lemma length_omap_le {A B} (f : A → option B) (l : list A) : length (omap f l) ≤ length l.
Proof.
  induction l as [|a l IH]; simpl; [done|].
  destruct (f a); simpl; [apply le_n_S | apply Nat.le_le_succ_r]; exact IH.
Qed.

Lemma length_clean w primary secondary :
  length (clean w primary secondary) ≤ length primary.
Proof.
  unfold clean, keep_positive, dropna_subset, coerce_columns.
  etrans; [apply length_filter|]. etrans; [apply length_omap_le|].
  rewrite length_zip, !length_fmap. lia.
Qed.

Lemma prepare_data_bounds w csv p s max_rows seed t sample raw t' :
  sampler_ok w →
  _prepare_data w csv p s max_rows seed t = (Ok (sample, raw), t') →
  0 < length sample ≤ raw ∧ (Z.of_nat (length sample) ≤ max_rows)%Z ∧
  ∃ df, read_csv w csv = Ok df ∧ raw = len df.
Proof.
  intros Hs. unfold _prepare_data, call, lift, mbind, io_bind, result_bind.
  destruct (label p) as [p'|e]; [|done].
  destruct (label s) as [s'|e]; [|done].
  destruct (read_csv w csv) as [df0|e]; [|done].
  destruct (usecols [p'; s'] df0) as [raw_df|e] eqn:Hcols; [|done].
  assert (Hrows : len raw_df = len df0).
  { unfold usecols in Hcols. case_decide; [|done]. injection Hcols as <-.
    unfold len. cbn [rows]. apply length_fmap. }
  destruct (getcol raw_df p') as [primary|e] eqn:Hp; [|done].
  destruct (getcol raw_df s') as [secondary|e]; [|done].
  pose proof (length_clean w primary secondary) as Hlen.
  rewrite (StatsFacts.getcol_length _ _ _ Hp) in Hlen.
  case_decide as Hlt.
  - unfold SmokeIform.sample.
    destruct (sample_indices w seed _ max_rows) as [idxs|e] eqn:Hidx; [|done].
    destruct (sample_sound w Hs _ _ _ _ Hidx) as (Hn & Hl & _ & Hrange).
    destruct (sample_rows _ idxs Hrange) as [Hl' _]. cbn [fmap result_fmap].
    destruct (omap _ idxs) as [|r rows] eqn:Hom; [done|].
    intros [= <- <- _]. simpl in *. split_and!; [lia.. | by exists df0].
  - destruct (clean w primary secondary) as [|r rows] eqn:Hc; [done|].
    intros [= <- <- _]. simpl in *. split_and!; [lia.. | by exists df0].
Qed.

Lemma run_sampled w paths_file runtime_file :
  returns (run w paths_file runtime_file)
    (λ r, ∃ csv p s max_rows seed sample raw_rows t t',
       input_csv w paths_file = Some (read_csv w csv) ∧
       (∃ v, runtime_setting w runtime_file "smoke_max_rows" = Some v ∧
             py_int w v = Ok max_rows) ∧
       _prepare_data w csv p s max_rows seed t = (Ok (sample, raw_rows), t') ∧
       jpath r.1 ["sample"; "raw_rows_read"] = Some (JInt (Z.of_nat raw_rows)) ∧
       jpath r.1 ["sample"; "rows_used"] = Some (JInt (Z.of_nat (length sample)))).
Proof.
  unfold run.
  apply returns_lift_bind; intros paths_cfg Hpaths.
  apply returns_lift_bind; intros runtime_cfg Hruntime.
  apply returns_lift_bind; intros metocean_csv Hcsv.
  apply returns_lift_bind; intros output_dir _.
  apply returns_call_bind; intros _ _.
  apply returns_lift_bind; intros primary_var _.
  apply returns_lift_bind; intros secondary_var _.
  apply returns_lift_bind; intros max_rows Hmax.
  apply returns_lift_bind; intros random_seed _.
  apply returns_lift_bind; intros n_points _.
  apply returns_lift_bind; intros hours _.
  apply returns_bind_eq; intros [sample_df raw_rows] (t & t' & Hprep).
  apply returns_call_bind; intros model _.
  cbv zeta. apply returns_call_bind; intros coordinates _.
  apply returns_lift_bind; intros p _.
  apply returns_lift_bind; intros s _.
  apply returns_call_bind; intros _ _.
  apply returns_bind; intros _.
  apply returns_lift_bind; intros max_primary _.
  apply returns_lift_bind; intros max_secondary _.
  apply returns_ret. cbn [fst].
  exists metocean_csv, primary_var, secondary_var, max_rows, random_seed, sample_df,
    raw_rows, t, t'.
  split_and!; [| by eapply DeterminismFacts.runtime_setting_conv | done | done | done].
  unfold input_csv. by rewrite Hpaths, Hcsv.
Qed.

(** X17. With a sampler that keeps its contract: in a report of the smoke
    pipeline, [raw_rows_read] is the
    number of data rows of the file, those dropped by the cleaning
    included, and [rows_used] is at least 1, at most [raw_rows_read] and
    at most the configured [smoke_max_rows]; so a cap of zero or less
    never gives a report. *)
Theorem rows_used_bounds w paths_file runtime_file t payload code t' :
  sampler_ok w →
  run w paths_file runtime_file t = (Ok (payload, code), t') →
  ∃ df raw_rows_read rows_used max_rows,
    input_csv w paths_file = Some (Ok df) ∧
    jpath payload ["sample"; "raw_rows_read"] = Some (JInt raw_rows_read) ∧
    jpath payload ["sample"; "rows_used"] = Some (JInt rows_used) ∧
    (∃ v, runtime_setting w runtime_file "smoke_max_rows" = Some v ∧
          py_int w v = Ok max_rows) ∧
    raw_rows_read = Z.of_nat (len df) ∧
    (1 ≤ rows_used ≤ raw_rows_read)%Z ∧ (rows_used ≤ max_rows)%Z.
Proof.
  intros Hs Hrun.
  apply run_sampled in Hrun
    as (csv & p & s & max_rows & seed & sample & raw & u & u' &
        Hcsv & Hmax & Hprep & Hraw & Hused).
  destruct (prepare_data_bounds _ _ _ _ _ _ _ _ _ _ Hs Hprep)
    as (Hb1 & Hb2 & df & Hdf & ->).
  exists df, (Z.of_nat (len df)), (Z.of_nat (length sample)), max_rows.
  rewrite Hdf in Hcsv. split_and!; [done | done | done | done | done | lia | lia | done].
Qed.

Lemma rows_used_bounds_witness :
  ∃ df raw_rows_read rows_used max_rows,
    input_csv Example.smoke_world "paths.yaml" = Some (Ok df) ∧
    jpath (guarded_run Example.smoke_world "paths.yaml" "runtime.yaml").1
      ["sample"; "raw_rows_read"] = Some (JInt raw_rows_read) ∧
    jpath (guarded_run Example.smoke_world "paths.yaml" "runtime.yaml").1
      ["sample"; "rows_used"] = Some (JInt rows_used) ∧
    (∃ v, runtime_setting Example.smoke_world "runtime.yaml" "smoke_max_rows" = Some v ∧
          py_int Example.smoke_world v = Ok max_rows) ∧
    raw_rows_read = Z.of_nat (len df) ∧
    (1 ≤ rows_used ≤ raw_rows_read)%Z ∧ (rows_used ≤ max_rows)%Z.
Proof.
  eapply (rows_used_bounds Example.smoke_world "paths.yaml" "runtime.yaml" [] _ 0%Z _).
  - exact draw_ok.
  - vm_compute. reflexivity.
Defined.

(** X18. With a sampler that keeps its contract, [_plot_contour] always
    gets to save the figure, and plots at
    most 5000 sample points: all of the sample when it has no more than
    5000 rows, and otherwise the 5000 rows drawn with the fixed seed 42,
    whatever seed the configuration has. *)
Theorem plot_contour_points w sample_df coordinates out_path t :
  sampler_ok w →
  ∃ plot_df,
    _plot_contour w sample_df coordinates out_path t =
      (savefig w out_path plot_df coordinates, t ++ [Savefig out_path]) ∧
    Z.of_nat (length plot_df) = Z.min 5000 (Z.of_nat (length sample_df)) ∧
    (∀ r, r ∈ plot_df → r ∈ sample_df) ∧
    ((Z.of_nat (length sample_df) ≤ 5000)%Z → plot_df = sample_df) ∧
    ((5000 < Z.of_nat (length sample_df))%Z →
       ∃ idxs, sample_indices w 42 (length sample_df) 5000 = Ok idxs ∧
         plot_df = omap (λ i, sample_df !! i) idxs).
Proof.
  intros Hs. unfold _plot_contour, lift, call, mbind, io_bind. case_decide as Hlt.
  - destruct (sample_total w Hs 42 (length sample_df) 5000) as [idxs Hidx]; [lia | lia |].
    destruct (sample_sound w Hs _ _ _ _ Hidx) as (_ & Hl & _ & Hrange).
    destruct (sample_rows sample_df idxs Hrange) as [Hl' Hin].
    unfold SmokeIform.sample. rewrite Hidx. cbn [fmap result_fmap].
    eexists. split; [reflexivity|]. split_and!; [lia | done | lia | by eauto].
  - exists sample_df. split; [reflexivity|]. split_and!; [lia | done | done | lia].
Qed.

Lemma plot_contour_points_witness :
  ∃ plot_df,
    _plot_contour Example.smoke_world [(1, 2); (3, 4)]%Q [(Fin 5%Q, Fin 6%Q)] "plot.png" [] =
      (Ok tt, [] ++ [Savefig "plot.png"]) ∧
    Z.of_nat (length plot_df) = Z.min 5000 (Z.of_nat 2) ∧
    (∀ r, r ∈ plot_df → r ∈ [(1, 2); (3, 4)]%Q) ∧
    ((Z.of_nat 2 ≤ 5000)%Z → plot_df = [(1, 2); (3, 4)]%Q) ∧
    ((5000 < Z.of_nat 2)%Z →
       ∃ idxs, Example.draw 42 2 5000 = Ok idxs ∧
         plot_df = omap (λ i, [(1, 2); (3, 4)]%Q !! i) idxs).
Proof.
  exact (plot_contour_points Example.smoke_world [(1, 2); (3, 4)]%Q [(Fin 5%Q, Fin 6%Q)] "plot.png" []
           draw_ok).
Defined.

Lemma run_maxima w paths_file runtime_file :
  returns (run w paths_file runtime_file)
    (λ r, ∃ model alpha n_points coordinates p s max_primary max_secondary,
       iform_contour w model alpha n_points = Ok coordinates ∧
       runtime_setting w runtime_file "smoke_primary_var" = Some (YStr p) ∧
       runtime_setting w runtime_file "smoke_secondary_var" = Some (YStr s) ∧
       nanmax coordinates.*1 = Ok max_primary ∧
       nanmax coordinates.*2 = Ok max_secondary ∧
       jget r.1 "contour_points" = Some (JInt (Z.of_nat (length coordinates))) ∧
       jget r.1 "maxima" =
         Some (JDict (dict_set (dict_set [] p (JFloat max_primary))
                               s (JFloat max_secondary)))).
Proof.
  unfold run.
  apply returns_lift_bind; intros paths_cfg _.
  apply returns_lift_bind; intros runtime_cfg Hruntime.
  apply returns_lift_bind; intros metocean_csv _.
  apply returns_lift_bind; intros output_dir _.
  apply returns_call_bind; intros _ _.
  apply returns_lift_bind; intros primary_var Hp%DeterminismFacts.getitem_inv.
  apply returns_lift_bind; intros secondary_var Hs%DeterminismFacts.getitem_inv.
  apply returns_lift_bind; intros max_rows _.
  apply returns_lift_bind; intros random_seed _.
  apply returns_lift_bind; intros n_points _.
  apply returns_lift_bind; intros hours _.
  apply returns_bind; intros [sample_df raw_rows].
  apply returns_call_bind; intros model _.
  cbv zeta. apply returns_call_bind; intros coordinates Hcoords.
  apply returns_lift_bind; intros p Hlp.
  apply returns_lift_bind; intros s Hls.
  apply returns_call_bind; intros _ _.
  apply returns_bind; intros _.
  apply returns_lift_bind; intros max_primary Hmp.
  apply returns_lift_bind; intros max_secondary Hms.
  apply returns_ret. cbn [fst].
  destruct primary_var; try done. destruct secondary_var; try done.
  injection Hlp as ->. injection Hls as ->.
  exists model, (calculate_alpha w hours 50), n_points, coordinates, p, s,
    max_primary, max_secondary.
  unfold runtime_setting. rewrite Hruntime. by split_and!.
Qed.

Lemma elem_of_numbers xs q : q ∈ numbers xs ↔ Fin q ∈ xs.
Proof.
  unfold numbers. rewrite list_elem_of_omap. split.
  - intros ([q'|] & Hin & [= ->]). done.
  - intros Hin. by exists (Fin q).
Qed.

Lemma numbers_nil xs : numbers xs = [] → ∀ x, x ∈ xs → x = NaN.
Proof.
  intros Hnil [q|] Hin; [|done].
  apply elem_of_numbers in Hin. rewrite Hnil in Hin. by apply elem_of_nil in Hin.
Qed.

Lemma nanmax_spec xs m : nanmax xs = Ok m → xs ≠ [] ∧ nan_maximum xs m.
Proof.
  unfold nanmax. destruct xs as [|x xs]; [done|]. split; [done|].
  destruct (numbers (x :: xs)) as [|q qs] eqn:Hn.
  - injection H as <-. exact (numbers_nil _ Hn).
  - injection H as <-.
    destruct (DataReportFacts.foldl_Qmax_greatest q qs) as [Hin Hle].
    rewrite <- Hn in Hin, Hle. split.
    + by apply elem_of_numbers.
    + intros y Hy. by apply Hle, elem_of_numbers.
Qed.

(** X19. In a report of the smoke pipeline, [contour_points] is the
    number of coordinates of the contour, which is not empty, and the
    entry of the secondary variable under [maxima] is what [np.nanmax]
    makes of the second coordinates: the greatest of those that are
    numbers, which is one of them and bounds every other, or NaN when
    every second coordinate is NaN. The same holds for the primary
    variable and the first coordinates when the two variables differ;
    when they are the same, [maxima] has one key, with the maximum of
    the second coordinates. *)
Theorem maxima_reported w paths_file runtime_file t payload code t' :
  run w paths_file runtime_file t = (Ok (payload, code), t') →
  ∃ model alpha n_points coordinates p s max_secondary,
    iform_contour w model alpha n_points = Ok coordinates ∧
    runtime_setting w runtime_file "smoke_primary_var" = Some (YStr p) ∧
    runtime_setting w runtime_file "smoke_secondary_var" = Some (YStr s) ∧
    coordinates ≠ [] ∧
    jget payload "contour_points" = Some (JInt (Z.of_nat (length coordinates))) ∧
    jpath payload ["maxima"; s] = Some (JFloat max_secondary) ∧
    nan_maximum coordinates.*2 max_secondary ∧
    (p ≠ s →
       ∃ max_primary,
         jpath payload ["maxima"; p] = Some (JFloat max_primary) ∧
         nan_maximum coordinates.*1 max_primary) ∧
    (p = s → ∃ maxima, jget payload "maxima" = Some maxima ∧ jkeys maxima = [s]).
Proof.
  intros Hrun. apply run_maxima in Hrun
    as (model & alpha & n_points & coordinates & p & s & mp & ms &
        Hc & Hp & Hs & Hmp & Hms & Hpoints & Hmaxima).
  cbn [fst] in *.
  destruct (nanmax_spec _ _ Hmp) as [Hne Hmp'].
  destruct (nanmax_spec _ _ Hms) as [_ Hms'].
  exists model, alpha, n_points, coordinates, p, s, ms.
  split_and!; try done.
  - intros ->. by destruct Hne.
  - unfold jpath. rewrite Hmaxima. cbn [jget]. rewrite dict_get_set.
    by rewrite decide_True.
  - intros Hneq. exists mp. split; [|done].
    unfold jpath. rewrite Hmaxima. cbn [jget]. rewrite !dict_get_set.
    rewrite decide_False by done. by rewrite decide_True.
  - intros ->. eexists. split; [exact Hmaxima|]. simpl. by rewrite decide_True.
Qed.

Lemma maxima_reported_witness :
  ∃ payload code t',
    run Example.smoke_world_nan "paths.yaml" "runtime.yaml" [] = (Ok (payload, code), t') ∧
    jpath payload ["maxima"; "10米风速"] = Some (JFloat (Fin 3%Q)) ∧
    jpath payload ["maxima"; "有义波高"] = Some (JFloat (Fin 2%Q)) ∧
    ∃ model alpha n_points coordinates p s max_secondary,
      iform_contour Example.smoke_world_nan model alpha n_points = Ok coordinates ∧
      runtime_setting Example.smoke_world_nan "runtime.yaml" "smoke_primary_var" =
        Some (YStr p) ∧
      runtime_setting Example.smoke_world_nan "runtime.yaml" "smoke_secondary_var" =
        Some (YStr s) ∧
      coordinates ≠ [] ∧
      jget payload "contour_points" = Some (JInt (Z.of_nat (length coordinates))) ∧
      jpath payload ["maxima"; s] = Some (JFloat max_secondary) ∧
      nan_maximum coordinates.*2 max_secondary ∧
      (p ≠ s →
         ∃ max_primary,
           jpath payload ["maxima"; p] = Some (JFloat max_primary) ∧
           nan_maximum coordinates.*1 max_primary) ∧
      (p = s → ∃ maxima, jget payload "maxima" = Some maxima ∧ jkeys maxima = [s]).
Proof.
  eexists _, _, _.
  eassert (Hrun : run Example.smoke_world_nan "paths.yaml" "runtime.yaml" [] =
                    (Ok (_, _), _)) by (vm_compute; reflexivity).
  split; [exact Hrun|]. split; [vm_compute; reflexivity|]. split; [vm_compute; reflexivity|].
  exact (maxima_reported Example.smoke_world_nan "paths.yaml" "runtime.yaml" [] _ _ _ Hrun).
Defined.

(** X20. When one of the two configured variables is not a column of the
    file, [_prepare_data] raises a [ValueError] right after reading the
    file: nothing is cleaned or sampled. *)
Theorem missing_variable_column w csv_path p s max_rows seed t df :
  read_csv w csv_path = Ok df →
  p ∉ columns df ∨ s ∉ columns df →
  ∃ msg, _prepare_data w csv_path (YStr p) (YStr s) max_rows seed t =
           (Raise (Exc "ValueError" msg), t ++ [ReadCsv csv_path None]).
Proof.
  intros Hread Hmiss. unfold _prepare_data, call, lift, mbind, io_bind, result_bind, label.
  rewrite Hread. unfold usecols. rewrite decide_False; [by eexists|].
  intros Hsub. destruct Hmiss as [H|H]; apply H, Hsub;
    [apply list_elem_of_here | apply list_elem_of_further, list_elem_of_here].
Qed.

Lemma missing_variable_column_witness :
  ∃ msg, _prepare_data Example.smoke_world "/repo/data/metocean.csv"
           (YStr "10米风速") (YStr "wave height") 5 42 [] =
           (Raise (Exc "ValueError" msg), [] ++ [ReadCsv "/repo/data/metocean.csv" None]).
Proof.
  apply (missing_variable_column Example.smoke_world "/repo/data/metocean.csv"
           "10米风速" "wave height" 5 42 [] Example.metocean_table eq_refl).
  right. apply (bool_decide_unpack _). by vm_compute.
Defined.

End SmokeReportFacts.

(** ** The tests of the three scripts *)

Module TestFacts.
Import Tests.

Lemma check_env_exit_0 w paths_file payload :
  CheckEnv.guarded_run w paths_file = (payload, 0%Z) →
  success_flag payload = Some true ∧
  jkeys payload = ["success"; "python_version"; "virocon_version"; "virocon_file";
                   "repo_root"; "source_in_repo"; "imports"].
Proof.
  unfold CheckEnv.guarded_run, CheckEnv.run.
  destruct (CheckEnv._load_yaml w paths_file) as [config|e]; simpl; [|by intros [=]].
  unfold getitem. destruct (config !! "repo_root") as [[root| | |]|]; simpl;
    try by intros [=].
  destruct (CheckEnv._check_imports w CheckEnv.module_names) as [imports imported].
  destruct (dict_get imported "virocon") as [m|]; [destruct (CheckEnv.mod_file m)|];
    simpl; try by intros [=].
  - destruct (forallb _ _ && _); by intros [= <-].
  - rewrite andb_false_r. by intros [=].
Qed.

Lemma exit_0_healthy w paths_file :
  (CheckEnv.guarded_run w paths_file).2 = 0%Z ↔ CheckEnv.healthy w paths_file.
Proof.
  unfold CheckEnv.healthy.
  destruct (CheckEnv.configured_root w paths_file) as [root|] eqn:Hroot.
  - unfold CheckEnv.guarded_run. rewrite (EnvReportFacts.run_root _ _ _ Hroot).
    cbv zeta. unfold CheckEnv.module_of.
    pose proof (CheckEnvFacts.check_imports_all_ok w CheckEnv.module_names) as Hall.
    rewrite (EnvReportFacts.check_imports_listing w CheckEnv.module_names
               EnvReportFacts.module_names_NoDup) in Hall. cbn [fst] in Hall.
    destruct (CheckEnv.import_module w "virocon") as [m|e] eqn:Ev.
    + destruct (CheckEnv.mod_file m) as [f|] eqn:Ef; cbn [mbind result_bind snd].
      * destruct (forallb _ _ && _) eqn:Hb.
        -- split; [intros _|done].
           apply andb_true_iff in Hb as [Ha Hu]. apply Hall in Ha.
           apply bool_decide_eq_true, CheckEnvFacts.elem_of_parents in Hu.
           exists root. split_and!; [done | done |]. by exists m, f.
        -- split; [done|]. intros (? & [= <-] & Ha & m' & f' & [= <-] & Hf & Hu).
           rewrite Ef in Hf. injection Hf as <-.
           apply Hall in Ha. apply CheckEnvFacts.elem_of_parents in Hu.
           apply (bool_decide_eq_true_2 _) in Hu. by rewrite Ha, Hu in Hb.
      * split; [done|]. intros (? & _ & _ & m' & f' & [= <-] & Hf & _). congruence.
    + cbn [mbind result_bind snd]. rewrite andb_false_r.
      split; [done|]. by intros (? & _ & _ & ? & ? & [=] & _).
  - split; [|by intros (? & [=] & _)]. intros Hcode. exfalso.
    unfold CheckEnv.configured_root in Hroot.
    unfold CheckEnv.guarded_run, CheckEnv.run in Hcode.
    destruct (CheckEnv._load_yaml w paths_file) as [config|e]; [|done].
    cbn [mbind result_bind] in Hcode. unfold getitem in Hcode.
    destruct (config !! "repo_root") as [[root| | |]|]; done.
Qed.

Lemma healthy_imports_yaml w paths_file :
  CheckEnv.healthy w paths_file → is_Ok (CheckEnv.import_module w "yaml").
Proof.
  intros (root & _ & Hall & _). apply Hall.
  unfold CheckEnv.module_names. rewrite !elem_of_cons. auto 10.
Qed.

(** X21. [test_check_env_script] passes exactly when the environment
    checker exits with status 0, that is, exactly when the environment
    is healthy and the report can be serialized and printed: its
    assertions on [success] and on the two keys of the report cannot
    fail once the return code is 0. *)
Theorem test_check_env_passes_iff w :
  CheckEnv.parse_args w ["--paths"; PATHS_YAML] = Parsed PATHS_YAML →
  (test_check_env_script w = true ↔ (CheckEnv.main w ["--paths"; PATHS_YAML]).2 = 0%Z) ∧
  (test_check_env_script w = true ↔
   CheckEnv.healthy w PATHS_YAML ∧
   is_Ok (CheckEnv.print_json w (CheckEnv.guarded_run w PATHS_YAML).1)).
Proof.
  intros Hparse.
  assert (Hcode : (CheckEnv.main w ["--paths"; PATHS_YAML]).2 = 0%Z ↔
                  CheckEnv.healthy w PATHS_YAML ∧
                  is_Ok (CheckEnv.print_json w (CheckEnv.guarded_run w PATHS_YAML).1)).
  { split.
    - unfold CheckEnv.main. rewrite Hparse.
      destruct (CheckEnv.import_module w "yaml") as [m|e]; [|done].
      destruct (CheckEnv.guarded_run w PATHS_YAML) as [payload code] eqn:Hrun.
      cbn [fst snd].
      destruct (CheckEnv.print_json w payload) as [u|e] eqn:Hprint; [|done].
      cbn [snd]. intros ->. split; [|by eexists].
      apply exit_0_healthy. by rewrite Hrun.
    - intros [Hhealthy Hprint].
      destruct (healthy_imports_yaml _ _ Hhealthy) as [m Hm].
      apply exit_0_healthy in Hhealthy.
      unfold CheckEnv.main. rewrite Hparse, Hm.
      destruct (CheckEnv.guarded_run w PATHS_YAML) as [payload code].
      cbn [fst snd] in *. by destruct Hprint as [u ->]. }
  rewrite <- Hcode.
  enough (test_check_env_script w = true ↔
          (CheckEnv.main w ["--paths"; PATHS_YAML]).2 = 0%Z) by done.
  unfold test_check_env_script, CheckEnv.main. rewrite Hparse.
  destruct (CheckEnv.import_module w "yaml") as [m|e]; [|done].
  destruct (CheckEnv.guarded_run w PATHS_YAML) as [payload code] eqn:Hrun.
  destruct (CheckEnv.print_json w payload) as [u|e]; [|done]. cbn [fst snd].
  split.
  - intros [H _]%andb_true_iff. by apply bool_decide_eq_true in H.
  - intros ->. destruct (check_env_exit_0 _ _ _ Hrun) as [Hflag Hkeys].
    unfold is_True, has_key, success_flag in *. rewrite Hkeys.
    destruct (jget payload "success") as [[]|]; try done.
    destruct b; done.
Qed.

(** The test machine: the example one, with the configuration where the
    tests look for it. *)
Lemma test_check_env_passes_iff_witness :
  test_check_env_script Example.test_env_world = true.
Proof.
  destruct (test_check_env_passes_iff Example.test_env_world eq_refl) as [_ H].
  apply H. split.
  - apply exit_0_healthy. vm_compute. reflexivity.
  - vm_compute. by eexists.
Defined.

Lemma check_data_exit_0 w paths_file mode :
  returns (CheckData.run w paths_file mode)
    (λ r, r.2 = 0%Z →
          success_flag r.1 = Some true ∧
          jget r.1 "mode" = Some (JStr mode) ∧
          jkeys r.1 = ["success"; "mode"; "paths"; "metocean"; "current"]).
Proof. unfold CheckData.run. repeat returns_step; done. Qed.

(** X22. [test_check_data_quick_script] passes exactly when the data
    checker, started with [--quick], exits with status 0: the report then
    says success, has the mode [quick] and has both the [metocean] and
    the [current] section. *)
Theorem test_check_data_passes_iff w a :
  CheckData.parse_args w ["--paths"; PATHS_YAML; "--quick"] = Parsed a →
  CheckData.quick a = true →
  test_check_data_quick_script w = true ↔
  (CheckData.main w ["--paths"; PATHS_YAML; "--quick"]).2 = 0%Z.
Proof.
  intros Hparse Hquick. unfold test_check_data_quick_script, CheckData.main.
  rewrite Hparse, Hquick. destruct (CheckData.imports w) as [u|e]; [|done].
  unfold CheckData.guarded_run.
  destruct (CheckData.run w (CheckData.paths a) "quick" []) as [[[payload code]|e] t] eqn:Hrun;
    cbn [fst snd];
    [|by destruct (CheckData.print_json w _)].
  destruct (CheckData.print_json w payload) as [u'|e]; [|done]. cbn [fst snd].
  split.
  - intros [H _]%andb_true_iff. by apply bool_decide_eq_true in H.
  - intros ->. destruct (check_data_exit_0 _ _ _ _ _ _ Hrun eq_refl) as (Hflag & Hmode & Hkeys).
    cbn [fst] in *. unfold is_True, equals_str, has_key, success_flag in *.
    rewrite Hkeys, Hmode. destruct (jget payload "success") as [[]|]; try done.
    destruct b; done.
Qed.

Lemma test_check_data_passes_iff_witness :
  test_check_data_quick_script Example.test_data_world = true.
Proof.
  apply (test_check_data_passes_iff Example.test_data_world
           {| CheckData.paths := PATHS_YAML; CheckData.quick := true;
              CheckData.full := false |} eq_refl eq_refl).
  vm_compute. reflexivity.
Defined.

(** X23. As long as the files the pipeline writes are still there when
    the test looks, [test_smoke_iform_script_outputs] passes exactly when
    the smoke pipeline exits with status 0: the two paths the report
    names under [output] are the files the run wrote. *)
Theorem test_smoke_passes_iff w path_exists a :
  SmokeIform.parse_args w ["--paths"; PATHS_YAML; "--runtime"; RUNTIME_YAML] = Parsed a →
  outputs_kept (SmokeIform.run w (SmokeIform.paths a) (SmokeIform.runtime a) []).2
    path_exists →
  test_smoke_iform_script_outputs w path_exists = true ↔
  (SmokeIform.main w ["--paths"; PATHS_YAML; "--runtime"; RUNTIME_YAML]).2 = 0%Z.
Proof.
  intros Hparse Hkept. unfold test_smoke_iform_script_outputs, SmokeIform.main.
  rewrite Hparse. destruct (SmokeIform.imports w) as [u|e]; [|done].
  unfold SmokeIform.guarded_run.
  destruct (SmokeIform.run w (SmokeIform.paths a) (SmokeIform.runtime a) [])
    as [[[payload code]|e] t] eqn:Hrun; cbn [fst snd] in *;
    [|by destruct (SmokeIform.print_json w _)].
  destruct (SmokeIform.print_json w payload) as [u'|e]; [|done]. cbn [fst snd].
  split.
  - intros [H _]%andb_true_iff. by apply bool_decide_eq_true in H.
  - intros ->. pose proof (smoke_iform_returns _ _ _ _ _ _ Hrun) as (b & rest & Hconv).
    destruct (SmokeCallFacts.run_calls w (SmokeIform.paths a) (SmokeIform.runtime a) [])
      as (new & Ht & output_dir & csv & rows & alpha & n_points & _ & _ & Hok).
    rewrite Hrun in Ht, Hok. cbn [fst snd] in Ht, Hok. rewrite app_nil_l in Ht. subst t.
    destruct (Hok _ _ eq_refl) as (_ & _ & -> & _ & Hcoords & Hplot & _).
    unfold output_exists. rewrite Hcoords, Hplot.
    rewrite !Hkept
      by (unfold SmokeIform.pipeline; rewrite !elem_of_cons; auto 10).
    destruct b; injection Hconv as ->; done.
Qed.

Lemma test_smoke_passes_iff_witness :
  test_smoke_iform_script_outputs Example.test_smoke_world Example.smoke_outputs = true.
Proof.
  apply (test_smoke_passes_iff Example.test_smoke_world Example.smoke_outputs
           {| SmokeIform.paths := PATHS_YAML; SmokeIform.runtime := RUNTIME_YAML |} eq_refl).
  - intros file Hfile.
    assert (Hcalls : file = "/repo/out/iform_wind10_hs_coords.csv" ∨
                     file = "/repo/out/iform_wind10_hs_plot.png").
    { vm_compute in Hfile. destruct Hfile as [Hin|Hin];
        repeat (apply elem_of_cons in Hin as [[=]|Hin]; subst; auto);
        by apply elem_of_nil in Hin. }
    by apply bool_decide_eq_true.
  - vm_compute. reflexivity.
Defined.

End TestFacts.
